(** * Ovis workflow engine: parameter resolution, task execution, persistence

    A shallow embedding of [ovis/workflow/engine.py] and
    [ovis/workflow/manager.py].

    - Python values that flow through parameters and handler results are
      the inductive [value] (None, bool, int, str, list, dict with string
      keys in insertion order).
    - The results accumulator of a run ([results], a Python dict keyed by
      task id) is a [gmap string value].
    - A raised exception is the [Raised] constructor of [outcome], carrying
      [str(e)].
    - [datetime.now()] reads a counter that advances with every call.
    - Handlers are functions from the resolved parameter dict to an
      [outcome].  Each call of an observer callback is an entry of the
      event log of the run.  [execute_workflow] is the run in which the
      callbacks return (the ones the UI installs emit a Qt signal): a
      slot of the engine records whether a callback is registered.
      [execute_workflow_observed] is the run with callbacks that return
      or raise; the two agree when every callback returns.
    - [workflow.tasks] is a list of task records: the entries are distinct
      objects, as [from_dict], [from_yaml] and [create_workflow_from_dict]
      build them.
    - [cancel_execution] is written by another thread
      ([WorkflowRunnerThread.stop]); the run takes a function telling
      before which test of the flag that happens.
    - The template and instance directories are maps from file stems to
      documents; an id stands for the file named after it when that name
      is a plain file name ([plain_file_name]). *)

From stdpp Require Import base gmap list strings sorting.
From Stdlib Require Import ZArith Lia Ascii.

Open Scope string_scope.
Open Scope list_scope.
Open Scope nat_scope.

#[local] Set Warnings "-register-all,-clear-no-such-hyp".

(** ** Python values *)

Inductive value : Type :=
| VNone
| VBool (b : bool)
| VInt (z : Z)
| VStr (s : string)
| VList (l : list value)
| VDict (d : list (string * value)).

(** A Python dict with string keys, in insertion order. *)
Abbreviation pydict := (list (string * value)).

Inductive outcome (A : Type) : Type :=
| Returned (a : A)
| Raised (msg : string).
Arguments Returned {A} a.
Arguments Raised {A} msg.

(** [bool(v)]: None, False, 0, the empty string and empty containers are
    falsy. *)
Definition truthy (v : value) : bool :=
  match v with
  | VNone => false
  | VBool b => b
  | VInt z => negb (Z.eqb z 0)
  | VStr s => negb (String.eqb s "")
  | VList l => match l with [] => false | _ => true end
  | VDict d => match d with [] => false | _ => true end
  end.

(** [key in d] and [d[key]] for a dict. *)
Fixpoint dict_get (d : pydict) (key : string) : option value :=
  match d with
  | [] => None
  | (k, v) :: d' => if String.eqb k key then Some v else dict_get d' key
  end.

(** [d[key] = v]: overwrite in place, or append a new entry. *)
Fixpoint dict_set (d : pydict) (key : string) (v : value) : pydict :=
  match d with
  | [] => [(key, v)]
  | (k, w) :: d' =>
      if String.eqb k key then (k, v) :: d' else (k, w) :: dict_set d' key v
  end.

Definition dict_keys (d : pydict) : list string := d.*1.

(** [d.get(key, default)]. *)
Definition dict_get_default (d : pydict) (key : string) (default : value) : value :=
  match dict_get d key with
  | Some v => v
  | None => default
  end.

(** ** Strings *)

(** [s.startswith("$")], returning [s[1:]] when it does. *)
Definition strip_dollar (s : string) : option string :=
  match s with
  | String c rest => if Ascii.eqb c "$"%char then Some rest else None
  | EmptyString => None
  end.

(** [s.split(sep)] for a one-character separator. *)
Fixpoint split (sep : ascii) (s : string) : list string :=
  match s with
  | EmptyString => [""]
  | String c rest =>
      if Ascii.eqb c sep then "" :: split sep rest
      else match split sep rest with
           | [] => [String c ""]
           | p :: ps => String c p :: ps
           end
  end.

(** ** Parameter resolution: [WorkflowEngine._process_params] *)

(** The nested-key loop: [for part in parts[1:]] with its [break]. *)
Fixpoint walk (result : value) (parts : list string) : value :=
  match parts with
  | [] => result
  | part :: parts' =>
      match result with
      | VDict d =>
          match dict_get d part with
          | Some v => walk v parts'
          | None => VNone
          end
      | _ => VNone
      end
  end.

(** The value stored for a key other than [previous_result]. *)
Definition resolve_value (results : gmap string value) (v : value) : value :=
  match v with
  | VStr s =>
      match strip_dollar s with
      | Some rest =>
          match split "."%char rest with
          | task_id :: parts =>
              match results !! task_id with
              | Some r => walk r parts
              | None => v
              end
          | [] => v
          end
      | None => v
      end
  | _ => v
  end.

(** [task_id in results] where the keys of [results] are task ids
    (strings): a list or a dict is unhashable and the test raises
    TypeError; any other non-string is simply not a key. *)
Definition in_results (results : gmap string value) (task_id : value) : outcome bool :=
  match task_id with
  | VStr s => Returned (bool_decide (is_Some (results !! s)))
  | VList _ => Raised "unhashable type: 'list'"
  | VDict _ => Raised "unhashable type: 'dict'"
  | _ => Returned false
  end.

(** The first block of [_process_params]: the [previous_result] key. *)
Definition process_previous_result (params : pydict) (results : gmap string value)
  : outcome pydict :=
  match dict_get params "previous_result" with
  | Some v =>
      if truthy v then
        let task_id :=
          match v with
          | VStr s => match strip_dollar s with Some rest => VStr rest | None => v end
          | _ => v
          end in
        match in_results results task_id with
        | Raised msg => Raised msg
        | Returned true =>
            match task_id with
            | VStr s => Returned (dict_set [] "previous_result" (default VNone (results !! s)))
            | _ => Returned []
            end
        | Returned false => Returned []
        end
      else Returned []
  | None => Returned []
  end.

(** The second block: copy the remaining keys, resolving references. *)
Fixpoint copy_params (items : pydict) (results : gmap string value)
  (processed_params : pydict) : pydict :=
  match items with
  | [] => processed_params
  | (key, v) :: items' =>
      if String.eqb key "previous_result"
      then copy_params items' results processed_params
      else copy_params items' results
             (dict_set processed_params key (resolve_value results v))
  end.

Definition _process_params (params : pydict) (results : gmap string value)
  : outcome pydict :=
  match process_previous_result params results with
  | Raised msg => Raised msg
  | Returned processed_params => Returned (copy_params params results processed_params)
  end.

(** The path walk as the specification words it, with sequence indexing:
    a second definition to compare [walk] against. *)
Definition digit_of (c : ascii) : option nat :=
  let n := nat_of_ascii c in
  if (48 <=? n)%nat && (n <=? 57)%nat then Some (n - 48)%nat else None.

Fixpoint parse_nat_aux (s : string) (acc : nat) : option nat :=
  match s with
  | EmptyString => Some acc
  | String c rest =>
      match digit_of c with
      | Some k => parse_nat_aux rest (10 * acc + k)
      | None => None
      end
  end.

Definition parse_index (s : string) : option nat :=
  match s with
  | EmptyString => None
  | _ => parse_nat_aux s 0
  end.

Fixpoint walk_with_sequences (result : value) (parts : list string) : value :=
  match parts with
  | [] => result
  | part :: parts' =>
      match result with
      | VList l =>
          match parse_index part with
          | Some i =>
              match l !! i with
              | Some v => walk_with_sequences v parts'
              | None => VNone
              end
          | None => VNone
          end
      | VDict d =>
          match dict_get d part with
          | Some v => walk_with_sequences v parts'
          | None => VNone
          end
      | _ => VNone
      end
  end.

(** ** Data model: [Task] and [Workflow] *)

Inductive Status : Type := Pending | Running | Completed | Failed.

Definition status_str (s : Status) : string :=
  match s with
  | Pending => "pending"
  | Running => "running"
  | Completed => "completed"
  | Failed => "failed"
  end.

Record Task : Type := mkTask {
  task_id : string;
  task_handler : string;
  task_parameters : pydict;
  task_description : string;
  task_status : Status;
  task_result : value;
  task_error : option string;
  task_start_time : option nat;
  task_end_time : option nat
}.

(** [Task.__init__]: an empty description is replaced by the handler
    name followed by the word for "task". *)
Definition Task_init (id handler : string) (parameters : pydict)
  (description : string) : Task :=
  {| task_id := id;
     task_handler := handler;
     task_parameters := parameters;
     task_description :=
       if String.eqb description "" then handler +:+ " 작업" else description;
     task_status := Pending;
     task_result := VNone;
     task_error := None;
     task_start_time := None;
     task_end_time := None |}.

Record Workflow : Type := mkWorkflow {
  wf_id : string;
  wf_name : string;
  wf_description : string;
  wf_tasks : list Task;
  wf_status : Status;
  wf_result : option (gmap string value);
  wf_error : option string;
  wf_current_task_index : Z;
  wf_created_at : nat;
  wf_updated_at : nat
}.

(** ** The engine *)

Abbreviation Handler := (pydict -> outcome value).

(** The three observer slots hold [true] when a callback is registered;
    calling it appends an entry to the event log. *)
Record WorkflowEngine : Type := mkEngine {
  task_handlers : gmap string Handler;
  cancel_execution : bool;
  on_task_start : bool;
  on_task_complete : bool;
  on_task_fail : bool
}.


Inductive event : Type :=
| StatusSet (s : Status)
| TaskStartCalled (id : string)
| TaskCompleteCalled (id : string) (r : value)
| TaskFailCalled (id : string) (msg : string).

Definition no_handler_message (handler : string) : string :=
  "작업 타입 '" +:+ handler +:+ "'에 대한 핸들러가 없습니다.".

(** The body of the [try] in [_execute_task] up to the handler's return:
    registry lookup, parameter resolution, handler call. *)
Definition task_body (eng : WorkflowEngine) (task : Task)
  (previous_results : gmap string value) : outcome value :=
  match task_handlers eng !! task_handler task with
  | None => Raised (no_handler_message (task_handler task))
  | Some handler =>
      match _process_params (task_parameters task) previous_results with
      | Raised msg => Raised msg
      | Returned params => handler params
      end
  end.

Definition set_running (task : Task) (now : nat) : Task :=
  {| task_id := task_id task;
     task_handler := task_handler task;
     task_parameters := task_parameters task;
     task_description := task_description task;
     task_status := Running;
     task_result := task_result task;
     task_error := task_error task;
     task_start_time := Some now;
     task_end_time := task_end_time task |}.

Definition set_completed (task : Task) (r : value) (now : nat) : Task :=
  {| task_id := task_id task;
     task_handler := task_handler task;
     task_parameters := task_parameters task;
     task_description := task_description task;
     task_status := Completed;
     task_result := r;
     task_error := task_error task;
     task_start_time := task_start_time task;
     task_end_time := Some now |}.

Definition set_failed (task : Task) (msg : string) (now : nat) : Task :=
  {| task_id := task_id task;
     task_handler := task_handler task;
     task_parameters := task_parameters task;
     task_description := task_description task;
     task_status := Failed;
     task_result := task_result task;
     task_error := Some msg;
     task_start_time := task_start_time task;
     task_end_time := Some now |}.

Record TaskRun : Type := mkTaskRun {
  tr_task : Task;
  tr_clock : nat;
  tr_events : list event;
  tr_outcome : outcome value
}.

Definition _execute_task (eng : WorkflowEngine) (clock : nat) (task : Task)
  (previous_results : gmap string value) : TaskRun :=
  let started := set_running task clock in
  let start_events :=
    StatusSet Running ::
    (if on_task_start eng then [TaskStartCalled (task_id task)] else []) in
  match task_body eng started previous_results with
  | Returned r =>
      {| tr_task := set_completed started r (S clock);
         tr_clock := S (S clock);
         tr_events :=
           start_events ++ StatusSet Completed ::
           (if on_task_complete eng then [TaskCompleteCalled (task_id task) r] else []);
         tr_outcome := Returned r |}
  | Raised msg =>
      {| tr_task := set_failed started msg (S clock);
         tr_clock := S (S clock);
         tr_events :=
           start_events ++ StatusSet Failed ::
           (if on_task_fail eng then [TaskFailCalled (task_id task) msg] else []);
         tr_outcome := Raised msg |}
  end.

(** How the [for] loop of [execute_workflow] was left. *)
Inductive loop_exit : Type :=
| Exhausted
| Cancelled
| Aborted (msg : string).

Record LoopState : Type := mkLoopState {
  ls_tasks : list Task;
  ls_results : gmap string value;
  ls_index : Z;
  ls_clock : nat;
  ls_flag : bool;
  ls_log : list (nat * event);
  ls_exit : loop_exit
}.

(** The loop over [enumerate(workflow.tasks)], from index [i] on.
    [cancel j] tells whether another thread sets [cancel_execution]
    between the previous test of the flag (or its reset at the start of
    the run, for [j = 0]) and the test that precedes task [j]; once set
    the flag stays set.  Log entries carry the position of the task. *)
Fixpoint run_tasks (eng : WorkflowEngine) (cancel : nat -> bool) (i : nat)
  (flag : bool) (index : Z) (clock : nat) (results : gmap string value)
  (tasks : list Task) : LoopState :=
  match tasks with
  | [] =>
      {| ls_tasks := []; ls_results := results; ls_index := index;
         ls_clock := clock; ls_flag := flag; ls_log := []; ls_exit := Exhausted |}
  | task :: rest =>
      if flag || cancel i then
        {| ls_tasks := task :: rest; ls_results := results; ls_index := index;
           ls_clock := clock; ls_flag := true; ls_log := []; ls_exit := Cancelled |}
      else
        let tr := _execute_task eng clock task results in
        match tr_outcome tr with
        | Raised msg =>
            {| ls_tasks := tr_task tr :: rest; ls_results := results;
               ls_index := Z.of_nat i; ls_clock := tr_clock tr; ls_flag := false;
               ls_log := (λ ev, (i, ev)) <$> tr_events tr;
               ls_exit := Aborted msg |}
        | Returned task_result =>
            let ls := run_tasks eng cancel (S i) false (Z.of_nat i) (tr_clock tr)
                        (<[task_id task := task_result]> results) rest in
            {| ls_tasks := tr_task tr :: ls_tasks ls;
               ls_results := ls_results ls;
               ls_index := ls_index ls;
               ls_clock := ls_clock ls;
               ls_flag := ls_flag ls;
               ls_log := ((λ ev, (i, ev)) <$> tr_events tr) ++ ls_log ls;
               ls_exit := ls_exit ls |}
        end
  end.

Definition cancel_message : string := "사용자에 의해 취소됨".

Record RunResult : Type := mkRunResult {
  rr_workflow : Workflow;
  rr_engine : WorkflowEngine;
  rr_clock : nat;
  rr_log : list (nat * event);
  rr_outcome : outcome (gmap string value)
}.

Definition execute_workflow (eng : WorkflowEngine) (cancel : nat -> bool)
  (clock : nat) (workflow : Workflow) : RunResult :=
  let ls := run_tasks eng cancel 0 false (-1) clock ∅ (wf_tasks workflow) in
  let finish (st : Status) (res : option (gmap string value)) (err : option string) :=
    {| wf_id := wf_id workflow;
       wf_name := wf_name workflow;
       wf_description := wf_description workflow;
       wf_tasks := ls_tasks ls;
       wf_status := st;
       wf_result := res;
       wf_error := err;
       wf_current_task_index := ls_index ls;
       wf_created_at := wf_created_at workflow;
       wf_updated_at := wf_updated_at workflow |} in
  let eng' :=
    {| task_handlers := task_handlers eng;
       cancel_execution := ls_flag ls;
       on_task_start := on_task_start eng;
       on_task_complete := on_task_complete eng;
       on_task_fail := on_task_fail eng |} in
  match ls_exit ls with
  | Exhausted =>
      {| rr_workflow := finish Completed (Some (ls_results ls)) (wf_error workflow);
         rr_engine := eng'; rr_clock := ls_clock ls; rr_log := ls_log ls;
         rr_outcome := Returned (ls_results ls) |}
  | Cancelled =>
      {| rr_workflow := finish Failed (wf_result workflow) (Some cancel_message);
         rr_engine := eng'; rr_clock := ls_clock ls; rr_log := ls_log ls;
         rr_outcome := Returned (ls_results ls) |}
  | Aborted msg =>
      {| rr_workflow := finish Failed (wf_result workflow) (Some msg);
         rr_engine := eng'; rr_clock := ls_clock ls; rr_log := ls_log ls;
         rr_outcome := Raised msg |}
  end.

(** ** Serialisation: [to_dict] and [from_dict]

    Documents read from and written to the stores are [value]s: the stores
    keep what [json.dump]/[yaml.safe_load] exchange with the program.  A
    document whose field does not have the annotated type ([id: str],
    [parameters: Dict], ...) has no counterpart in the typed records and
    is reported as [Raised]. *)

Definition Task_to_dict (task : Task) : value :=
  VDict [("id", VStr (task_id task));
         ("handler", VStr (task_handler task));
         ("parameters", VDict (task_parameters task));
         ("description", VStr (task_description task));
         ("status", VStr (status_str (task_status task)))].

Definition Workflow_to_dict (workflow : Workflow) : value :=
  VDict [("id", VStr (wf_id workflow));
         ("name", VStr (wf_name workflow));
         ("description", VStr (wf_description workflow));
         ("tasks", VList (Task_to_dict <$> wf_tasks workflow))].

Definition as_dict (v : value) : outcome pydict :=
  match v with
  | VDict d => Returned d
  | _ => Raised "not a mapping"
  end.

Definition as_str (v : value) : outcome string :=
  match v with
  | VStr s => Returned s
  | _ => Raised "not a string"
  end.

(** [data[key]] for a required string field. *)
Definition required_str (d : pydict) (key : string) : outcome string :=
  match dict_get d key with
  | Some v => as_str v
  | None => Raised ("'" +:+ key +:+ "'")
  end.

(** [parameters or {}] *)
Definition parameters_or_empty (v : value) : outcome pydict :=
  if truthy v then as_dict v else Returned [].

(** [description or f"{handler} ..."], through [Task_init]. *)
Definition description_or_empty (v : value) : outcome string :=
  if truthy v then as_str v else Returned "".

#[global] Instance outcome_bind : MBind outcome :=
  λ A B k m,
    match m with
    | Returned a => k a
    | Raised msg => Raised msg
    end.

Definition Task_from_dict (data : value) : outcome Task :=
  d ← as_dict data;
  id ← required_str d "id";
  handler ← as_str (dict_get_default d "handler" (dict_get_default d "type" (VStr "")));
  parameters ← parameters_or_empty
    (dict_get_default d "parameters" (dict_get_default d "params" (VDict [])));
  description ← description_or_empty (dict_get_default d "description" (VStr ""));
  Returned (Task_init id handler parameters description).

(** The construction in the loop of [Workflow.from_yaml]: [id] and
    [handler] are both required there. *)
Definition Task_from_yaml (task_data : value) : outcome Task :=
  d ← as_dict task_data;
  id ← required_str d "id";
  handler ← required_str d "handler";
  parameters ← parameters_or_empty (dict_get_default d "parameters" (VDict []));
  description ← description_or_empty (dict_get_default d "description" (VStr ""));
  Returned (Task_init id handler parameters description).

Fixpoint parse_tasks (parse : value -> outcome Task) (items : list value)
  : outcome (list Task) :=
  match items with
  | [] => Returned []
  | task_data :: items' =>
      task ← parse task_data;
      tasks ← parse_tasks parse items';
      Returned (task :: tasks)
  end.

Definition as_list (v : value) : outcome (list value) :=
  match v with
  | VList l => Returned l
  | _ => Raised "not a sequence"
  end.

(** [Workflow.__init__] reads the clock twice and every [add_task] once
    more, so a workflow built from [n] task entries at time [clock] has
    [created_at = clock], [updated_at = clock + 1 + n] (or [clock + 1]
    when there is no task) and leaves the clock at [clock + 2 + n]. *)
Definition build_workflow (parse : value -> outcome Task) (clock : nat)
  (data : value) : outcome (Workflow * nat) :=
  d ← as_dict data;
  id ← required_str d "id";
  name ← required_str d "name";
  description ← as_str (dict_get_default d "description" (VStr ""));
  items ← as_list (dict_get_default d "tasks" (VList []));
  tasks ← parse_tasks parse items;
  Returned
    ({| wf_id := id;
        wf_name := name;
        wf_description := description;
        wf_tasks := tasks;
        wf_status := Pending;
        wf_result := None;
        wf_error := None;
        wf_current_task_index := -1;
        wf_created_at := clock;
        wf_updated_at := clock + 1 + length tasks |},
     clock + 2 + length tasks).

Definition Workflow_from_dict := build_workflow Task_from_dict.
Definition Workflow_from_yaml := build_workflow Task_from_yaml.

(** ** File names

    The manager turns an id into the path [<directory>/<id>.json] (or
    [<id>.yaml]).  That path is the file of that name inside the
    directory only when the name is a plain file name: no path separator,
    no NUL, at most 255 bytes.  Any other id addresses a path elsewhere,
    or no path at all, and what happens then depends on the file system
    around the directory. *)
Fixpoint no_separator (name : string) : bool :=
  match name with
  | EmptyString => true
  | String c rest =>
      negb (Ascii.eqb c "/"%char) && negb (Ascii.eqb c Ascii.zero) && no_separator rest
  end.

Definition plain_file_name (name : string) : bool :=
  no_separator name && (String.length name <=? 255).

(** ** The manager: template and instance stores

    Both directories are maps from the file's stem (the id the file is
    named after) to the document it holds, on a file system that tells
    names apart by their bytes and lets the program read and write the
    two directories.  A lookup or an insertion under an id stands for
    the access to the file [<id>.json] (or [<id>.yaml]) of the
    directory, which is what the code does when that name is a plain
    file name; the properties of saving, loading, deleting and creating
    are stated for such ids. *)

Record Stores : Type := mkStores {
  templates : gmap string value;
  instances : gmap string value
}.

Definition save_workflow_instance (st : Stores) (workflow : Workflow) : Stores :=
  {| templates := templates st;
     instances := <[wf_id workflow := Workflow_to_dict workflow]> (instances st) |}.

Definition load_workflow_instance (st : Stores) (clock : nat) (workflow_id : string)
  : option (Workflow * nat) :=
  match instances st !! workflow_id with
  | None => None
  | Some data =>
      match Workflow_from_dict clock data with
      | Returned r => Some r
      | Raised _ => None
      end
  end.

(** [os.remove] can fail on a file that exists (the directory is not
    writable, the name is a directory, ...): [remove_succeeds] tells
    whether it goes through.  A failure is logged and reported as False. *)
Definition delete_workflow_instance (st : Stores) (remove_succeeds : bool)
  (workflow_id : string) : Stores * bool :=
  match instances st !! workflow_id with
  | None => (st, false)
  | Some _ =>
      if remove_succeeds then
        ({| templates := templates st;
            instances := delete workflow_id (instances st) |}, true)
      else (st, false)
  end.

Definition template_not_found (template_id : string) : string :=
  "템플릿을 찾을 수 없습니다: " +:+ template_id.

(** [uuid_hex] is the 32-digit [uuid.uuid4().hex] drawn by the call. *)
Definition create_workflow_from_template (st : Stores) (clock : nat)
  (uuid_hex : string) (template_id : string) : outcome (Workflow * Stores * nat) :=
  match templates st !! template_id with
  | None => Raised (template_not_found template_id)
  | Some data =>
      '(workflow, clock1) ← Workflow_from_yaml clock data;
      let workflow' :=
        {| wf_id := wf_id workflow +:+ "_" +:+ String.substring 0 8 uuid_hex;
           wf_name := wf_name workflow;
           wf_description := wf_description workflow;
           wf_tasks := wf_tasks workflow;
           wf_status := wf_status workflow;
           wf_result := wf_result workflow;
           wf_error := wf_error workflow;
           wf_current_task_index := wf_current_task_index workflow;
           wf_created_at := clock1;
           wf_updated_at := clock1 |} in
      Returned (workflow', save_workflow_instance st workflow', S clock1)
  end.

(** ** The workflow registry of the engine

    [WorkflowEngine.workflows] is a dict from workflow id to workflow, in
    insertion order; it is threaded next to the engine record. *)

Fixpoint registry_get (workflows : list (string * Workflow)) (id : string)
  : option Workflow :=
  match workflows with
  | [] => None
  | (k, w) :: workflows' =>
      if String.eqb k id then Some w else registry_get workflows' id
  end.

(** [self.workflows[id] = workflow] *)
Fixpoint registry_set (workflows : list (string * Workflow)) (id : string)
  (workflow : Workflow) : list (string * Workflow) :=
  match workflows with
  | [] => [(id, workflow)]
  | (k, w) :: workflows' =>
      if String.eqb k id then (k, workflow) :: workflows'
      else (k, w) :: registry_set workflows' id workflow
  end.

Definition get_workflows (workflows : list (string * Workflow)) : list Workflow :=
  workflows.*2.

Definition update_workflow (workflows : list (string * Workflow))
  (workflow : Workflow) : list (string * Workflow) * Workflow :=
  (registry_set workflows (wf_id workflow) workflow, workflow).

Definition id_and_name_required : string := "워크플로우 ID와 이름이 필요합니다".

(** The task loop of [create_workflow_from_dict].  [uuid n] is the n-th
    [str(uuid.uuid4())] drawn: the default of [task_dict.get('id', ...)]
    is evaluated for every task that passes the handler test, used or
    not. *)
Fixpoint collect_tasks (eng : WorkflowEngine) (uuid : nat → string) (n : nat)
  (items : list value) : outcome (list Task * nat) :=
  match items with
  | [] => Returned ([], n)
  | task_dict :: items' =>
      d ← as_dict task_dict;
      let handler := dict_get_default d "handler" VNone in
      if truthy handler then
        known ← match handler with
                | VStr h => Returned (bool_decide (is_Some (task_handlers eng !! h)))
                | VList _ => Raised "unhashable type: 'list'"
                | VDict _ => Raised "unhashable type: 'dict'"
                | _ => Returned false
                end;
        if known : bool then
          h ← as_str handler;
          id ← as_str (dict_get_default d "id" (VStr (uuid n)));
          parameters ← parameters_or_empty (dict_get_default d "parameters" (VDict []));
          description ← description_or_empty
            (dict_get_default d "description" (VStr (h +:+ " 작업")));
          '(tasks, n') ← collect_tasks eng uuid (S n) items';
          Returned (Task_init id h parameters description :: tasks, n')
        else collect_tasks eng uuid n items'
      else collect_tasks eng uuid n items'
  end.

Definition create_workflow_from_dict (eng : WorkflowEngine)
  (workflows : list (string * Workflow)) (uuid : nat → string) (n : nat)
  (clock : nat) (workflow_dict : pydict)
  : outcome (Workflow * list (string * Workflow) * nat * nat) :=
  match dict_get workflow_dict "id", dict_get workflow_dict "name" with
  | Some id_value, Some name_value =>
      let items :=
        match dict_get workflow_dict "tasks" with
        | Some (VList l) => l
        | _ => []
        end in
      id ← as_str id_value;
      name ← as_str name_value;
      description ← as_str (dict_get_default workflow_dict "description" (VStr ""));
      '(tasks, n') ← collect_tasks eng uuid n items;
      let workflow :=
        {| wf_id := id;
           wf_name := name;
           wf_description := description;
           wf_tasks := tasks;
           wf_status := Pending;
           wf_result := None;
           wf_error := None;
           wf_current_task_index := -1;
           wf_created_at := clock;
           wf_updated_at := S clock |} in
      Returned (workflow, registry_set workflows id workflow, n', S (S clock))
  | _, _ => Raised id_and_name_required
  end.

(** ** Callers in the UI *)

(** The reset loop of [WorkflowWidget.run_selected_workflow]. *)
Definition reset_task (task : Task) : Task :=
  {| task_id := task_id task;
     task_handler := task_handler task;
     task_parameters := task_parameters task;
     task_description := task_description task;
     task_status := Pending;
     task_result := VNone;
     task_error := None;
     task_start_time := None;
     task_end_time := None |}.

Definition reset_run_state (workflow : Workflow) : Workflow :=
  {| wf_id := wf_id workflow;
     wf_name := wf_name workflow;
     wf_description := wf_description workflow;
     wf_tasks := reset_task <$> wf_tasks workflow;
     wf_status := Pending;
     wf_result := wf_result workflow;
     wf_error := wf_error workflow;
     wf_current_task_index := wf_current_task_index workflow;
     wf_created_at := wf_created_at workflow;
     wf_updated_at := wf_updated_at workflow |}.

Inductive selection : Type :=
| CannotLoad
| AlreadyRunning
| Started (workflow : Workflow) (clock : nat).

(** [WorkflowWidget.run_selected_workflow] for a selected instance id:
    load, refuse a running workflow, reset, emit [workflowStarted]. *)
Definition run_selected_workflow (st : Stores) (clock : nat) (workflow_id : string)
  : selection :=
  match load_workflow_instance st clock workflow_id with
  | None => CannotLoad
  | Some (workflow, clock') =>
      match wf_status workflow with
      | Running => AlreadyRunning
      | _ => Started (reset_run_state workflow) clock'
      end
  end.

Inductive thread_signal : Type :=
| workflowCompleted (workflow : Workflow)
| workflowFailed (workflow : Workflow) (msg : string).

Definition with_result (workflow : Workflow) (res : option (gmap string value))
  : Workflow :=
  {| wf_id := wf_id workflow;
     wf_name := wf_name workflow;
     wf_description := wf_description workflow;
     wf_tasks := wf_tasks workflow;
     wf_status := wf_status workflow;
     wf_result := res;
     wf_error := wf_error workflow;
     wf_current_task_index := wf_current_task_index workflow;
     wf_created_at := wf_created_at workflow;
     wf_updated_at := wf_updated_at workflow |}.

(** [WorkflowRunnerThread.run]: install the three callbacks, run the
    workflow, store the returned value in [workflow.result] and emit
    [workflowCompleted]; on an exception emit [workflowFailed].  The
    [taskStarted]/[taskCompleted]/[taskFailed] signals are the callback
    entries of the log. *)
Definition runner_thread_run (eng : WorkflowEngine) (cancel : nat → bool)
  (clock : nat) (workflow : Workflow) : RunResult * thread_signal :=
  let eng' :=
    {| task_handlers := task_handlers eng;
       cancel_execution := cancel_execution eng;
       on_task_start := true;
       on_task_complete := true;
       on_task_fail := true |} in
  let rr := execute_workflow eng' cancel clock workflow in
  match rr_outcome rr with
  | Returned result =>
      let workflow' := with_result (rr_workflow rr) (Some result) in
      ({| rr_workflow := workflow';
          rr_engine := rr_engine rr;
          rr_clock := rr_clock rr;
          rr_log := rr_log rr;
          rr_outcome := rr_outcome rr |},
       workflowCompleted workflow')
  | Raised msg => (rr, workflowFailed (rr_workflow rr) msg)
  end.

(** The fields of a task that a run never writes. *)
Definition same_definition (t t' : Task) : Prop :=
  task_id t' = task_id t
  ∧ task_handler t' = task_handler t
  ∧ task_parameters t' = task_parameters t
  ∧ task_description t' = task_description t.

(** ** Vocabulary of the properties *)

Definition acc_hello : gmap string value :=
  {[ "t1" := VDict [("text", VStr "hello")] ]}.

Definition acc_items : gmap string value :=
  {[ "t1" := VDict [("items", VList [VStr "a"; VStr "b"])] ]}.

(** The accumulator reached when every task of [tasks] succeeds in turn,
    starting from [results]; [None] as soon as one of them raises. *)
Fixpoint accumulate (eng : WorkflowEngine) (results : gmap string value)
  (tasks : list Task) : option (gmap string value) :=
  match tasks with
  | [] => Some results
  | task :: rest =>
      match task_body eng task results with
      | Returned r => accumulate eng (<[task_id task := r]> results) rest
      | Raised _ => None
      end
  end.

(** [pre'] is what a run leaves of the tasks [pre] when each of them
    succeeded: position by position the same task, completed, holding the
    value its handler returned on the accumulator of the tasks before it. *)
Definition ran_to_completion (eng : WorkflowEngine) (results : gmap string value)
  (pre pre' : list Task) : Prop :=
  length pre' = length pre ∧
  ∀ j t', pre' !! j = Some t' →
    ∃ t prev,
      pre !! j = Some t
      ∧ accumulate eng results (take j pre) = Some prev
      ∧ task_body eng t prev = Returned (task_result t')
      ∧ task_status t' = Completed
      ∧ task_id t' = task_id t
      ∧ task_handler t' = task_handler t
      ∧ task_parameters t' = task_parameters t.

(** The values assigned to [task.status] of the task at position [i], in
    the order of the log. *)
Definition status_writes (i : nat) (log : list (nat * event)) : list Status :=
  omap (λ entry,
          match entry.2 with
          | StatusSet s => if decide (entry.1 = i) then Some s else None
          | _ => None
          end) log.

(** The history of a task over a run: the status it entered the run
    with, then the assignments in order. *)
Definition status_history (initial : Status) (i : nat) (log : list (nat * event))
  : list Status :=
  initial :: status_writes i log.

Inductive forward_step : Status → Status → Prop :=
| start_step : forward_step Pending Running
| complete_step : forward_step Running Completed
| fail_step : forward_step Running Failed.

Fixpoint forward_chain (history : list Status) : Prop :=
  match history with
  | s :: rest =>
      match rest with
      | s' :: _ => forward_step s s' ∧ forward_chain rest
      | [] => True
      end
  | [] => True
  end.

(** The moves the invariant rules out: running back to pending, a
    terminal status back to running or pending, and one terminal status
    to the other. *)
Definition backward_step (s s' : Status) : bool :=
  match s, s' with
  | Running, Pending => true
  | Completed, (Running | Pending | Failed) => true
  | Failed, (Running | Pending | Completed) => true
  | _, _ => false
  end.

Fixpoint has_backward_step (history : list Status) : bool :=
  match history with
  | s :: rest =>
      match rest with
      | s' :: _ => backward_step s s' || has_backward_step rest
      | [] => false
      end
  | [] => false
  end.



(** An engine with two handlers: ["echo"] returns its [text] parameter and
    ["fail"] raises; a one-task workflow and a three-task workflow for it. *)
Definition echo_engine : WorkflowEngine :=
  {| task_handlers :=
       <["echo" := λ params, Returned (dict_get_default params "text" VNone)]>
         (<["fail" := λ _, Raised "boom"]> ∅);
     cancel_execution := false;
     on_task_start := true;
     on_task_complete := true;
     on_task_fail := true |}.

Definition echo_workflow : Workflow :=
  {| wf_id := "wf1";
     wf_name := "echo once";
     wf_description := "";
     wf_tasks := [Task_init "t1" "echo" [("text", VStr "hello")] ""];
     wf_status := Pending;
     wf_result := None;
     wf_error := None;
     wf_current_task_index := -1;
     wf_created_at := 0;
     wf_updated_at := 1 |}.

Definition echo_task (id text : string) : Task :=
  Task_init id "echo" [("text", VStr text)] "".

Definition fail_task (id : string) : Task := Task_init id "fail" [] "".

Definition three_tasks (second : Task) : Workflow :=
  {| wf_id := "wf3";
     wf_name := "three steps";
     wf_description := "";
     wf_tasks := [echo_task "t1" "hello"; second; echo_task "t3" "$t1"];
     wf_status := Pending;
     wf_result := None;
     wf_error := None;
     wf_current_task_index := -1;
     wf_created_at := 0;
     wf_updated_at := 4 |}.


Definition never_cancelled : nat → bool := λ _, false.

(** Running [echo_workflow], and running the workflow object it leaves
    once more on the same engine. *)
Definition first_run : RunResult :=
  execute_workflow echo_engine never_cancelled 0 echo_workflow.

Definition second_run : RunResult :=
  execute_workflow (rr_engine first_run) never_cancelled (rr_clock first_run)
    (rr_workflow first_run).

Definition no_files : Stores := {| templates := ∅; instances := ∅ |}.

(** Saving the workflow left by [first_run] and loading it back. *)
Definition reloaded : option (Workflow * nat) :=
  load_workflow_instance
    (save_workflow_instance no_files (rr_workflow first_run))
    (rr_clock first_run) "wf1".

(** A template store whose file [report.yaml] holds a template with the
    id ["daily"]. *)
Definition report_template : value :=
  VDict [("id", VStr "daily");
         ("name", VStr "Daily report");
         ("tasks", VList [VDict [("id", VStr "fetch"); ("handler", VStr "echo")]])].

Definition report_store : Stores :=
  {| templates := {[ "report" := report_template ]}; instances := ∅ |}.

Definition sample_uuid_hex : string := "3f2a9c1e5b7d4e6f8a0b1c2d3e4f5a6b".

(** Values that can be tested for membership in a dict. *)
Definition hashable (v : value) : bool :=
  match v with
  | VList _ | VDict _ => false
  | _ => true
  end.

Definition returned {A : Type} (o : outcome A) : option A :=
  match o with
  | Returned a => Some a
  | Raised _ => None
  end.

Definition status_of (ev : event) : option Status :=
  match ev with
  | StatusSet s => Some s
  | _ => None
  end.

(** Another thread sets the flag while the task at position [i - 1] runs
    (or, for [i = 0], right after the flag was reset). *)
Definition cancelled_before (i : nat) : nat → bool := λ j, bool_decide (j = i).


(** [workflow.current_task_index] after [n] tasks were started from
    position [i] on, when it was [index] before. *)
Definition index_after (index : Z) (i n : nat) : Z :=
  match n with
  | 0 => index
  | S m => Z.of_nat (i + m)
  end.

(** A task as [Task.__init__] leaves it: no run state, and a description
    that is not empty. *)
Definition fresh_task (t : Task) : Prop :=
  task_status t = Pending
  ∧ task_result t = VNone
  ∧ task_error t = None
  ∧ task_start_time t = None
  ∧ task_end_time t = None
  ∧ task_description t ≠ "".

(** ** Listings of the manager

    [glob.glob] lists a directory in an order the program does not
    control; the listings below take the files in the order of
    [map_to_list].  A file is named by its stem followed by its
    extension.  [glob.glob("*.ext")] does not match a name that starts
    with a dot: the file [<stem>.ext] is listed unless the stem is empty
    or starts with a dot. *)

Definition listed_by_glob (stem : string) : bool :=
  match stem with
  | EmptyString => false
  | String c _ => negb (Ascii.eqb c "."%char)
  end.

Definition glob_files (directory : gmap string value) : list (string * value) :=
  filter (λ file, listed_by_glob file.1 = true) (map_to_list directory).

(** The entries of [get_templates] hold the attributes of the workflow
    that [Workflow.from_yaml] builds, which are the values of the
    document, of whatever type: [Workflow.__init__] stores its arguments
    as they come. *)
Record TemplateSummary : Type := mkTemplateSummary {
  ts_id : value;
  ts_name : value;
  ts_description : value;
  ts_tasks_count : nat;
  ts_file_path : string
}.

(** One round of the task loop of [Workflow.from_yaml] goes through when
    [task_data["id"]], [task_data["handler"]] and [task_data.get] do: the
    item is a mapping that has both keys. *)
Definition yaml_task_loads (task_data : value) : bool :=
  match task_data with
  | VDict d =>
      bool_decide (is_Some (dict_get d "id"))
      && bool_decide (is_Some (dict_get d "handler"))
  | _ => false
  end.

(** [len(workflow.tasks)] after the loop over [data.get("tasks", [])], or
    [None] when the loop raises.  A sequence is traversed item by item;
    iterating over a mapping yields its keys and over a string its
    characters, which cannot be indexed by ["id"], so only the empty ones
    go through; None, a boolean or a number cannot be iterated. *)
Definition yaml_tasks_count (tasks : value) : option nat :=
  match tasks with
  | VList l => if forallb yaml_task_loads l then Some (length l) else None
  | VDict [] => Some 0
  | VStr "" => Some 0
  | _ => None
  end.

(** The body of the [try] in [get_templates] for one file: load the
    workflow with [Workflow.from_yaml], then build the summary.  [None]
    when the load raises: the document is not a mapping, it has no [id]
    or no [name], or the task loop raises. *)
Definition yaml_summary (file_path : string) (data : value) : option TemplateSummary :=
  match data with
  | VDict d =>
      id ← dict_get d "id";
      name ← dict_get d "name";
      tasks_count ← yaml_tasks_count (dict_get_default d "tasks" (VList []));
      Some {| ts_id := id;
              ts_name := name;
              ts_description := dict_get_default d "description" (VStr "");
              ts_tasks_count := tasks_count;
              ts_file_path := file_path |}
  | _ => None
  end.

(** The loop of [get_templates]: a file that does not load is logged and
    skipped. *)
Definition get_templates (st : Stores) : list TemplateSummary :=
  omap (λ file, yaml_summary (file.1 +:+ ".yaml") file.2) (glob_files (templates st)).

(** The summary of a template that loaded into the typed workflow. *)
Definition template_summary (file_path : string) (workflow : Workflow)
  : TemplateSummary :=
  {| ts_id := VStr (wf_id workflow);
     ts_name := VStr (wf_name workflow);
     ts_description := VStr (wf_description workflow);
     ts_tasks_count := length (wf_tasks workflow);
     ts_file_path := file_path |}.

(** The entries of [get_instances] hold what [data.get] returns, of
    whatever type the document has there. *)
Record InstanceSummary : Type := mkInstanceSummary {
  is_id : value;
  is_name : value;
  is_status : value;
  is_created_at : value;
  is_updated_at : value;
  is_file_path : string
}.

Definition instance_summary (file_path : string) (data : pydict) : InstanceSummary :=
  {| is_id := dict_get_default data "id" (VStr "");
     is_name := dict_get_default data "name" (VStr "");
     is_status := dict_get_default data "status" (VStr "");
     is_created_at := dict_get_default data "created_at" (VStr "");
     is_updated_at := dict_get_default data "updated_at" (VStr "");
     is_file_path := file_path |}.

(** The loop of [get_instances]: a document that is not a mapping has no
    [get] and is skipped. *)
Fixpoint summarise_instances (files : list (string * value)) : list InstanceSummary :=
  match files with
  | [] => []
  | (stem, data) :: files' =>
      match data with
      | VDict d => instance_summary (stem +:+ ".json") d :: summarise_instances files'
      | _ => summarise_instances files'
      end
  end.

(** [sorted(instances, key=created_at, reverse=True)] for string keys:
    descending, entries with equal keys in their original order. *)
Fixpoint insert_by_created_at (key : string) (x : InstanceSummary)
  (sorted : list (string * InstanceSummary)) : list (string * InstanceSummary) :=
  match sorted with
  | [] => [(key, x)]
  | (k, y) :: sorted' =>
      if String.ltb k key then (key, x) :: (k, y) :: sorted'
      else (k, y) :: insert_by_created_at key x sorted'
  end.

Fixpoint sort_by_created_at (summaries : list InstanceSummary)
  (sorted : list (string * InstanceSummary))
  : outcome (list (string * InstanceSummary)) :=
  match summaries with
  | [] => Returned sorted
  | x :: summaries' =>
      key ← as_str (is_created_at x);
      sort_by_created_at summaries' (insert_by_created_at key x sorted)
  end.

Definition get_instances (st : Stores) : outcome (list InstanceSummary) :=
  sorted ← sort_by_created_at (summarise_instances (glob_files (instances st))) [];
  Returned (sorted.*2).

(** ** [ConfigManager.get] and [ConfigManager.set]

    The configuration is the dict read from [config.json]; [set] returns
    the dict it leaves, which is also what [save] writes. *)
Definition ConfigManager_get (config : pydict) (section : string)
  (key : option string) (default : value) : outcome value :=
  match key with
  | None => Returned (dict_get_default config section default)
  | Some k =>
      section_data ← as_dict (dict_get_default config section (VDict []));
      Returned (dict_get_default section_data k default)
  end.

Definition ConfigManager_set (config : pydict) (section key : string) (v : value)
  : outcome pydict :=
  let config' :=
    match dict_get config section with
    | Some _ => config
    | None => dict_set config section (VDict [])
    end in
  section_data ← as_dict (dict_get_default config' section VNone);
  Returned (dict_set config' section (VDict (dict_set section_data key v))).

(** A workflow description with a task of an unknown handler type and a
    task without an id. *)
Definition sample_description : pydict :=
  [("id", VStr "wf9"); ("name", VStr "sample");
   ("tasks", VList [VDict [("id", VStr "a"); ("handler", VStr "echo")];
                    VDict [("id", VStr "b"); ("handler", VStr "unknown")];
                    VDict [("handler", VStr "fail")]])].

(** A template store whose file [legacy.yaml] names a task's handler
    with the older "type" key. *)
Definition legacy_task_entry : pydict := [("id", VStr "fetch"); ("type", VStr "echo")].

Definition legacy_template : pydict :=
  [("id", VStr "legacy"); ("name", VStr "Legacy"); ("tasks", VList [VDict legacy_task_entry])].

Definition legacy_store : Stores :=
  {| templates := {[ "legacy" := VDict legacy_template ]}; instances := ∅ |}.

(** The engine with the three callbacks of the runner thread installed. *)
Definition with_thread_callbacks (eng : WorkflowEngine) : WorkflowEngine :=
  {| task_handlers := task_handlers eng;
     cancel_execution := cancel_execution eng;
     on_task_start := true;
     on_task_complete := true;
     on_task_fail := true |}.

(** ** The engine with callbacks that may raise

    [execute_workflow] above is the run in which every callback returns.
    Here a callback is a function that returns or raises; its first
    argument is the position of the task it is called for (the model's
    index of the call, so that a callback may behave differently from
    one call to the next), followed by the arguments the engine passes.
    [on_task_start] is called before the [try] of [_execute_task]: when it
    raises the task is left running.  [on_task_complete] is called inside
    the [try], after the task was marked completed: when it raises the
    [except] block marks the task failed.  [on_task_fail] is called
    inside the [except] block: when it raises, its exception replaces the
    one being handled. *)

Record Observers : Type := mkObservers {
  start_callback : option (nat → string → outcome unit);
  complete_callback : option (nat → string → value → outcome unit);
  fail_callback : option (nat → string → string → outcome unit)
}.

Definition raised_by (o : outcome unit) : option string :=
  match o with
  | Returned _ => None
  | Raised msg => Some msg
  end.

(** [if self.on_task_start: self.on_task_start(task.id)]: the log entry
    of the call, if any, and the message it raised, if it raised. *)
Definition call_start (obs : Observers) (i : nat) (id : string)
  : list event * option string :=
  match start_callback obs with
  | None => ([], None)
  | Some f => ([TaskStartCalled id], raised_by (f i id))
  end.

Definition call_complete (obs : Observers) (i : nat) (id : string) (r : value)
  : list event * option string :=
  match complete_callback obs with
  | None => ([], None)
  | Some f => ([TaskCompleteCalled id r], raised_by (f i id r))
  end.

Definition call_fail (obs : Observers) (i : nat) (id msg : string)
  : list event * option string :=
  match fail_callback obs with
  | None => ([], None)
  | Some f => ([TaskFailCalled id msg], raised_by (f i id msg))
  end.

(** The [except] block of [_execute_task], entered with the exception
    message [msg] at time [now] after the events [events]. *)
Definition fail_observed (obs : Observers) (i : nat) (task : Task) (msg : string)
  (now : nat) (events : list event) : TaskRun :=
  {| tr_task := set_failed task msg now;
     tr_clock := S now;
     tr_events := events ++ StatusSet Failed :: (call_fail obs i (task_id task) msg).1;
     tr_outcome := Raised (default msg (call_fail obs i (task_id task) msg).2) |}.

Definition _execute_task_observed (eng : WorkflowEngine) (obs : Observers) (i : nat)
  (clock : nat) (task : Task) (previous_results : gmap string value) : TaskRun :=
  let started := set_running task clock in
  let start_events := StatusSet Running :: (call_start obs i (task_id task)).1 in
  match (call_start obs i (task_id task)).2 with
  | Some msg =>
      {| tr_task := started;
         tr_clock := S clock;
         tr_events := start_events;
         tr_outcome := Raised msg |}
  | None =>
      match task_body eng started previous_results with
      | Returned r =>
          let completed := set_completed started r (S clock) in
          let events :=
            start_events ++ StatusSet Completed
            :: (call_complete obs i (task_id task) r).1 in
          match (call_complete obs i (task_id task) r).2 with
          | None =>
              {| tr_task := completed;
                 tr_clock := S (S clock);
                 tr_events := events;
                 tr_outcome := Returned r |}
          | Some msg => fail_observed obs i completed msg (S (S clock)) events
          end
      | Raised msg => fail_observed obs i started msg (S clock) start_events
      end
  end.

Fixpoint run_tasks_observed (eng : WorkflowEngine) (obs : Observers)
  (cancel : nat → bool) (i : nat) (flag : bool) (index : Z) (clock : nat)
  (results : gmap string value) (tasks : list Task) : LoopState :=
  match tasks with
  | [] =>
      {| ls_tasks := []; ls_results := results; ls_index := index;
         ls_clock := clock; ls_flag := flag; ls_log := []; ls_exit := Exhausted |}
  | task :: rest =>
      if flag || cancel i then
        {| ls_tasks := task :: rest; ls_results := results; ls_index := index;
           ls_clock := clock; ls_flag := true; ls_log := []; ls_exit := Cancelled |}
      else
        let tr := _execute_task_observed eng obs i clock task results in
        match tr_outcome tr with
        | Raised msg =>
            {| ls_tasks := tr_task tr :: rest; ls_results := results;
               ls_index := Z.of_nat i; ls_clock := tr_clock tr; ls_flag := false;
               ls_log := (λ ev, (i, ev)) <$> tr_events tr;
               ls_exit := Aborted msg |}
        | Returned task_result =>
            let ls := run_tasks_observed eng obs cancel (S i) false (Z.of_nat i)
                        (tr_clock tr) (<[task_id task := task_result]> results) rest in
            {| ls_tasks := tr_task tr :: ls_tasks ls;
               ls_results := ls_results ls;
               ls_index := ls_index ls;
               ls_clock := ls_clock ls;
               ls_flag := ls_flag ls;
               ls_log := ((λ ev, (i, ev)) <$> tr_events tr) ++ ls_log ls;
               ls_exit := ls_exit ls |}
        end
  end.

(** The engine record with its three slots marked as the callbacks of
    [obs] are registered. *)
Definition with_observers (eng : WorkflowEngine) (obs : Observers) : WorkflowEngine :=
  {| task_handlers := task_handlers eng;
     cancel_execution := cancel_execution eng;
     on_task_start := bool_decide (is_Some (start_callback obs));
     on_task_complete := bool_decide (is_Some (complete_callback obs));
     on_task_fail := bool_decide (is_Some (fail_callback obs)) |}.

Definition execute_workflow_observed (eng : WorkflowEngine) (obs : Observers)
  (cancel : nat → bool) (clock : nat) (workflow : Workflow) : RunResult :=
  let ls := run_tasks_observed eng obs cancel 0 false (-1) clock ∅ (wf_tasks workflow) in
  let finish (st : Status) (res : option (gmap string value)) (err : option string) :=
    {| wf_id := wf_id workflow;
       wf_name := wf_name workflow;
       wf_description := wf_description workflow;
       wf_tasks := ls_tasks ls;
       wf_status := st;
       wf_result := res;
       wf_error := err;
       wf_current_task_index := ls_index ls;
       wf_created_at := wf_created_at workflow;
       wf_updated_at := wf_updated_at workflow |} in
  let eng' :=
    {| task_handlers := task_handlers eng;
       cancel_execution := ls_flag ls;
       on_task_start := bool_decide (is_Some (start_callback obs));
       on_task_complete := bool_decide (is_Some (complete_callback obs));
       on_task_fail := bool_decide (is_Some (fail_callback obs)) |} in
  match ls_exit ls with
  | Exhausted =>
      {| rr_workflow := finish Completed (Some (ls_results ls)) (wf_error workflow);
         rr_engine := eng'; rr_clock := ls_clock ls; rr_log := ls_log ls;
         rr_outcome := Returned (ls_results ls) |}
  | Cancelled =>
      {| rr_workflow := finish Failed (wf_result workflow) (Some cancel_message);
         rr_engine := eng'; rr_clock := ls_clock ls; rr_log := ls_log ls;
         rr_outcome := Returned (ls_results ls) |}
  | Aborted msg =>
      {| rr_workflow := finish Failed (wf_result workflow) (Some msg);
         rr_engine := eng'; rr_clock := ls_clock ls; rr_log := ls_log ls;
         rr_outcome := Raised msg |}
  end.

(** Every call of every callback returns. *)
Definition callbacks_return (obs : Observers) : Prop :=
  (∀ f i id, start_callback obs = Some f → f i id = Returned ())
  ∧ (∀ f i id r, complete_callback obs = Some f → f i id r = Returned ())
  ∧ (∀ f i id msg, fail_callback obs = Some f → f i id msg = Returned ()).

(** Callbacks that only take note of the call, and callbacks whose
    completion hook raises. *)
Definition quiet_observers : Observers :=
  {| start_callback := Some (λ _ _, Returned ());
     complete_callback := Some (λ _ _ _, Returned ());
     fail_callback := Some (λ _ _ _, Returned ()) |}.

Definition failing_completion_observers : Observers :=
  {| start_callback := Some (λ _ _, Returned ());
     complete_callback := Some (λ _ _ _, Raised "display is gone");
     fail_callback := Some (λ _ _ _, Returned ()) |}.

(** How the task run that made a run raise [msg] left its task.  [t] is
    the task at position [k] as it entered the run, [acc] the accumulator
    it ran against and [t'] the task after the run.  Either the start
    callback raised [msg], before the [try]: the task is left running.
    Or the [except] block was entered with an exception [cause], raised
    by the body (handler lookup, parameter resolution, handler call) or
    by the completion callback after the handler returned: the task is
    failed with error [cause], and [msg] is [cause] unless the failure
    callback raised in its turn, in which case it is what that callback
    raised. *)
Inductive stopped (eng : WorkflowEngine) (obs : Observers) (k : nat) (t : Task)
  (acc : gmap string value) (msg : string) (t' : Task) : Prop :=
| start_callback_raised :
    (call_start obs k (task_id t)).2 = Some msg →
    task_status t' = Running →
    task_error t' = task_error t →
    stopped eng obs k t acc msg t'
| body_raised (cause : string) :
    (call_start obs k (task_id t)).2 = None →
    task_body eng t acc = Raised cause →
    task_status t' = Failed →
    task_error t' = Some cause →
    msg = default cause (call_fail obs k (task_id t) cause).2 →
    stopped eng obs k t acc msg t'
| complete_callback_raised (r : value) (cause : string) :
    (call_start obs k (task_id t)).2 = None →
    task_body eng t acc = Returned r →
    (call_complete obs k (task_id t) r).2 = Some cause →
    task_status t' = Failed →
    task_result t' = r →
    task_error t' = Some cause →
    msg = default cause (call_fail obs k (task_id t) cause).2 →
    stopped eng obs k t acc msg t'.

(** The accumulator after the tasks [tasks] returned the values [rs], in
    order, starting from [results]. *)
Definition results_from (results : gmap string value) (tasks : list Task)
  (rs : list value) : gmap string value :=
  foldl (λ acc entry, <[task_id entry.1 := entry.2]> acc) results (zip tasks rs).

(** An instance directory holding the files [wf1.json] and [wf3.json]. *)
Definition stored_instances : Stores :=
  save_workflow_instance (save_workflow_instance no_files echo_workflow)
    (three_tasks (echo_task "t2" "again")).

(** A template directory with a hidden file, a template whose id is a
    number and whose description is null, and a file that holds a
    sequence. *)
Definition loose_template : pydict :=
  [("id", VInt 7); ("name", VStr "Loose"); ("description", VNone)].

Definition mixed_templates : Stores :=
  {| templates :=
       <[".draft" := report_template]>
         (<["loose" := VDict loose_template]>
            (<["broken" := VList []]> {[ "report" := report_template ]}));
     instances := ∅ |}.

(** An instance directory with a hidden file next to [wf1.json]. *)
Definition hidden_instance : Stores :=
  {| templates := ∅;
     instances :=
       <[".hidden" := VDict [("id", VStr "ghost"); ("status", VStr "running")]]>
         (instances (save_workflow_instance no_files (rr_workflow first_run))) |}.

(** * Properties *)

Example split_three : split "."%char "t1.a.b" = ["t1"; "a"; "b"].
Proof. reflexivity. Qed.

Example split_empty : split "."%char "" = [""].
Proof. reflexivity. Qed.

Example resolve_hello : resolve_value acc_hello (VStr "$t1.text") = VStr "hello".
Proof. vm_compute. reflexivity. Qed.

(** ** Parameter resolution *)

Lemma walk_nil (result : value) : walk result [] = result.
Proof. reflexivity. Qed.

Lemma walk_not_dict (result : value) (part : string) (parts : list string) :
  (∀ d, result ≠ VDict d) → walk result (part :: parts) = VNone.
Proof. intros Hd. destruct result; try reflexivity. by destruct (Hd d). Qed.

(** C2: with accumulator {"t1": {"text": "hello"}}, "$t1.text" resolves to
    "hello", "$t1.missing" to None, "$unknown.text" stays the literal
    string, and previous_result "$t1" becomes the whole prior result
    {"text": "hello"}; the four together in one parameter dict resolve
    the same way. *)
Theorem process_params_hello :
  resolve_value acc_hello (VStr "$t1.text") = VStr "hello"
  ∧ resolve_value acc_hello (VStr "$t1.missing") = VNone
  ∧ resolve_value acc_hello (VStr "$unknown.text") = VStr "$unknown.text"
  ∧ _process_params [("previous_result", VStr "$t1")] acc_hello
    = Returned [("previous_result", VDict [("text", VStr "hello")])]
  ∧ _process_params
      [("a", VStr "$t1.text"); ("b", VStr "$t1.missing");
       ("c", VStr "$unknown.text"); ("previous_result", VStr "$t1")]
      acc_hello
    = Returned
        [("previous_result", VDict [("text", VStr "hello")]);
         ("a", VStr "hello"); ("b", VNone); ("c", VStr "$unknown.text")].
Proof. repeat split; vm_compute; reflexivity. Qed.

(** C3, as claimed: a sequence indexed by an in-range integer segment.
    With accumulator {"t1": {"items": ["a", "b"]}} the reference
    "$t1.items.0" would have to resolve to "a"; the code yields None. *)
Lemma walk_sequence_counterexample :
  parse_index "0" = Some 0
  ∧ [VStr "a"; VStr "b"] !! 0 = Some (VStr "a")
  ∧ walk_with_sequences (VDict [("items", VList [VStr "a"; VStr "b"])]) ["items"; "0"]
    = VStr "a"
  ∧ resolve_value acc_items (VStr "$t1.items.0") = VNone
  ∧ resolve_value acc_items (VStr "$t1.items.0")
    ≠ walk_with_sequences (VDict [("items", VList [VStr "a"; VStr "b"])]) ["items"; "0"].
Proof. repeat split; vm_compute; try reflexivity. discriminate. Qed.

(** C3, amended: when the task id of "$taskId.seg1.seg2..." is in the
    accumulator the resolved value is the walk of the segments from that
    task's result, and the walk descends only through keyed mappings: a
    mapping that has the segment as a key is entered, and anything else
    (a sequence, whatever the segment; a mapping without the key; a
    scalar) turns the value into None and ends the walk. *)
Theorem resolve_walks_mappings (results : gmap string value)
  (s rest task_id : string) (parts : list string) (r : value) :
  strip_dollar s = Some rest →
  split "."%char rest = task_id :: parts →
  results !! task_id = Some r →
  resolve_value results (VStr s) = walk r parts
  ∧ (∀ d part parts' v,
       dict_get d part = Some v → walk (VDict d) (part :: parts') = walk v parts')
  ∧ (∀ d part parts',
       dict_get d part = None → walk (VDict d) (part :: parts') = VNone)
  ∧ (∀ l part parts', walk (VList l) (part :: parts') = VNone)
  ∧ (∀ cur part parts',
       (∀ d, cur ≠ VDict d) → walk cur (part :: parts') = VNone).
Proof.
  intros Hs Hsplit Hr. split_and!.
  - unfold resolve_value. rewrite Hs, Hsplit, Hr. reflexivity.
  - intros d part parts' v Hget. simpl. by rewrite Hget.
  - intros d part parts' Hget. simpl. by rewrite Hget.
  - reflexivity.
  - intros cur part parts' Hd. by apply walk_not_dict.
Qed.

Lemma resolve_walks_mappings_witness :
  resolve_value acc_items (VStr "$t1.items.0")
  = walk (VDict [("items", VList [VStr "a"; VStr "b"])]) ["items"; "0"].
Proof.
  refine (proj1 (resolve_walks_mappings acc_items "$t1.items.0" "t1.items.0" "t1"
           ["items"; "0"] (VDict [("items", VList [VStr "a"; VStr "b"])]) _ _ _));
    vm_compute; reflexivity.
Defined.

(** C9, failing input: a [previous_result] whose value is a non-empty
    list reaches the membership test [task_id in results], which raises
    TypeError instead of returning a mapping. *)
Theorem process_params_unhashable_raises :
  _process_params [("previous_result", VList [VStr "t1"])] ∅
  = Raised "unhashable type: 'list'"
  ∧ _process_params
      [("query", VStr "news"); ("previous_result", VDict [("id", VStr "t1")])]
      acc_hello
    = Raised "unhashable type: 'dict'".
Proof. split; vm_compute; reflexivity. Qed.

Lemma dict_keys_set (d : pydict) (key : string) (v : value) (k : string) :
  k ∈ dict_keys (dict_set d key v) ↔ k = key ∨ k ∈ dict_keys d.
Proof.
  unfold dict_keys. induction d as [|[k0 w] d IH]; simpl.
  - rewrite elem_of_cons, elem_of_nil. tauto.
  - destruct (String.eqb k0 key) eqn:Heq; simpl.
    + apply String.eqb_eq in Heq as ->. rewrite !elem_of_cons. tauto.
    + rewrite !elem_of_cons, IH. tauto.
Qed.

Lemma dict_set_NoDup (d : pydict) (key : string) (v : value) :
  NoDup (dict_keys d) → NoDup (dict_keys (dict_set d key v)).
Proof.
  unfold dict_keys. induction d as [|[k0 w] d IH]; simpl; intros Hnodup.
  - apply NoDup_singleton.
  - apply NoDup_cons in Hnodup as [Hnotin Hnodup].
    destruct (String.eqb k0 key) eqn:Heq; simpl.
    + apply NoDup_cons. by split.
    + apply NoDup_cons. split; [|by apply IH].
      intros Hin. apply (dict_keys_set d key v k0) in Hin as [->|Hin].
      * by rewrite String.eqb_refl in Heq.
      * by apply Hnotin.
Qed.

Lemma copy_params_keys (items : pydict) (results : gmap string value) :
  ∀ (processed : pydict) (k : string),
    k ∈ dict_keys (copy_params items results processed)
    ↔ k ∈ dict_keys processed ∨ (k ∈ dict_keys items ∧ k ≠ "previous_result").
Proof.
  induction items as [|[key v] items IH]; intros processed k; simpl.
  - unfold dict_keys at 2. simpl. rewrite elem_of_nil. tauto.
  - unfold dict_keys at 2. simpl. fold (dict_keys items). rewrite elem_of_cons.
    destruct (String.eqb key "previous_result") eqn:Heq.
    + apply String.eqb_eq in Heq as ->. rewrite IH. naive_solver.
    + apply String.eqb_neq in Heq. rewrite IH, dict_keys_set. naive_solver.
Qed.

Lemma copy_params_NoDup (items : pydict) (results : gmap string value) :
  ∀ processed : pydict,
    NoDup (dict_keys processed) →
    NoDup (dict_keys (copy_params items results processed)).
Proof.
  induction items as [|[key v] items IH]; intros processed Hnodup; simpl.
  - exact Hnodup.
  - destruct (String.eqb key "previous_result"); apply IH; [exact Hnodup|].
    by apply dict_set_NoDup.
Qed.

(** Apart from an unhashable [previous_result], resolution returns, no
    key occurs twice in its output, and the keys other than
    [previous_result] are exactly those of the input. *)
Lemma process_params_returns_when_hashable (params : pydict)
  (results : gmap string value) :
  (∀ v, dict_get params "previous_result" = Some v → hashable v = true) →
  ∃ out,
    _process_params params results = Returned out
    ∧ NoDup (dict_keys out)
    ∧ ∀ k, k ≠ "previous_result" → (k ∈ dict_keys out ↔ k ∈ dict_keys params).
Proof.
  intros Hhash. unfold _process_params.
  assert (Hprev : ∃ processed,
             process_previous_result params results = Returned processed
             ∧ NoDup (dict_keys processed)
             ∧ ∀ k, k ∈ dict_keys processed → k = "previous_result").
  { unfold process_previous_result.
    destruct (dict_get params "previous_result") as [v|];
      [|exists []; split_and!; [done|apply NoDup_nil_2|by intros k ?%elem_of_nil]].
    specialize (Hhash v eq_refl).
    assert (Hone : ∀ r, NoDup (dict_keys (dict_set [] "previous_result" r))
                        ∧ ∀ k, k ∈ dict_keys (dict_set [] "previous_result" r) →
                               k = "previous_result").
    { intros r. split; [apply NoDup_singleton|].
      intros k Hin. apply list_elem_of_singleton in Hin. exact Hin. }
    assert (Hnone : NoDup (dict_keys []) ∧ ∀ k, k ∈ dict_keys [] → k = "previous_result").
    { split; [apply NoDup_nil_2|by intros k ?%elem_of_nil]. }
    destruct (truthy v); [|by exists []].
    destruct v as [|b|z|s|l|d]; try discriminate Hhash; simpl; try (by exists []).
    destruct (strip_dollar s) as [rest|]; simpl.
    - destruct (bool_decide (is_Some (results !! rest))); [|by exists []].
      eexists. split; [reflexivity|apply Hone].
    - destruct (bool_decide (is_Some (results !! s))); [|by exists []].
      eexists. split; [reflexivity|apply Hone]. }
  destruct Hprev as (processed & -> & Hnodup & Honly).
  eexists. split; [reflexivity|]. split; [by apply copy_params_NoDup|].
  intros k Hk. rewrite copy_params_keys. split; [|tauto].
  intros [Hin|[Hin _]]; [|exact Hin]. by destruct (Hk (Honly k Hin)).
Qed.

(** ** Single task execution *)

Lemma task_body_set_running (eng : WorkflowEngine) (task : Task) (now : nat)
  (results : gmap string value) :
  task_body eng (set_running task now) results = task_body eng task results.
Proof. reflexivity. Qed.

Lemma execute_task_returned (eng : WorkflowEngine) (clock : nat) (task : Task)
  (results : gmap string value) (r : value) :
  task_body eng task results = Returned r →
  _execute_task eng clock task results
  = {| tr_task := set_completed (set_running task clock) r (S clock);
       tr_clock := S (S clock);
       tr_events :=
         (StatusSet Running ::
          (if on_task_start eng then [TaskStartCalled (task_id task)] else []))
         ++ StatusSet Completed ::
         (if on_task_complete eng then [TaskCompleteCalled (task_id task) r] else []);
       tr_outcome := Returned r |}.
Proof.
  intros Hbody. unfold _execute_task.
  rewrite task_body_set_running, Hbody. reflexivity.
Qed.

Lemma execute_task_raised (eng : WorkflowEngine) (clock : nat) (task : Task)
  (results : gmap string value) (msg : string) :
  task_body eng task results = Raised msg →
  _execute_task eng clock task results
  = {| tr_task := set_failed (set_running task clock) msg (S clock);
       tr_clock := S (S clock);
       tr_events :=
         (StatusSet Running ::
          (if on_task_start eng then [TaskStartCalled (task_id task)] else []))
         ++ StatusSet Failed ::
         (if on_task_fail eng then [TaskFailCalled (task_id task) msg] else []);
       tr_outcome := Raised msg |}.
Proof.
  intros Hbody. unfold _execute_task.
  rewrite task_body_set_running, Hbody. reflexivity.
Qed.



(** ** The execution loop *)


Lemma accumulate_dom (eng : WorkflowEngine) (tasks : list Task) :
  ∀ results acc : gmap string value,
    accumulate eng results tasks = Some acc →
    dom acc = dom results ∪ list_to_set (task_id <$> tasks).
Proof.
  induction tasks as [|t tasks IH]; intros results acc Hacc; simpl in *.
  - injection Hacc as <-. set_solver.
  - destruct (task_body eng t results) as [r|]; [|discriminate].
    rewrite (IH _ _ Hacc), dom_insert_L. set_solver.
Qed.



(** A prefix of tasks that all succeed, with no cancellation seen before
    any of them, is run to completion and the loop goes on with the
    remaining tasks from the accumulator the prefix produced. *)
Lemma run_tasks_app (eng : WorkflowEngine) (cancel : nat → bool)
  (pre rest : list Task) :
  ∀ (i : nat) (index : Z) (clock : nat) (results acc : gmap string value),
    (∀ j, j < length pre → cancel (i + j) = false) →
    accumulate eng results pre = Some acc →
    ∃ (pre' : list Task) (index' : Z) (clock' : nat) (log' : list (nat * event)),
      let ls := run_tasks eng cancel i false index clock results (pre ++ rest) in
      let lr := run_tasks eng cancel (i + length pre) false index' clock' acc rest in
      ls_tasks ls = pre' ++ ls_tasks lr
      ∧ ls_log ls = log' ++ ls_log lr
      ∧ ls_results ls = ls_results lr
      ∧ ls_exit ls = ls_exit lr
      ∧ ls_index ls = ls_index lr
      ∧ ls_clock ls = ls_clock lr
      ∧ ls_flag ls = ls_flag lr
      ∧ ran_to_completion eng results pre pre'
      ∧ (∀ j ev, (j, ev) ∈ log' → i ≤ j < i + length pre)
      ∧ (clock ≤ clock').
Proof.
  induction pre as [|t pre IH]; intros i index clock results acc Hcancel Hacc.
  - simpl in Hacc. injection Hacc as <-.
    exists [], index, clock, []. simpl. rewrite Nat.add_0_r.
    split_and!; try reflexivity.
    + split; [reflexivity|]. intros j t' Hj. by rewrite lookup_nil in Hj.
    + intros j ev Hin. by apply elem_of_nil in Hin.
  - simpl in Hacc.
    destruct (task_body eng t results) as [r|] eqn:Hbody; [|discriminate].
    destruct (IH (S i) (Z.of_nat i) (S (S clock)) (<[task_id t := r]> results) acc)
      as (pre' & index' & clock' & log' & IHrun); [|exact Hacc|].
    { intros j Hj. replace (S i + j) with (i + S j) by lia.
      apply Hcancel. simpl. lia. }
    simpl in IHrun.
    destruct IHrun as (Ht & Hl & Hr & He & Hi & Hc & Hf & [Hlen Hdone] & Hlog & Hclock).
    exists (set_completed (set_running t clock) r (S clock) :: pre'), index', clock',
      (((λ ev, (i, ev)) <$> tr_events (_execute_task eng clock t results)) ++ log').
    simpl.
    pose proof (Hcancel 0 ltac:(simpl; lia)) as Hc0. rewrite Nat.add_0_r in Hc0.
    rewrite Hc0. simpl.
    rewrite (execute_task_returned _ _ _ _ _ Hbody). simpl.
    replace (i + S (length pre)) with (S i + length pre) by lia.
    rewrite Ht, Hl, Hr, He, Hi, Hc, Hf.
    split_and!; try reflexivity.
    + by rewrite <- app_assoc.
    + split; [simpl; by rewrite Hlen|].
      intros [|j] t' Hj; simpl in Hj.
      * injection Hj as <-. exists t, results. simpl.
        by rewrite Hbody.
      * destruct (Hdone j t' Hj) as (t0 & prev & Hpre & Hprev & Hb & Hs & Hid & Hh & Hp).
        exists t0, prev. simpl. rewrite Hbody. split_and!; assumption.
    + intros j ev Hin.
      rewrite elem_of_cons, elem_of_app, list_elem_of_fmap in Hin.
      destruct Hin as [Heq|[(e & Heq & _)|Hin]].
      * injection Heq as -> _. lia.
      * injection Heq as -> _. lia.
      * apply Hlog in Hin. lia.
    + lia.
Qed.



Lemma run_tasks_cancelled (eng : WorkflowEngine) (cancel : nat → bool) (i : nat)
  (index : Z) (clock : nat) (results : gmap string value) (t : Task)
  (post : list Task) :
  cancel i = true →
  run_tasks eng cancel i false index clock results (t :: post)
  = {| ls_tasks := t :: post;
       ls_results := results;
       ls_index := index;
       ls_clock := clock;
       ls_flag := true;
       ls_log := [];
       ls_exit := Cancelled |}.
Proof. intros Hc. simpl. rewrite Hc. reflexivity. Qed.

Lemma tagged_index (i j : nat) (ev : event) (events : list event) :
  (j, ev) ∈ (λ e, (i, e)) <$> events → j = i.
Proof.
  intros Hin. apply list_elem_of_fmap in Hin as (e & Heq & _).
  by injection Heq as -> _.
Qed.




Lemma accumulate_dom_empty (eng : WorkflowEngine) (tasks : list Task)
  (acc : gmap string value) :
  accumulate eng ∅ tasks = Some acc →
  dom acc = list_to_set (task_id <$> tasks).
Proof.
  intros Hacc. rewrite (accumulate_dom _ _ _ _ Hacc), dom_empty_L.
  by rewrite (left_id_L ∅ (∪)).
Qed.



(** ** Runs whose callbacks may raise *)

Lemma call_start_returns (obs : Observers) (i : nat) (id : string) :
  callbacks_return obs →
  call_start obs i id
  = (if bool_decide (is_Some (start_callback obs)) then [TaskStartCalled id] else [],
     None).
Proof.
  intros (Hstart & _ & _). unfold call_start.
  destruct (start_callback obs) as [f|] eqn:Hf; [|reflexivity].
  by rewrite (Hstart f i id eq_refl).
Qed.

Lemma call_complete_returns (obs : Observers) (i : nat) (id : string) (r : value) :
  callbacks_return obs →
  call_complete obs i id r
  = (if bool_decide (is_Some (complete_callback obs))
     then [TaskCompleteCalled id r] else [],
     None).
Proof.
  intros (_ & Hcomplete & _). unfold call_complete.
  destruct (complete_callback obs) as [f|] eqn:Hf; [|reflexivity].
  by rewrite (Hcomplete f i id r eq_refl).
Qed.

Lemma call_fail_returns (obs : Observers) (i : nat) (id msg : string) :
  callbacks_return obs →
  call_fail obs i id msg
  = (if bool_decide (is_Some (fail_callback obs)) then [TaskFailCalled id msg] else [],
     None).
Proof.
  intros (_ & _ & Hfail). unfold call_fail.
  destruct (fail_callback obs) as [f|] eqn:Hf; [|reflexivity].
  by rewrite (Hfail f i id msg eq_refl).
Qed.

(** When every callback returns, the run is the one of [execute_workflow]
    on the engine that has those callbacks registered. *)
Lemma execute_task_observed_returns (eng : WorkflowEngine) (obs : Observers)
  (i clock : nat) (t : Task) (results : gmap string value) :
  callbacks_return obs →
  _execute_task_observed eng obs i clock t results
  = _execute_task (with_observers eng obs) clock t results.
Proof.
  intros Hobs. unfold _execute_task_observed, _execute_task, fail_observed.
  rewrite (call_start_returns obs i _ Hobs). cbn [fst snd].
  change (task_body (with_observers eng obs)) with (task_body eng).
  destruct (task_body eng (set_running t clock) results) as [r|msg].
  - rewrite (call_complete_returns obs i _ r Hobs). reflexivity.
  - rewrite (call_fail_returns obs i _ msg Hobs). reflexivity.
Qed.

Lemma run_tasks_observed_returns (eng : WorkflowEngine) (obs : Observers)
  (cancel : nat → bool) (tasks : list Task) :
  callbacks_return obs →
  ∀ (i : nat) (flag : bool) (index : Z) (clock : nat) (results : gmap string value),
    run_tasks_observed eng obs cancel i flag index clock results tasks
    = run_tasks (with_observers eng obs) cancel i flag index clock results tasks.
Proof.
  intros Hobs.
  induction tasks as [|t rest IH]; intros i flag index clock results; [reflexivity|].
  cbn [run_tasks_observed run_tasks].
  rewrite (execute_task_observed_returns eng obs i clock t results Hobs).
  destruct (flag || cancel i); [reflexivity|].
  destruct (tr_outcome (_execute_task (with_observers eng obs) clock t results));
    [|reflexivity].
  by rewrite IH.
Qed.

Lemma execute_workflow_observed_returns (eng : WorkflowEngine) (obs : Observers)
  (cancel : nat → bool) (clock : nat) (workflow : Workflow) :
  callbacks_return obs →
  execute_workflow_observed eng obs cancel clock workflow
  = execute_workflow (with_observers eng obs) cancel clock workflow.
Proof.
  intros Hobs. unfold execute_workflow_observed, execute_workflow.
  rewrite (run_tasks_observed_returns eng obs cancel _ Hobs). reflexivity.
Qed.

Lemma results_from_dom (tasks : list Task) :
  ∀ (rs : list value) (results : gmap string value),
    length rs = length tasks →
    dom (results_from results tasks rs) = dom results ∪ list_to_set (task_id <$> tasks).
Proof.
  induction tasks as [|t tasks IH]; intros [|r rs] results Hlen;
    try discriminate Hlen.
  - unfold results_from. simpl. set_solver.
  - change (results_from results (t :: tasks) (r :: rs))
      with (results_from (<[task_id t := r]> results) tasks rs).
    rewrite IH by (simpl in Hlen; lia). rewrite dom_insert_L. set_solver.
Qed.

Lemma results_from_lookup_other (tasks : list Task) (id : string) :
  ∀ (rs : list value) (results : gmap string value),
    id ∉ task_id <$> tasks →
    results_from results tasks rs !! id = results !! id.
Proof.
  induction tasks as [|t tasks IH]; intros [|r rs] results Hnotin; try reflexivity.
  change (results_from results (t :: tasks) (r :: rs))
    with (results_from (<[task_id t := r]> results) tasks rs).
  rewrite fmap_cons in Hnotin. apply not_elem_of_cons in Hnotin as [Hne Hnotin].
  rewrite (IH _ _ Hnotin). by apply lookup_insert_ne.
Qed.

(** With pairwise distinct ids the accumulator keeps, under each task's
    id, the value recorded for that task. *)
Lemma results_from_lookup (tasks : list Task) :
  ∀ (rs : list value) (results : gmap string value) (j : nat) (t : Task) (r : value),
    NoDup (task_id <$> tasks) →
    tasks !! j = Some t →
    rs !! j = Some r →
    results_from results tasks rs !! task_id t = Some r.
Proof.
  induction tasks as [|t0 tasks IH]; intros [|r0 rs] results j t r Hnodup Ht Hr;
    try (by rewrite lookup_nil in Ht); try (by rewrite lookup_nil in Hr).
  change (results_from results (t0 :: tasks) (r0 :: rs))
    with (results_from (<[task_id t0 := r0]> results) tasks rs).
  rewrite fmap_cons in Hnodup. apply NoDup_cons in Hnodup as [Hnotin Hnodup].
  destruct j as [|j]; simpl in Ht, Hr.
  - injection Ht as <-. injection Hr as <-.
    rewrite (results_from_lookup_other _ _ _ _ Hnotin). apply lookup_insert_eq.
  - by apply (IH rs _ j).
Qed.

(** The loop when every task succeeds: the handler values [rs] are
    recorded in order, and each task is left completed with its value. *)
Lemma run_tasks_observed_succeed (eng : WorkflowEngine) (obs : Observers)
  (cancel : nat → bool) (tasks : list Task) :
  ∀ (rs : list value) (i : nat) (index : Z) (clock : nat)
    (results : gmap string value),
    length rs = length tasks →
    (∀ j, j < length tasks → cancel (i + j) = false) →
    (∀ j t r, tasks !! j = Some t → rs !! j = Some r →
       task_body eng t (results_from results (take j tasks) (take j rs)) = Returned r
       ∧ (call_start obs (i + j) (task_id t)).2 = None
       ∧ (call_complete obs (i + j) (task_id t) r).2 = None) →
    let ls := run_tasks_observed eng obs cancel i false index clock results tasks in
    ls_exit ls = Exhausted
    ∧ ls_results ls = results_from results tasks rs
    ∧ length (ls_tasks ls) = length tasks
    ∧ ∀ j t r, tasks !! j = Some t → rs !! j = Some r →
        ∃ t', ls_tasks ls !! j = Some t'
              ∧ same_definition t t'
              ∧ task_status t' = Completed
              ∧ task_result t' = r.
Proof.
  induction tasks as [|t tasks IH]; intros [|r rs] i index clock results Hlen Hcancel Hok;
    try discriminate Hlen.
  - simpl. split_and!; try reflexivity.
    intros j t r Hj. by rewrite lookup_nil in Hj.
  - destruct (Hok 0 t r eq_refl eq_refl) as (Hbody & Hstart & Hcomplete).
    rewrite Nat.add_0_r in Hstart, Hcomplete.
    change (results_from results (take 0 (t :: tasks)) (take 0 (r :: rs)))
      with results in Hbody.
    pose proof (Hcancel 0 ltac:(simpl; lia)) as Hc0. rewrite Nat.add_0_r in Hc0.
    destruct (IH rs (S i) (Z.of_nat i) (S (S clock)) (<[task_id t := r]> results))
      as (He & Hr & Hl & Htasks).
    { simpl in Hlen. lia. }
    { intros j Hj. replace (S i + j) with (i + S j) by lia.
      apply Hcancel. simpl. lia. }
    { intros j t0 r0 Ht0 Hr0.
      replace (S i + j) with (i + S j) by lia.
      exact (Hok (S j) t0 r0 Ht0 Hr0). }
    cbn [run_tasks_observed]. rewrite Hc0. cbn [orb].
    unfold _execute_task_observed.
    rewrite Hstart, task_body_set_running, Hbody, Hcomplete. cbn [tr_outcome tr_clock tr_task].
    cbn [ls_exit ls_results ls_tasks].
    split_and!.
    + exact He.
    + exact Hr.
    + simpl. by rewrite Hl.
    + intros [|j] t0 r0 Ht0 Hr0; simpl in Ht0, Hr0.
      * injection Ht0 as <-. injection Hr0 as <-.
        eexists. split; [reflexivity|]. repeat split.
      * exact (Htasks j t0 r0 Ht0 Hr0).
Qed.

(** C6, as claimed: when the handlers of a workflow all succeed and
    nobody cancels, every task and the workflow end completed.  The
    handler registered for the only task of [echo_workflow] returns
    "hello" on the task's parameters, but the completion callback, called
    inside the [try] of [_execute_task] once the task is marked completed,
    raises: the [except] block marks the task failed, the run raises and
    the workflow ends failed with no result. *)
Lemma completion_callback_fails_the_task :
  let rr := execute_workflow_observed echo_engine failing_completion_observers
              never_cancelled 0 echo_workflow in
  wf_tasks echo_workflow = [echo_task "t1" "hello"]
  ∧ (∃ handler,
       task_handlers echo_engine !! task_handler (echo_task "t1" "hello") = Some handler
       ∧ _process_params (task_parameters (echo_task "t1" "hello")) ∅
         = Returned [("text", VStr "hello")]
       ∧ handler [("text", VStr "hello")] = Returned (VStr "hello"))
  ∧ rr_outcome rr = Raised "display is gone"
  ∧ task_status <$> wf_tasks (rr_workflow rr) = [Failed]
  ∧ task_error <$> wf_tasks (rr_workflow rr) = [Some "display is gone"]
  ∧ status_history Pending 0 (rr_log rr) = [Pending; Running; Completed; Failed]
  ∧ wf_status (rr_workflow rr) = Failed
  ∧ wf_result (rr_workflow rr) = None.
Proof.
  cbv zeta. split_and!; try (vm_compute; reflexivity).
  eexists. split_and!; [vm_compute; reflexivity|vm_compute; reflexivity|reflexivity].
Qed.

(** C6, amended: for a workflow of N tasks with pairwise distinct ids,
    with no cancellation, in which the handler registered for each task
    returns a value on the task's resolved parameters ([rs] lists those
    values in task order) and every registered callback returns:
    every task ends completed holding the value its handler returned, the
    workflow ends completed, and the workflow result, which is also the
    returned value, has exactly N entries, under each task's id the value
    that task's handler returned. *)
Theorem all_tasks_succeed (eng : WorkflowEngine) (obs : Observers)
  (cancel : nat → bool) (clock : nat) (workflow : Workflow) (rs : list value) :
  NoDup (task_id <$> wf_tasks workflow) →
  (∀ j, j < length (wf_tasks workflow) → cancel j = false) →
  callbacks_return obs →
  length rs = length (wf_tasks workflow) →
  (∀ j t, wf_tasks workflow !! j = Some t →
     ∃ handler params r,
       task_handlers eng !! task_handler t = Some handler
       ∧ _process_params (task_parameters t)
           (results_from ∅ (take j (wf_tasks workflow)) (take j rs))
         = Returned params
       ∧ handler params = Returned r
       ∧ rs !! j = Some r) →
  let rr := execute_workflow_observed eng obs cancel clock workflow in
  let acc := results_from ∅ (wf_tasks workflow) rs in
  rr_outcome rr = Returned acc
  ∧ wf_status (rr_workflow rr) = Completed
  ∧ wf_result (rr_workflow rr) = Some acc
  ∧ size acc = length (wf_tasks workflow)
  ∧ dom acc = list_to_set (task_id <$> wf_tasks workflow)
  ∧ length (wf_tasks (rr_workflow rr)) = length (wf_tasks workflow)
  ∧ Forall (λ t', task_status t' = Completed) (wf_tasks (rr_workflow rr))
  ∧ (∀ j t r, wf_tasks workflow !! j = Some t → rs !! j = Some r →
       acc !! task_id t = Some r
       ∧ ∃ t', wf_tasks (rr_workflow rr) !! j = Some t'
               ∧ task_id t' = task_id t
               ∧ task_status t' = Completed
               ∧ task_result t' = r).
Proof.
  intros Hnodup Hcancel Hobs Hlen Hhandlers rr acc.
  destruct (run_tasks_observed_succeed eng obs cancel (wf_tasks workflow) rs
              0 (-1) clock ∅ Hlen Hcancel)
    as (He & Hr & Hl & Htasks).
  { intros j t r Ht Hr.
    destruct (Hhandlers j t Ht) as (handler & params & r' & Hh & Hp & Hcall & Hr').
    rewrite Hr in Hr'. injection Hr' as <-.
    split_and!.
    - unfold task_body. by rewrite Hh, Hp.
    - by rewrite (call_start_returns obs _ _ Hobs).
    - by rewrite (call_complete_returns obs _ _ _ Hobs). }
  assert (Hdom : dom acc = list_to_set (task_id <$> wf_tasks workflow)).
  { subst acc. rewrite (results_from_dom _ _ _ Hlen), dom_empty_L.
    by rewrite (left_id_L ∅ (∪)). }
  subst rr. unfold execute_workflow_observed. rewrite He. simpl. rewrite Hr.
  split_and!; try reflexivity.
  - rewrite <- size_dom, Hdom, size_list_to_set by exact Hnodup.
    by rewrite length_fmap.
  - exact Hdom.
  - exact Hl.
  - apply Forall_lookup. intros j t' Ht'.
    destruct (lookup_lt_is_Some_2 (wf_tasks workflow) j) as [t Ht].
    { rewrite <- Hl. by eapply lookup_lt_Some. }
    destruct (lookup_lt_is_Some_2 rs j) as [r Hrj].
    { rewrite Hlen. by eapply lookup_lt_Some. }
    destruct (Htasks j t r Ht Hrj) as (t'' & Ht'' & _ & Hst & _).
    rewrite Ht' in Ht''. by injection Ht'' as <-.
  - intros j t r Ht Hrj. split.
    + by apply (results_from_lookup _ _ _ j).
    + destruct (Htasks j t r Ht Hrj) as (t' & Ht' & (Hid & _) & Hst & Hres).
      exists t'. by split_and!.
Qed.

Lemma all_tasks_succeed_witness :
  rr_outcome (execute_workflow_observed echo_engine quiet_observers never_cancelled 0
                (three_tasks (echo_task "t2" "again")))
  = Returned (results_from ∅ (wf_tasks (three_tasks (echo_task "t2" "again")))
                [VStr "hello"; VStr "again"; VStr "hello"]).
Proof.
  refine (proj1 (all_tasks_succeed echo_engine quiet_observers never_cancelled 0
                   (three_tasks (echo_task "t2" "again"))
                   [VStr "hello"; VStr "again"; VStr "hello"] _ _ _ _ _)).
  - vm_compute. repeat constructor; set_solver.
  - intros j _. reflexivity.
  - split_and!; intros; simpl in *; simplify_eq; reflexivity.
  - reflexivity.
  - intros [|[|[|j]]] t Ht; simplify_eq; simpl in Ht; simplify_eq.
    + eexists _, _, _.
      split_and!; [vm_compute; reflexivity|vm_compute; reflexivity|reflexivity|reflexivity].
    + eexists _, _, _.
      split_and!; [vm_compute; reflexivity|vm_compute; reflexivity|reflexivity|reflexivity].
    + eexists _, _, _.
      split_and!; [vm_compute; reflexivity|vm_compute; reflexivity|reflexivity|reflexivity].
Defined.

(** ** Status transitions *)

Lemma status_writes_app (i : nat) (l1 l2 : list (nat * event)) :
  status_writes i (l1 ++ l2) = status_writes i l1 ++ status_writes i l2.
Proof. apply omap_app. Qed.

Lemma status_writes_tagged (i k : nat) (events : list event) :
  status_writes k ((λ ev, (i, ev)) <$> events)
  = if decide (i = k) then omap status_of events else [].
Proof.
  unfold status_writes.
  destruct (decide (i = k)) as [->|Hne].
  - induction events as [|ev events IH]; [reflexivity|].
    rewrite fmap_cons. cbn [omap list_omap status_of fst snd]. rewrite IH.
    destruct ev; [|reflexivity..].
    by rewrite decide_True by reflexivity.
  - induction events as [|ev events IH]; [reflexivity|].
    rewrite fmap_cons. cbn [omap list_omap fst snd]. rewrite IH.
    destruct ev; [|reflexivity..].
    by rewrite decide_False by exact Hne.
Qed.

Lemma execute_workflow_log (eng : WorkflowEngine) (cancel : nat → bool)
  (clock : nat) (workflow : Workflow) :
  let ls := run_tasks eng cancel 0 false (-1) clock ∅ (wf_tasks workflow) in
  let rr := execute_workflow eng cancel clock workflow in
  rr_log rr = ls_log ls ∧ wf_tasks (rr_workflow rr) = ls_tasks ls.
Proof.
  unfold execute_workflow.
  destruct (ls_exit (run_tasks eng cancel 0 false (-1) clock ∅ (wf_tasks workflow)));
    split; reflexivity.
Qed.

(** The status assignments of one task run when callbacks may raise:
    [running] alone when the start callback raises; [running] then
    [completed]; [running] then [failed]; or all three, when the
    completion callback raises after the task was marked completed. *)
Lemma execute_task_observed_writes (eng : WorkflowEngine) (obs : Observers)
  (i clock : nat) (t : Task) (results : gmap string value) :
  let tr := _execute_task_observed eng obs i clock t results in
  let writes := omap status_of (tr_events tr) in
  (writes = [Running]
   ∧ task_status (tr_task tr) = Running
   ∧ ∃ msg, tr_outcome tr = Raised msg)
  ∨ (writes = [Running; Completed]
     ∧ task_status (tr_task tr) = Completed
     ∧ ∃ r, tr_outcome tr = Returned r)
  ∨ (writes = [Running; Failed]
     ∧ task_status (tr_task tr) = Failed
     ∧ ∃ msg, tr_outcome tr = Raised msg)
  ∨ (writes = [Running; Completed; Failed]
     ∧ task_status (tr_task tr) = Failed
     ∧ (∃ msg, tr_outcome tr = Raised msg)
     ∧ ∃ f r msg, complete_callback obs = Some f ∧ f i (task_id t) r = Raised msg).
Proof.
  unfold _execute_task_observed, fail_observed, call_start, call_complete, call_fail.
  destruct (start_callback obs) as [fs|]; cbn [fst snd].
  - destruct (fs i (task_id t)) as [[]|msg0]; cbn [raised_by].
    + destruct (task_body eng (set_running t clock) results) as [r|msg].
      * destruct (complete_callback obs) as [fc|] eqn:Hfc; cbn [fst snd].
        -- destruct (fc i (task_id t) r) as [[]|msg1] eqn:Hcall; cbn [raised_by].
           ++ right; left. split_and!; [reflexivity|reflexivity|by eexists].
           ++ right; right; right.
              split_and!; [|reflexivity|by eexists|by exists fc, r, msg1].
              simpl. destruct (fail_callback obs); reflexivity.
        -- right; left. split_and!; [reflexivity|reflexivity|by eexists].
      * right; right; left. split_and!; [|reflexivity|by eexists].
        simpl. destruct (fail_callback obs); reflexivity.
    + left. split_and!; [reflexivity|reflexivity|by eexists].
  - destruct (task_body eng (set_running t clock) results) as [r|msg].
    + destruct (complete_callback obs) as [fc|] eqn:Hfc; cbn [fst snd].
      * destruct (fc i (task_id t) r) as [[]|msg1] eqn:Hcall; cbn [raised_by].
        -- right; left. split_and!; [reflexivity|reflexivity|by eexists].
        -- right; right; right.
           split_and!; [|reflexivity|by eexists|by exists fc, r, msg1].
           simpl. destruct (fail_callback obs); reflexivity.
      * right; left. split_and!; [reflexivity|reflexivity|by eexists].
    + right; right; left. split_and!; [|reflexivity|by eexists].
      simpl. destruct (fail_callback obs); reflexivity.
Qed.

(** Over the loop, the status of the task at a position is assigned not
    at all (the task is left as it was) or as one task run assigns it,
    and the task's final status is the last one assigned. *)
Lemma run_tasks_observed_writes (eng : WorkflowEngine) (obs : Observers)
  (cancel : nat → bool) (tasks : list Task) :
  ∀ (i : nat) (flag : bool) (index : Z) (clock : nat) (results : gmap string value),
    let ls := run_tasks_observed eng obs cancel i flag index clock results tasks in
    (∀ k, k < i → status_writes k (ls_log ls) = [])
    ∧ ∀ j t, tasks !! j = Some t →
        ∃ t', ls_tasks ls !! j = Some t'
          ∧ ((status_writes (i + j) (ls_log ls) = [] ∧ t' = t)
             ∨ (status_writes (i + j) (ls_log ls) = [Running]
                ∧ task_status t' = Running)
             ∨ (status_writes (i + j) (ls_log ls) = [Running; Completed]
                ∧ task_status t' = Completed)
             ∨ (status_writes (i + j) (ls_log ls) = [Running; Failed]
                ∧ task_status t' = Failed)
             ∨ (status_writes (i + j) (ls_log ls) = [Running; Completed; Failed]
                ∧ task_status t' = Failed
                ∧ ∃ f r msg, complete_callback obs = Some f
                             ∧ f (i + j) (task_id t) r = Raised msg)).
Proof.
  induction tasks as [|t rest IH]; intros i flag index clock results; simpl.
  - split; [reflexivity|]. intros j t Hj. by rewrite lookup_nil in Hj.
  - destruct (flag || cancel i); simpl.
    { split; [reflexivity|]. intros j t0 Hj. exists t0. split; [exact Hj|by left]. }
    pose proof (execute_task_observed_writes eng obs i clock t results) as Hw.
    cbv zeta in Hw.
    assert (Hhere : ∀ (writes : list Status) (Q : Prop),
              omap status_of (tr_events (_execute_task_observed eng obs i clock t results))
              = writes →
              ∀ rest_log, (∀ k, k < S i → status_writes k rest_log = []) →
              status_writes (i + 0)
                (((λ ev, (i, ev)) <$>
                  tr_events (_execute_task_observed eng obs i clock t results))
                 ++ rest_log) = writes).
    { intros writes _ Hev rest_log Hlow.
      rewrite Nat.add_0_r, status_writes_app, status_writes_tagged.
      rewrite decide_True by reflexivity.
      rewrite Hev, Hlow by lia. apply app_nil_r. }
    destruct (tr_outcome (_execute_task_observed eng obs i clock t results))
      as [r|msg] eqn:Hout; simpl.
    + destruct (IH (S i) false (Z.of_nat i)
                  (tr_clock (_execute_task_observed eng obs i clock t results))
                  (<[task_id t := r]> results)) as [IHlow IHtasks].
      split.
      * intros k Hk. rewrite status_writes_app, status_writes_tagged.
        rewrite decide_False by lia. simpl. apply IHlow. lia.
      * intros [|j] t0 Hj; simpl in Hj.
        -- injection Hj as <-. eexists. split; [reflexivity|].
           destruct Hw as [(Hev & Hst & m & Hm)|[(Hev & Hst & _)|[(Hev & Hst & m & Hm)
                          |(Hev & Hst & (m & Hm) & _)]]];
             try discriminate Hm.
           right; right; left. split; [|exact Hst].
           by apply (Hhere _ True Hev).
        -- destruct (IHtasks j t0 Hj) as (t' & Hj' & Hcases).
           exists t'. split; [exact Hj'|].
           rewrite status_writes_app, status_writes_tagged.
           rewrite decide_False by lia. simpl.
           replace (i + S j) with (S i + j) by lia. exact Hcases.
    + split.
      * intros k Hk. rewrite status_writes_tagged.
        by rewrite decide_False by lia.
      * intros [|j] t0 Hj; simpl in Hj.
        -- injection Hj as <-. eexists. split; [reflexivity|].
           assert (Hnil : ∀ k, k < S i → status_writes k [] = []) by done.
           rewrite <- (app_nil_r ((λ ev, (i, ev)) <$> _)).
           destruct Hw as [(Hev & Hst & _)|[(Hev & Hst & r & Hr)|[(Hev & Hst & _)
                          |(Hev & Hst & _ & Hcb)]]].
           ++ right; left. split; [|exact Hst]. by apply (Hhere _ True Hev).
           ++ discriminate Hr.
           ++ right; right; right; left. split; [|exact Hst].
              by apply (Hhere _ True Hev).
           ++ right; right; right; right. split_and!; [|exact Hst|].
              ** by apply (Hhere _ True Hev).
              ** by rewrite Nat.add_0_r.
        -- exists t0. split; [exact Hj|]. left.
           rewrite status_writes_tagged.
           by rewrite decide_False by lia.
Qed.

Lemma execute_workflow_observed_log (eng : WorkflowEngine) (obs : Observers)
  (cancel : nat → bool) (clock : nat) (workflow : Workflow) :
  let ls := run_tasks_observed eng obs cancel 0 false (-1) clock ∅ (wf_tasks workflow) in
  let rr := execute_workflow_observed eng obs cancel clock workflow in
  rr_log rr = ls_log ls ∧ wf_tasks (rr_workflow rr) = ls_tasks ls.
Proof.
  unfold execute_workflow_observed.
  destruct (ls_exit (run_tasks_observed eng obs cancel 0 false (-1) clock ∅
                       (wf_tasks workflow)));
    split; reflexivity.
Qed.

(** C8, as claimed: no run ever moves a task's status backwards.  Run
    [echo_workflow] once: its task ends completed.  Run the same
    workflow again: the second run assigns [running] to the task that
    entered it completed. *)
Lemma rerun_moves_status_backwards :
  task_status <$> wf_tasks echo_workflow = [Pending]
  ∧ task_status <$> wf_tasks (rr_workflow first_run) = [Completed]
  ∧ status_history Completed 0 (rr_log second_run) = [Completed; Running; Completed]
  ∧ backward_step Completed Running = true
  ∧ has_backward_step (status_history Completed 0 (rr_log second_run)) = true.
Proof. repeat split; vm_compute; reflexivity. Qed.

(** C8, amended: during a run of [execute_workflow] on a workflow whose
    task ids are pairwise distinct (the tasks of the list are then
    distinct objects, each written only in its own turn), a task that
    enters the run pending, and for which the completion callback (when
    one is registered) returns, only moves forward along pending ->
    running -> {completed, failed}: its history over the run is a chain
    of those steps, contains none of the backward moves, and ends in
    the status the task has after the run. *)
Theorem status_moves_forward_from_pending (eng : WorkflowEngine) (obs : Observers)
  (cancel : nat → bool) (clock : nat) (workflow : Workflow) (i : nat) (t : Task) :
  NoDup (task_id <$> wf_tasks workflow) →
  wf_tasks workflow !! i = Some t →
  task_status t = Pending →
  (∀ f r, complete_callback obs = Some f → f i (task_id t) r = Returned ()) →
  let rr := execute_workflow_observed eng obs cancel clock workflow in
  let history := status_history (task_status t) i (rr_log rr) in
  forward_chain history
  ∧ has_backward_step history = false
  ∧ ∃ t', wf_tasks (rr_workflow rr) !! i = Some t'
          ∧ last history = Some (task_status t').
Proof.
  intros _ Hi Hpending Hcomplete rr history.
  destruct (execute_workflow_observed_log eng obs cancel clock workflow) as [Hlog Htasks].
  destruct (run_tasks_observed_writes eng obs cancel (wf_tasks workflow)
              0 false (-1) clock ∅) as [_ Hw].
  destruct (Hw i t Hi) as (t' & Hi' & Hcases). simpl in Hcases.
  subst history rr. unfold status_history. rewrite Hlog, Htasks, Hpending.
  destruct Hcases as [[-> ->]|[[-> Hst]|[[-> Hst]|[[-> Hst]
                     |(_ & _ & f & r & msg & Hf & Hcall)]]]]; simpl.
  - split_and!; [done|done|]. exists t. by rewrite Hpending.
  - split_and!; [apply start_step|done|done|]. exists t'. by rewrite Hst.
  - split_and!; [apply start_step|apply complete_step|done|done|].
    exists t'. by rewrite Hst.
  - split_and!; [apply start_step|apply fail_step|done|done|].
    exists t'. by rewrite Hst.
  - rewrite (Hcomplete f r Hf) in Hcall. discriminate Hcall.
Qed.

Lemma status_moves_forward_from_pending_witness :
  forward_chain
    (status_history Pending 2
       (rr_log (execute_workflow_observed echo_engine quiet_observers
                  never_cancelled 0 (three_tasks (fail_task "t2"))))).
Proof.
  refine (proj1 (status_moves_forward_from_pending echo_engine quiet_observers
                   never_cancelled 0 (three_tasks (fail_task "t2")) 2
                   (echo_task "t3" "$t1") _ _ _ _)).
  - vm_compute. repeat constructor; set_solver.
  - reflexivity.
  - reflexivity.
  - intros f r Hf. simpl in Hf. by simplify_eq.
Defined.

(** ** Persistence *)

Lemma Task_round_trip (t : Task) :
  Task_from_dict (Task_to_dict t)
  = Returned (Task_init (task_id t) (task_handler t) (task_parameters t)
                (task_description t)).
Proof.
  unfold Task_from_dict, Task_to_dict. simpl.
  unfold parameters_or_empty, description_or_empty. simpl.
  destruct (task_parameters t) as [|entry params] eqn:Hparams; simpl.
  - destruct (task_description t) as [|c desc]; reflexivity.
  - destruct (task_description t) as [|c desc]; reflexivity.
Qed.

Lemma parse_tasks_round_trip (tasks : list Task) :
  parse_tasks Task_from_dict (Task_to_dict <$> tasks)
  = Returned ((λ t, Task_init (task_id t) (task_handler t) (task_parameters t)
                      (task_description t)) <$> tasks).
Proof.
  induction tasks as [|t tasks IH]; [reflexivity|].
  rewrite !fmap_cons. cbn [parse_tasks]. rewrite Task_round_trip, IH. reflexivity.
Qed.

Lemma Workflow_round_trip (clock : nat) (w : Workflow) :
  Workflow_from_dict clock (Workflow_to_dict w)
  = Returned
      ({| wf_id := wf_id w;
          wf_name := wf_name w;
          wf_description := wf_description w;
          wf_tasks :=
            (λ t, Task_init (task_id t) (task_handler t) (task_parameters t)
                    (task_description t)) <$> wf_tasks w;
          wf_status := Pending;
          wf_result := None;
          wf_error := None;
          wf_current_task_index := -1;
          wf_created_at := clock;
          wf_updated_at := clock + 1 + length (wf_tasks w) |},
       clock + 2 + length (wf_tasks w)).
Proof.
  unfold Workflow_from_dict, build_workflow, Workflow_to_dict. simpl.
  rewrite parse_tasks_round_trip. simpl. rewrite length_fmap. reflexivity.
Qed.




Lemma bind_returned {A B : Type} (m : outcome A) (k : A → outcome B) (b : B) :
  m ≫= k = Returned b → ∃ a, m = Returned a ∧ k a = Returned b.
Proof.
  destruct m as [a|msg]; intros Hbind; [|discriminate Hbind].
  exists a. split; [reflexivity|exact Hbind].
Qed.

Lemma required_str_returned (d : pydict) (key s : string) :
  required_str d key = Returned s → dict_get d key = Some (VStr s).
Proof.
  unfold required_str. destruct (dict_get d key) as [v|]; [|discriminate].
  destruct v; try discriminate. intros Heq. by injection Heq as ->.
Qed.

Lemma as_dict_returned (data : value) (d : pydict) :
  as_dict data = Returned d → data = VDict d.
Proof. destruct data; try discriminate. intros Heq. by injection Heq as ->. Qed.

Lemma build_workflow_returned (parse : value → outcome Task) (clock clock1 : nat)
  (data : value) (tpl : Workflow) :
  build_workflow parse clock data = Returned (tpl, clock1) →
  (∃ d, data = VDict d ∧ dict_get d "id" = Some (VStr (wf_id tpl)))
  ∧ clock1 = clock + 2 + length (wf_tasks tpl)
  ∧ wf_status tpl = Pending.
Proof.
  unfold build_workflow. intros Hbuild.
  apply bind_returned in Hbuild as (d & Hd & Hbuild).
  apply bind_returned in Hbuild as (id & Hid & Hbuild).
  apply bind_returned in Hbuild as (name & _ & Hbuild).
  apply bind_returned in Hbuild as (description & _ & Hbuild).
  apply bind_returned in Hbuild as (items & _ & Hbuild).
  apply bind_returned in Hbuild as (tasks & _ & Hbuild).
  injection Hbuild as <- <-. simpl.
  split_and!; try reflexivity.
  exists d. split; [by apply as_dict_returned|by apply required_str_returned].
Qed.




(** * Further properties of the engine *)

Lemma execute_task_same_definition (eng : WorkflowEngine) (clock : nat) (t : Task)
  (results : gmap string value) :
  same_definition t (tr_task (_execute_task eng clock t results)).
Proof.
  unfold _execute_task.
  destruct (task_body eng (set_running t clock) results); repeat split.
Qed.

Lemma run_tasks_same_definition (eng : WorkflowEngine) (cancel : nat → bool)
  (tasks : list Task) :
  ∀ (i : nat) (flag : bool) (index : Z) (clock : nat) (results : gmap string value),
    Forall2 same_definition tasks
      (ls_tasks (run_tasks eng cancel i flag index clock results tasks)).
Proof.
  induction tasks as [|t rest IH]; intros i flag index clock results; simpl.
  - constructor.
  - assert (Hrefl : Forall2 same_definition rest rest).
    { apply Forall_Forall2_diag, Forall_true. intros x. repeat split. }
    destruct (flag || cancel i); simpl.
    { constructor; [repeat split|exact Hrefl]. }
    pose proof (execute_task_same_definition eng clock t results) as Hsame.
    destruct (tr_outcome (_execute_task eng clock t results)); simpl.
    + constructor; [exact Hsame|apply IH].
    + constructor; [exact Hsame|exact Hrefl].
Qed.

Lemma execute_task_observed_same_definition (eng : WorkflowEngine) (obs : Observers)
  (i clock : nat) (t : Task) (results : gmap string value) :
  same_definition t (tr_task (_execute_task_observed eng obs i clock t results)).
Proof.
  unfold _execute_task_observed, fail_observed.
  destruct (call_start obs i (task_id t)).2; [repeat split|].
  destruct (task_body eng (set_running t clock) results) as [r|msg];
    [|repeat split].
  destruct (call_complete obs i (task_id t) r).2; repeat split.
Qed.

Lemma run_tasks_observed_same_definition (eng : WorkflowEngine) (obs : Observers)
  (cancel : nat → bool) (tasks : list Task) :
  ∀ (i : nat) (flag : bool) (index : Z) (clock : nat) (results : gmap string value),
    Forall2 same_definition tasks
      (ls_tasks (run_tasks_observed eng obs cancel i flag index clock results tasks)).
Proof.
  induction tasks as [|t rest IH]; intros i flag index clock results; simpl.
  - constructor.
  - assert (Hrefl : Forall2 same_definition rest rest).
    { apply Forall_Forall2_diag, Forall_true. intros x. repeat split. }
    destruct (flag || cancel i); simpl.
    { constructor; [repeat split|exact Hrefl]. }
    pose proof (execute_task_observed_same_definition eng obs i clock t results) as Hsame.
    destruct (tr_outcome (_execute_task_observed eng obs i clock t results)); simpl.
    + constructor; [exact Hsame|apply IH].
    + constructor; [exact Hsame|exact Hrefl].
Qed.

(** X1: A run writes only run state: whatever happens (success, failure,
    cancellation), the workflow keeps its id, name, description and both
    timestamps ([updated_at] is not refreshed), and position by position
    every task keeps its id, handler type, parameters and description. *)
Theorem run_keeps_definitions (eng : WorkflowEngine) (cancel : nat → bool)
  (clock : nat) (workflow : Workflow) :
  let w' := rr_workflow (execute_workflow eng cancel clock workflow) in
  wf_id w' = wf_id workflow
  ∧ wf_name w' = wf_name workflow
  ∧ wf_description w' = wf_description workflow
  ∧ wf_created_at w' = wf_created_at workflow
  ∧ wf_updated_at w' = wf_updated_at workflow
  ∧ length (wf_tasks w') = length (wf_tasks workflow)
  ∧ Forall2 same_definition (wf_tasks workflow) (wf_tasks w').
Proof.
  pose proof (run_tasks_same_definition eng cancel (wf_tasks workflow)
                0 false (-1) clock ∅) as Hsame.
  unfold execute_workflow.
  destruct (ls_exit (run_tasks eng cancel 0 false (-1) clock ∅ (wf_tasks workflow)));
    simpl; split_and!; try reflexivity; try exact Hsame;
    symmetry; by eapply Forall2_length.
Qed.

(** What the loop leaves behind, read from how it was left: [n] tasks
    ran to completion; then the list was exhausted, or the flag was seen
    set before task [n], or task [n] raised. *)
Lemma run_tasks_shape (eng : WorkflowEngine) (cancel : nat → bool)
  (tasks : list Task) :
  ∀ (i : nat) (index : Z) (clock : nat) (results : gmap string value),
    let ls := run_tasks eng cancel i false index clock results tasks in
    ∃ n,
      n ≤ length tasks
      ∧ Forall (λ p, task_status p = Completed) (take n (ls_tasks ls))
      ∧ (∀ j, j < n → cancel (i + j) = false)
      ∧ accumulate eng results (take n tasks) = Some (ls_results ls)
      ∧ match ls_exit ls with
        | Exhausted => n = length tasks ∧ ls_index ls = index_after index i n
        | Cancelled =>
            n < length tasks
            ∧ cancel (i + n) = true
            ∧ drop n (ls_tasks ls) = drop n tasks
            ∧ ls_index ls = index_after index i n
        | Aborted msg =>
            (∃ t t',
               tasks !! n = Some t
               ∧ task_body eng t (ls_results ls) = Raised msg
               ∧ ls_tasks ls !! n = Some t'
               ∧ task_status t' = Failed
               ∧ task_error t' = Some msg)
            ∧ cancel (i + n) = false
            ∧ drop (S n) (ls_tasks ls) = drop (S n) tasks
            ∧ ls_index ls = Z.of_nat (i + n)
        end.
Proof.
  induction tasks as [|t rest IH]; intros i index clock results; simpl.
  - exists 0. simpl.
    split_and!; [lia|constructor|intros; lia|reflexivity|reflexivity|reflexivity].
  - destruct (cancel i) eqn:Hci; simpl.
    { exists 0. rewrite Nat.add_0_r. simpl.
      split_and!; [lia|constructor|intros; lia|reflexivity|lia|exact Hci
                  |reflexivity|reflexivity]. }
    destruct (task_body eng t results) as [r|msg] eqn:Hbody.
    + rewrite (execute_task_returned _ _ _ _ _ Hbody). simpl.
      destruct (IH (S i) (Z.of_nat i) (S (S clock)) (<[task_id t := r]> results))
        as (n & Hn & Hdone & Hcancel & Hacc & Hexit).
      exists (S n). simpl. rewrite Hbody.
      assert (Hidx : index_after (Z.of_nat i) (S i) n = Z.of_nat (i + n)).
      { destruct n as [|m]; simpl; f_equal; lia. }
      split_and!.
      * lia.
      * constructor; [reflexivity|exact Hdone].
      * intros [|j] Hj; [by rewrite Nat.add_0_r|].
        replace (i + S j) with (S i + j) by lia. apply Hcancel. lia.
      * exact Hacc.
      * replace (i + S n) with (S i + n) by lia.
        destruct (ls_exit (run_tasks eng cancel (S i) false (Z.of_nat i)
                             (S (S clock)) (<[task_id t := r]> results) rest)).
        -- destruct Hexit as [-> Hi]. by rewrite Hi, Hidx.
        -- destruct Hexit as (Hlt & Hc & Hdrop & Hi).
           rewrite Hi, Hidx. split_and!; try done. lia.
        -- exact Hexit.
    + rewrite (execute_task_raised _ _ _ _ _ Hbody). simpl.
      exists 0. rewrite Nat.add_0_r. simpl.
      split_and!; [lia|constructor|intros; lia|reflexivity| |exact Hci
                  |reflexivity|reflexivity].
      eexists t, _. split_and!; try reflexivity. exact Hbody.
Qed.

Lemma index_after_start (n : nat) : index_after (-1) 0 n = (Z.of_nat n - 1)%Z.
Proof. destruct n; simpl; lia. Qed.

(** X2: A run that ends with the workflow completed is one in which every
    task succeeded: it returned the accumulator, which is also the
    workflow result, every task is completed, the accumulator is the one
    the handlers produce in turn and its keys are the task ids;
    [current_task_index] is N - 1 (still -1 for an empty workflow) and
    [workflow.error] is whatever it was before the run (a stale message
    of an earlier failure is not cleared). *)
Theorem completed_run_postcondition (eng : WorkflowEngine) (cancel : nat → bool)
  (clock : nat) (workflow : Workflow) :
  let rr := execute_workflow eng cancel clock workflow in
  wf_status (rr_workflow rr) = Completed →
  ∃ acc,
    rr_outcome rr = Returned acc
    ∧ wf_result (rr_workflow rr) = Some acc
    ∧ accumulate eng ∅ (wf_tasks workflow) = Some acc
    ∧ dom acc = list_to_set (task_id <$> wf_tasks workflow)
    ∧ Forall (λ p, task_status p = Completed) (wf_tasks (rr_workflow rr))
    ∧ wf_current_task_index (rr_workflow rr)
      = (Z.of_nat (length (wf_tasks workflow)) - 1)%Z
    ∧ wf_error (rr_workflow rr) = wf_error workflow.
Proof.
  intros rr. subst rr.
  destruct (run_tasks_shape eng cancel (wf_tasks workflow) 0 (-1) clock ∅)
    as (n & Hn & Hdone & _ & Hacc & Hexit).
  pose proof (run_tasks_same_definition eng cancel (wf_tasks workflow)
                0 false (-1) clock ∅) as Hlen%Forall2_length.
  unfold execute_workflow.
  destruct (ls_exit (run_tasks eng cancel 0 false (-1) clock ∅ (wf_tasks workflow)));
    simpl; intros Hstatus; try discriminate Hstatus.
  destruct Hexit as [-> Hindex].
  rewrite firstn_all in Hacc. rewrite Hlen, firstn_all in Hdone.
  eexists. split_and!; try reflexivity; try assumption.
  - by apply accumulate_dom_empty with eng.
  - by rewrite Hindex, index_after_start.
Qed.

Lemma completed_run_postcondition_witness :
  ∃ acc, rr_outcome first_run = Returned acc
         ∧ wf_result (rr_workflow first_run) = Some acc.
Proof.
  destruct (completed_run_postcondition echo_engine never_cancelled 0 echo_workflow
              eq_refl) as (acc & Hout & Hres & _).
  exists acc. by split.
Defined.

Lemma execute_task_observed_cases (eng : WorkflowEngine) (obs : Observers)
  (i clock : nat) (t : Task) (results : gmap string value) :
  let tr := _execute_task_observed eng obs i clock t results in
  (∃ r, tr_outcome tr = Returned r
        ∧ task_body eng t results = Returned r
        ∧ tr_clock tr = S (S clock)
        ∧ task_status (tr_task tr) = Completed)
  ∨ (∃ msg, tr_outcome tr = Raised msg
            ∧ stopped eng obs i t results msg (tr_task tr)).
Proof.
  unfold _execute_task_observed, fail_observed.
  destruct (call_start obs i (task_id t)).2 as [msg0|] eqn:Hstart.
  { right. exists msg0. split; [reflexivity|]. by apply start_callback_raised. }
  rewrite task_body_set_running.
  destruct (task_body eng t results) as [r|cause] eqn:Hbody.
  - destruct (call_complete obs i (task_id t) r).2 as [cause|] eqn:Hcomplete.
    + right. eexists. split; [reflexivity|].
      by apply (complete_callback_raised _ _ _ _ _ _ _ r cause).
    + left. exists r. by split_and!.
  - right. eexists. split; [reflexivity|].
    by apply (body_raised _ _ _ _ _ _ _ cause).
Qed.

(** What the loop leaves behind when callbacks may raise, read from how
    it was left: [n] tasks ran to completion; then the list was
    exhausted, or the flag was seen set before task [n], or the run of
    task [n] raised. *)
Lemma run_tasks_observed_shape (eng : WorkflowEngine) (obs : Observers)
  (cancel : nat → bool) (tasks : list Task) :
  ∀ (i : nat) (index : Z) (clock : nat) (results : gmap string value),
    let ls := run_tasks_observed eng obs cancel i false index clock results tasks in
    ∃ n,
      n ≤ length tasks
      ∧ Forall (λ p, task_status p = Completed) (take n (ls_tasks ls))
      ∧ (∀ j, j < n → cancel (i + j) = false)
      ∧ accumulate eng results (take n tasks) = Some (ls_results ls)
      ∧ match ls_exit ls with
        | Exhausted => n = length tasks ∧ ls_index ls = index_after index i n
        | Cancelled =>
            n < length tasks
            ∧ cancel (i + n) = true
            ∧ drop n (ls_tasks ls) = drop n tasks
            ∧ ls_index ls = index_after index i n
        | Aborted msg =>
            (∃ t t',
               tasks !! n = Some t
               ∧ ls_tasks ls !! n = Some t'
               ∧ stopped eng obs (i + n) t (ls_results ls) msg t')
            ∧ cancel (i + n) = false
            ∧ drop (S n) (ls_tasks ls) = drop (S n) tasks
            ∧ ls_index ls = Z.of_nat (i + n)
        end.
Proof.
  induction tasks as [|t rest IH]; intros i index clock results; simpl.
  - exists 0. simpl.
    split_and!; [lia|constructor|intros; lia|reflexivity|reflexivity|reflexivity].
  - destruct (cancel i) eqn:Hci; simpl.
    { exists 0. rewrite Nat.add_0_r. simpl.
      split_and!; [lia|constructor|intros; lia|reflexivity|lia|exact Hci
                  |reflexivity|reflexivity]. }
    destruct (execute_task_observed_cases eng obs i clock t results)
      as [(r & Hout & Hbody & Hclock & Hst)|(msg & Hout & Hstop)];
      rewrite Hout; simpl.
    + destruct (IH (S i) (Z.of_nat i)
                  (tr_clock (_execute_task_observed eng obs i clock t results))
                  (<[task_id t := r]> results))
        as (n & Hn & Hdone & Hcancel & Hacc & Hexit).
      exists (S n). simpl. rewrite Hbody.
      assert (Hidx : index_after (Z.of_nat i) (S i) n = Z.of_nat (i + n)).
      { destruct n as [|m]; simpl; f_equal; lia. }
      split_and!.
      * lia.
      * constructor; [exact Hst|exact Hdone].
      * intros [|j] Hj; [by rewrite Nat.add_0_r|].
        replace (i + S j) with (S i + j) by lia. apply Hcancel. lia.
      * exact Hacc.
      * replace (i + S n) with (S i + n) by lia.
        destruct (ls_exit (run_tasks_observed eng obs cancel (S i) false (Z.of_nat i)
                             (tr_clock (_execute_task_observed eng obs i clock t results))
                             (<[task_id t := r]> results) rest)).
        -- destruct Hexit as [-> Hi]. by rewrite Hi, Hidx.
        -- destruct Hexit as (Hlt & Hc & Hdrop & Hi).
           rewrite Hi, Hidx. split_and!; try done. lia.
        -- exact Hexit.
    + exists 0. rewrite Nat.add_0_r. simpl.
      split_and!; [lia|constructor|intros; lia|reflexivity| |exact Hci
                  |reflexivity|reflexivity].
      eexists t, _. split_and!; try reflexivity. exact Hstop.
Qed.

Lemma stopped_when_callbacks_return (eng : WorkflowEngine) (obs : Observers)
  (k : nat) (t : Task) (acc : gmap string value) (msg : string) (t' : Task) :
  callbacks_return obs →
  stopped eng obs k t acc msg t' →
  task_body eng t acc = Raised msg
  ∧ task_status t' = Failed
  ∧ task_error t' = Some msg.
Proof.
  intros Hobs [Hstart _ _|cause _ Hbody Hst Herr ->|r cause _ _ Hcomplete _ _ _ _].
  - rewrite (call_start_returns obs _ _ Hobs) in Hstart. discriminate Hstart.
  - rewrite (call_fail_returns obs _ _ _ Hobs). by split_and!.
  - rewrite (call_complete_returns obs _ _ _ Hobs) in Hcomplete. discriminate Hcomplete.
Qed.

(** X3: A run that raises [msg] stopped at one task: the workflow is failed
    with error [msg] and keeps the result it had; [current_task_index] is
    the position k of the task whose run raised; no cancellation was seen
    up to k; the tasks before k are completed and the tasks after k are
    untouched.  Task k is left running when the start callback raised
    [msg]; otherwise it is failed with the error that entered the
    [except] block (raised by the body on the accumulator of the tasks
    before it, or by the completion callback after the handler returned),
    and [msg] is that error unless the failure callback raised, in which
    case [msg] is what that callback raised.  When every callback returns,
    task k is failed with error [msg] and its body raised [msg]. *)
Theorem raised_run_postcondition (eng : WorkflowEngine) (obs : Observers)
  (cancel : nat → bool) (clock : nat) (workflow : Workflow) (msg : string) :
  let rr := execute_workflow_observed eng obs cancel clock workflow in
  rr_outcome rr = Raised msg →
  wf_status (rr_workflow rr) = Failed
  ∧ wf_error (rr_workflow rr) = Some msg
  ∧ wf_result (rr_workflow rr) = wf_result workflow
  ∧ ∃ k t t' acc,
      wf_current_task_index (rr_workflow rr) = Z.of_nat k
      ∧ wf_tasks workflow !! k = Some t
      ∧ accumulate eng ∅ (take k (wf_tasks workflow)) = Some acc
      ∧ wf_tasks (rr_workflow rr) !! k = Some t'
      ∧ stopped eng obs k t acc msg t'
      ∧ (callbacks_return obs →
         task_body eng t acc = Raised msg
         ∧ task_status t' = Failed
         ∧ task_error t' = Some msg)
      ∧ (∀ j, j ≤ k → cancel j = false)
      ∧ Forall (λ p, task_status p = Completed) (take k (wf_tasks (rr_workflow rr)))
      ∧ drop (S k) (wf_tasks (rr_workflow rr)) = drop (S k) (wf_tasks workflow).
Proof.
  intros rr. subst rr.
  destruct (run_tasks_observed_shape eng obs cancel (wf_tasks workflow) 0 (-1) clock ∅)
    as (n & Hn & Hdone & Hcancel & Hacc & Hexit).
  unfold execute_workflow_observed.
  destruct (ls_exit (run_tasks_observed eng obs cancel 0 false (-1) clock ∅
                       (wf_tasks workflow)))
    as [| |msg']; simpl; intros Hout; try discriminate Hout.
  injection Hout as ->.
  destruct Hexit as ((t & t' & Ht & Ht' & Hstop) & Hc & Hdrop & Hindex).
  split_and!; try reflexivity.
  exists n, t, t',
    (ls_results (run_tasks_observed eng obs cancel 0 false (-1) clock ∅
                   (wf_tasks workflow))).
  split_and!; try assumption.
  - intros Hobs. by apply (stopped_when_callbacks_return eng obs n).
  - intros j Hj. destruct (decide (j = n)) as [->|Hne]; [exact Hc|].
    apply (Hcancel j). lia.
Qed.

Lemma raised_run_postcondition_witness :
  wf_status (rr_workflow (execute_workflow_observed echo_engine
                            failing_completion_observers never_cancelled 0
                            (three_tasks (fail_task "t2"))))
  = Failed.
Proof.
  refine (proj1 (raised_run_postcondition echo_engine failing_completion_observers
                   never_cancelled 0 (three_tasks (fail_task "t2")) "display is gone" _)).
  vm_compute. reflexivity.
Defined.

(** X4: A run that returns although the workflow ends failed was cancelled:
    the error is the cancellation message, the flag was first seen set
    before some task k, the returned accumulator is the one of the k
    tasks before it, which are completed, the tasks from k on are
    untouched, [current_task_index] is k - 1 and [workflow.result] is
    left as it was. *)
Theorem cancelled_run_postcondition (eng : WorkflowEngine) (cancel : nat → bool)
  (clock : nat) (workflow : Workflow) (acc : gmap string value) :
  let rr := execute_workflow eng cancel clock workflow in
  rr_outcome rr = Returned acc →
  wf_status (rr_workflow rr) = Failed →
  wf_error (rr_workflow rr) = Some cancel_message
  ∧ wf_result (rr_workflow rr) = wf_result workflow
  ∧ ∃ k,
      k < length (wf_tasks workflow)
      ∧ cancel k = true
      ∧ (∀ j, j < k → cancel j = false)
      ∧ accumulate eng ∅ (take k (wf_tasks workflow)) = Some acc
      ∧ Forall (λ p, task_status p = Completed) (take k (wf_tasks (rr_workflow rr)))
      ∧ drop k (wf_tasks (rr_workflow rr)) = drop k (wf_tasks workflow)
      ∧ wf_current_task_index (rr_workflow rr) = (Z.of_nat k - 1)%Z.
Proof.
  intros rr. subst rr.
  destruct (run_tasks_shape eng cancel (wf_tasks workflow) 0 (-1) clock ∅)
    as (n & Hn & Hdone & Hcancel & Hacc & Hexit).
  unfold execute_workflow.
  destruct (ls_exit (run_tasks eng cancel 0 false (-1) clock ∅ (wf_tasks workflow)));
    simpl; intros Hout Hstatus; try discriminate Hout; try discriminate Hstatus.
  injection Hout as <-.
  destruct Hexit as (Hlt & Hc & Hdrop & Hindex).
  split_and!; try reflexivity.
  exists n. split_and!; try assumption.
  by rewrite Hindex, index_after_start.
Qed.

Lemma cancelled_run_postcondition_witness :
  wf_error (rr_workflow (execute_workflow echo_engine (cancelled_before 1) 0
                           (three_tasks (echo_task "t2" "again"))))
  = Some cancel_message.
Proof.
  refine (proj1 (cancelled_run_postcondition echo_engine (cancelled_before 1) 0
                   (three_tasks (echo_task "t2" "again"))
                   (<["t1" := VStr "hello"]> ∅) _ _)).
  - vm_compute. reflexivity.
  - vm_compute. reflexivity.
Defined.

Lemma execute_task_starts_running (eng : WorkflowEngine) (clock : nat) (t : Task)
  (results : gmap string value) :
  ∃ events, tr_events (_execute_task eng clock t results) = StatusSet Running :: events.
Proof.
  unfold _execute_task.
  destruct (task_body eng (set_running t clock) results); simpl; eexists; reflexivity.
Qed.

Lemma tagged_positions_sorted (i : nat) (events : list event) :
  StronglySorted le (((λ ev, (i, ev)) <$> events).*1).
Proof.
  induction events as [|ev events IH]; simpl; [constructor|].
  constructor; [exact IH|].
  apply Forall_forall. intros j Hj.
  apply list_elem_of_fmap in Hj as ([j' ev'] & -> & Hin).
  apply tagged_index in Hin. simpl. lia.
Qed.

Lemma run_tasks_log_order (eng : WorkflowEngine) (cancel : nat → bool)
  (tasks : list Task) :
  ∀ (i : nat) (flag : bool) (index : Z) (clock : nat) (results : gmap string value),
    let log := ls_log (run_tasks eng cancel i flag index clock results tasks) in
    StronglySorted le (log.*1)
    ∧ ∀ j ev, (j, ev) ∈ log →
        i ≤ j < i + length tasks
        ∧ ∀ j', i ≤ j' ≤ j → (j', StatusSet Running) ∈ log.
Proof.
  induction tasks as [|t rest IH]; intros i flag index clock results; simpl.
  - split; [constructor|]. intros j ev Hin. by apply elem_of_nil in Hin.
  - destruct (flag || cancel i); simpl.
    { split; [constructor|]. intros j ev Hin. by apply elem_of_nil in Hin. }
    destruct (execute_task_starts_running eng clock t results) as [events Hevents].
    assert (Hfirst : (i, StatusSet Running)
                     ∈ (λ ev, (i, ev)) <$> tr_events (_execute_task eng clock t results)).
    { rewrite Hevents. rewrite fmap_cons. apply elem_of_cons. by left. }
    destruct (tr_outcome (_execute_task eng clock t results)) as [r|msg]; simpl.
    + destruct (IH (S i) false (Z.of_nat i) (tr_clock (_execute_task eng clock t results))
                  (<[task_id t := r]> results)) as [IHsorted IHin].
      split.
      * rewrite fmap_app. apply StronglySorted_app_2;
          [|apply tagged_positions_sorted|exact IHsorted].
        intros j1 j2 Hj1 Hj2.
        apply list_elem_of_fmap in Hj1 as ([j1' ev1] & -> & Hin1).
        apply list_elem_of_fmap in Hj2 as ([j2' ev2] & -> & Hin2).
        apply tagged_index in Hin1. apply IHin in Hin2 as [Hrange _].
        simpl in *. lia.
      * intros j ev Hin. apply elem_of_app in Hin as [Hin|Hin].
        -- apply tagged_index in Hin as ->. split; [lia|].
           intros j' Hj'. apply elem_of_app. left.
           by replace j' with i by lia.
        -- destruct (IHin j ev Hin) as [Hrange Hstarted]. split; [lia|].
           intros j' Hj'. apply elem_of_app.
           destruct (decide (j' = i)) as [->|Hne]; [by left|].
           right. apply Hstarted. lia.
    + split; [apply tagged_positions_sorted|].
      intros j ev Hin. apply tagged_index in Hin as ->. split; [lia|].
      intros j' Hj'. by replace j' with i by lia.
Qed.

(** X5: Tasks run strictly in list order: the positions of the log entries
    never decrease, every entry belongs to a task of the workflow, and
    when the log has an entry for a task, every task before it was
    started first (none is skipped). *)
Theorem log_follows_task_order (eng : WorkflowEngine) (cancel : nat → bool)
  (clock : nat) (workflow : Workflow) :
  let log := rr_log (execute_workflow eng cancel clock workflow) in
  StronglySorted le (log.*1)
  ∧ ∀ j ev, (j, ev) ∈ log →
      j < length (wf_tasks workflow)
      ∧ ∀ j', j' ≤ j → (j', StatusSet Running) ∈ log.
Proof.
  destruct (execute_workflow_log eng cancel clock workflow) as [Hlog _].
  destruct (run_tasks_log_order eng cancel (wf_tasks workflow) 0 false (-1) clock ∅)
    as [Hsorted Hin].
  cbv zeta. rewrite Hlog. split; [exact Hsorted|].
  intros j ev Hj. destruct (Hin j ev Hj) as [Hrange Hstarted].
  split; [lia|]. intros j' Hj'. apply Hstarted. lia.
Qed.

Lemma execute_task_observed_fail_call (eng : WorkflowEngine) (obs : Observers)
  (i clock : nat) (t : Task) (results : gmap string value) (id cause : string) :
  let tr := _execute_task_observed eng obs i clock t results in
  TaskFailCalled id cause ∈ tr_events tr →
  id = task_id t
  ∧ is_Some (fail_callback obs)
  ∧ tr_outcome tr = Raised (default cause (call_fail obs i id cause).2)
  ∧ task_status (tr_task tr) = Failed
  ∧ task_error (tr_task tr) = Some cause
  ∧ ∃ l, tr_events tr = l ++ [TaskFailCalled id cause]
         ∧ ∀ id' msg', TaskFailCalled id' msg' ∉ l.
Proof.
  assert (Hpre : ∀ (pre : list event) (task : Task) (msg : string) (now : nat),
            (∀ id' msg', TaskFailCalled id' msg' ∉ pre) →
            task_id task = task_id t →
            let tr := fail_observed obs i task msg now pre in
            TaskFailCalled id cause ∈ tr_events tr →
            id = task_id t
            ∧ is_Some (fail_callback obs)
            ∧ tr_outcome tr = Raised (default cause (call_fail obs i id cause).2)
            ∧ task_status (tr_task tr) = Failed
            ∧ task_error (tr_task tr) = Some cause
            ∧ ∃ l, tr_events tr = l ++ [TaskFailCalled id cause]
                   ∧ ∀ id' msg', TaskFailCalled id' msg' ∉ l).
  { intros pre task msg now Hnone Hid. unfold fail_observed, call_fail. simpl.
    rewrite Hid.
    destruct (fail_callback obs) as [f|] eqn:Hf; simpl; intros Hin.
    - apply elem_of_app in Hin as [Hin|Hin]; [by apply Hnone in Hin|].
      apply elem_of_cons in Hin as [Hin|Hin]; [discriminate Hin|].
      apply list_elem_of_singleton in Hin. injection Hin as -> ->.
      split_and!; try reflexivity; [by eexists|].
      exists (pre ++ [StatusSet Failed]). split; [by rewrite <- app_assoc|].
      intros id' msg' Hin. apply elem_of_app in Hin as [Hin|Hin];
        [by apply Hnone in Hin|].
      apply list_elem_of_singleton in Hin. discriminate Hin.
    - apply elem_of_app in Hin as [Hin|Hin]; [by apply Hnone in Hin|].
      apply list_elem_of_singleton in Hin. discriminate Hin. }
  assert (Hstart : ∀ id' msg',
            TaskFailCalled id' msg'
            ∉ StatusSet Running :: (call_start obs i (task_id t)).1).
  { intros id' msg' Hin. unfold call_start in Hin.
    destruct (start_callback obs); simpl in Hin;
      repeat (apply elem_of_cons in Hin as [Hin|Hin]; [discriminate Hin|]);
      by apply elem_of_nil in Hin. }
  unfold _execute_task_observed.
  destruct (call_start obs i (task_id t)).2 as [msg0|] eqn:Hs; simpl.
  { intros Hin. by apply Hstart in Hin. }
  destruct (task_body eng (set_running t clock) results) as [r|msg].
  - assert (Hcomplete : ∀ id' msg',
              TaskFailCalled id' msg'
              ∉ (StatusSet Running :: (call_start obs i (task_id t)).1)
                ++ StatusSet Completed :: (call_complete obs i (task_id t) r).1).
    { intros id' msg' Hin. apply elem_of_app in Hin as [Hin|Hin];
        [by apply Hstart in Hin|].
      unfold call_complete in Hin.
      destruct (complete_callback obs); simpl in Hin;
        repeat (apply elem_of_cons in Hin as [Hin|Hin]; [discriminate Hin|]);
        by apply elem_of_nil in Hin. }
    destruct (call_complete obs i (task_id t) r).2 as [msg1|] eqn:Hc.
    + by apply Hpre.
    + simpl. intros Hin. by apply Hcomplete in Hin.
  - by apply Hpre.
Qed.

Lemma run_tasks_observed_fail_call_last (eng : WorkflowEngine) (obs : Observers)
  (cancel : nat → bool) (tasks : list Task) :
  ∀ (i : nat) (flag : bool) (index : Z) (clock : nat) (results : gmap string value)
    (j : nat) (id cause : string),
    let ls := run_tasks_observed eng obs cancel i flag index clock results tasks in
    (j, TaskFailCalled id cause) ∈ ls_log ls →
    ls_exit ls = Aborted (default cause (call_fail obs j id cause).2)
    ∧ is_Some (fail_callback obs)
    ∧ ls_index ls = Z.of_nat j
    ∧ i ≤ j
    ∧ (∃ t', ls_tasks ls !! (j - i) = Some t'
             ∧ task_id t' = id
             ∧ task_status t' = Failed
             ∧ task_error t' = Some cause)
    ∧ ∃ l, ls_log ls = l ++ [(j, TaskFailCalled id cause)]
           ∧ ∀ j' id' msg', (j', TaskFailCalled id' msg') ∉ l.
Proof.
  induction tasks as [|t rest IH]; intros i flag index clock results j id cause; simpl.
  - intros Hin. by apply elem_of_nil in Hin.
  - destruct (flag || cancel i); simpl.
    { intros Hin. by apply elem_of_nil in Hin. }
    pose proof (execute_task_observed_fail_call eng obs i clock t results) as Hcall.
    cbv zeta in Hcall.
    pose proof (execute_task_observed_same_definition eng obs i clock t results)
      as (Hsame & _).
    destruct (tr_outcome (_execute_task_observed eng obs i clock t results))
      as [r|msg] eqn:Hout; simpl.
    + assert (Hnone : ∀ j' id' msg',
                 (j', TaskFailCalled id' msg')
                 ∉ (λ ev, (i, ev)) <$>
                   tr_events (_execute_task_observed eng obs i clock t results)).
      { intros j' id' msg' Hin.
        apply list_elem_of_fmap in Hin as (ev & Heq & Hin). injection Heq as -> <-.
        destruct (Hcall id' msg' Hin) as (_ & _ & Hraised & _). discriminate Hraised. }
      intros Hin. apply elem_of_app in Hin as [Hin|Hin]; [by apply Hnone in Hin|].
      destruct (IH _ _ _ _ _ _ _ _ Hin)
        as (He & Hsome & Hi & Hle & (t' & Ht' & Hfields) & l & Hl & Hnot).
      split_and!; [exact He|exact Hsome|exact Hi|lia| |].
      * exists t'. split; [|exact Hfields].
        replace (j - i) with (S (j - S i)) by lia. exact Ht'.
      * eexists (_ ++ l). split.
        -- rewrite Hl. by rewrite <- app_assoc.
        -- intros j' id' msg' Hin'.
           apply elem_of_app in Hin' as [Hin'|Hin']; [by apply Hnone in Hin'|].
           by apply Hnot in Hin'.
    + intros Hin.
      apply list_elem_of_fmap in Hin as (ev & Heq & Hin). injection Heq as -> <-.
      destruct (Hcall id cause Hin) as (-> & Hsome & Hraised & Hst & Herr & l & Hl & Hnot).
      injection Hraised as ->.
      split_and!; [reflexivity|exact Hsome|reflexivity|lia| |].
      * rewrite Nat.sub_diag. eexists. split; [reflexivity|]. by split_and!.
      * exists ((λ ev, (i, ev)) <$> l). split.
        -- by rewrite Hl, fmap_app.
        -- intros j' id' msg' Hin'.
           apply list_elem_of_fmap in Hin' as (ev & Heq & Hin'). injection Heq as -> <-.
           by apply Hnot in Hin'.
Qed.

(** X6: The failure callback is called at most once per run and nothing
    follows it: when the log holds a call of [on_task_fail] for position
    j with the error [cause], that call is the last entry of the log and
    there is no other one; the task at position j is the task the call
    names and it is failed with error [cause]; [current_task_index] is j;
    the run raises, and the workflow's error is what it raises: [cause]
    when the callback returns, otherwise what the callback raised. *)
Theorem fail_callback_ends_the_run (eng : WorkflowEngine) (obs : Observers)
  (cancel : nat → bool) (clock : nat) (workflow : Workflow) (j : nat)
  (id cause : string) :
  let rr := execute_workflow_observed eng obs cancel clock workflow in
  (j, TaskFailCalled id cause) ∈ rr_log rr →
  ∃ f msg,
    fail_callback obs = Some f
    ∧ msg = match f j id cause with Returned _ => cause | Raised raised => raised end
    ∧ rr_outcome rr = Raised msg
    ∧ wf_error (rr_workflow rr) = Some msg
    ∧ wf_status (rr_workflow rr) = Failed
    ∧ wf_current_task_index (rr_workflow rr) = Z.of_nat j
    ∧ (∃ t', wf_tasks (rr_workflow rr) !! j = Some t'
             ∧ task_id t' = id
             ∧ task_status t' = Failed
             ∧ task_error t' = Some cause)
    ∧ ∃ l, rr_log rr = l ++ [(j, TaskFailCalled id cause)]
           ∧ ∀ j' id' msg', (j', TaskFailCalled id' msg') ∉ l.
Proof.
  intros rr Hin. subst rr.
  destruct (execute_workflow_observed_log eng obs cancel clock workflow) as [Hlog Htasks].
  cbv zeta in Hlog, Htasks. rewrite Hlog in Hin.
  destruct (run_tasks_observed_fail_call_last _ _ _ _ _ _ _ _ _ _ _ _ Hin)
    as (He & [f Hf] & Hi & _ & (t' & Ht' & Hfields) & l & Hl & Hnot).
  rewrite Nat.sub_0_r in Ht'.
  exists f, (default cause (call_fail obs j id cause).2).
  rewrite Hlog, Htasks.
  unfold execute_workflow_observed. rewrite He. simpl.
  split_and!; try reflexivity.
  - exact Hf.
  - unfold call_fail. rewrite Hf. simpl. by destruct (f j id cause).
  - exact Hi.
  - by exists t'.
  - by exists l.
Qed.

Lemma fail_callback_ends_the_run_witness :
  ∃ f msg,
    fail_callback quiet_observers = Some f
    ∧ msg = match f 1 "t2" "boom" with Returned _ => "boom" | Raised raised => raised end
    ∧ rr_outcome (execute_workflow_observed echo_engine quiet_observers never_cancelled 0
                    (three_tasks (fail_task "t2")))
      = Raised msg.
Proof.
  destruct (fail_callback_ends_the_run echo_engine quiet_observers never_cancelled 0
              (three_tasks (fail_task "t2")) 1 "t2" "boom")
    as (f & msg & Hf & Hmsg & Hout & _).
  - vm_compute. do 7 apply list_elem_of_further. apply list_elem_of_here.
  - exists f, msg. by split_and!.
Defined.

(** X7: Parameters only see the results of tasks that ran before: against
    the accumulator left by the tasks [pre], a reference whose task id is
    not the id of one of them (the id of the task itself, of a later task,
    or a mistyped one) is passed through as the literal string, and a
    [previous_result] naming such an id is dropped from the parameters. *)
Theorem later_references_stay_literal (eng : WorkflowEngine) (pre : list Task)
  (acc : gmap string value) (s rest task : string) (parts : list string)
  (key : string) :
  accumulate eng ∅ pre = Some acc →
  strip_dollar s = Some rest →
  split "."%char rest = task :: parts →
  task ∉ task_id <$> pre →
  key ≠ "previous_result" →
  resolve_value acc (VStr s) = VStr s
  ∧ _process_params [(key, VStr s)] acc = Returned [(key, VStr s)]
  ∧ _process_params [("previous_result", VStr (String "$" task))] acc = Returned [].
Proof.
  intros Hacc Hs Hsplit Hnotin Hkey.
  assert (Hnone : acc !! task = None).
  { apply not_elem_of_dom. rewrite (accumulate_dom_empty _ _ _ Hacc).
    by rewrite elem_of_list_to_set. }
  assert (Hresolve : resolve_value acc (VStr s) = VStr s).
  { unfold resolve_value. by rewrite Hs, Hsplit, Hnone. }
  split_and!; [exact Hresolve| |].
  - apply String.eqb_neq in Hkey.
    unfold _process_params, process_previous_result.
    cbn [dict_get]. rewrite Hkey. cbn [copy_params]. rewrite Hkey, Hresolve.
    reflexivity.
  - unfold _process_params, process_previous_result.
    cbn [dict_get String.eqb Ascii.eqb Bool.eqb truthy negb strip_dollar in_results].
    rewrite Hnone, bool_decide_eq_false_2 by (by intros [x Hx]).
    reflexivity.
Qed.

Lemma later_references_stay_literal_witness :
  resolve_value (<["t1" := VStr "hello"]> ∅) (VStr "$t3.text") = VStr "$t3.text".
Proof.
  refine (proj1 (later_references_stay_literal echo_engine [echo_task "t1" "hello"]
                   (<["t1" := VStr "hello"]> ∅) "$t3.text" "t3.text" "t3" ["text"]
                   "query" _ _ _ _ _)).
  - vm_compute. reflexivity.
  - reflexivity.
  - reflexivity.
  - intros Hin. apply list_elem_of_singleton in Hin. discriminate Hin.
  - discriminate.
Defined.







(** ** Workflows built and registered by the engine *)

Lemma registry_get_set (workflows : list (string * Workflow)) (id id' : string)
  (w : Workflow) :
  registry_get (registry_set workflows id w) id'
  = if String.eqb id id' then Some w else registry_get workflows id'.
Proof.
  induction workflows as [|[k w0] workflows IH]; simpl.
  - reflexivity.
  - destruct (String.eqb k id) eqn:Hk; simpl.
    + apply String.eqb_eq in Hk as ->. by destruct (String.eqb id id').
    + rewrite IH. destruct (String.eqb id id') eqn:Hid; [|reflexivity].
      apply String.eqb_eq in Hid as <-. by rewrite Hk.
Qed.

Lemma registry_set_keys (workflows : list (string * Workflow)) (id : string)
  (w : Workflow) :
  (registry_set workflows id w).*1
  = if bool_decide (id ∈ workflows.*1) then workflows.*1 else workflows.*1 ++ [id].
Proof.
  induction workflows as [|[k w0] workflows IH].
  - rewrite bool_decide_eq_false_2; [reflexivity|]. apply not_elem_of_nil.
  - cbn [registry_set]. destruct (String.eqb k id) eqn:Hk.
    + apply String.eqb_eq in Hk as ->. rewrite !fmap_cons. cbn [fst].
      rewrite bool_decide_eq_true_2; [reflexivity|]. apply list_elem_of_here.
    + apply String.eqb_neq in Hk. rewrite !fmap_cons, IH. cbn [fst].
      destruct (decide (id ∈ workflows.*1)) as [Hin|Hnotin].
      * rewrite (bool_decide_eq_true_2 _ Hin).
        rewrite bool_decide_eq_true_2; [reflexivity|by apply list_elem_of_further].
      * rewrite (bool_decide_eq_false_2 _ Hnotin).
        rewrite bool_decide_eq_false_2; [reflexivity|].
        intros [Heq|Hin]%elem_of_cons; [by destruct Hk|by destruct Hnotin].
Qed.

Lemma registry_get_elem (workflows : list (string * Workflow)) (id : string)
  (w : Workflow) :
  registry_get workflows id = Some w → w ∈ get_workflows workflows.
Proof.
  unfold get_workflows. induction workflows as [|[k w0] workflows IH]; simpl.
  - discriminate.
  - destruct (String.eqb k id).
    + intros Heq. injection Heq as ->. apply list_elem_of_here.
    + intros Hget. apply list_elem_of_further. by apply IH.
Qed.

(** X10: [update_workflow] stores the workflow under its id and returns it:
    looking that id up gives the workflow, every other id is unaffected,
    and the listing keeps its order: an id already registered keeps its
    place (the old workflow is replaced), a new id goes to the end. *)
Theorem update_workflow_registers (workflows : list (string * Workflow))
  (workflow : Workflow) :
  let workflows' := (update_workflow workflows workflow).1 in
  (update_workflow workflows workflow).2 = workflow
  ∧ registry_get workflows' (wf_id workflow) = Some workflow
  ∧ workflow ∈ get_workflows workflows'
  ∧ (∀ id, id ≠ wf_id workflow → registry_get workflows' id = registry_get workflows id)
  ∧ workflows'.*1
    = (if bool_decide (wf_id workflow ∈ workflows.*1)
       then workflows.*1 else workflows.*1 ++ [wf_id workflow])
  ∧ length (get_workflows workflows')
    = (if bool_decide (wf_id workflow ∈ workflows.*1)
       then length (get_workflows workflows) else S (length (get_workflows workflows))).
Proof.
  unfold update_workflow. simpl.
  assert (Hget : registry_get (registry_set workflows (wf_id workflow) workflow)
                   (wf_id workflow) = Some workflow).
  { by rewrite registry_get_set, String.eqb_refl. }
  split_and!.
  - reflexivity.
  - exact Hget.
  - by eapply registry_get_elem.
  - intros id Hne. rewrite registry_get_set.
    destruct (String.eqb (wf_id workflow) id) eqn:Heq; [|reflexivity].
    apply String.eqb_eq in Heq. by destruct Hne.
  - apply registry_set_keys.
  - unfold get_workflows. rewrite !length_fmap.
    rewrite <- (length_fmap fst (registry_set _ _ _)), registry_set_keys.
    destruct (bool_decide (wf_id workflow ∈ workflows.*1)).
    + by rewrite length_fmap.
    + rewrite length_app, length_fmap. simpl. lia.
Qed.

Lemma collect_tasks_returned (eng : WorkflowEngine) (uuid : nat → string)
  (items : list value) :
  ∀ (n n' : nat) (tasks : list Task),
    collect_tasks eng uuid n items = Returned (tasks, n') →
    Forall (λ t, is_Some (task_handlers eng !! task_handler t) ∧ fresh_task t) tasks
    ∧ length tasks ≤ length items
    ∧ n' = n + length tasks.
Proof.
  induction items as [|task_dict items IH]; intros n n' tasks Hcollect.
  - injection Hcollect as <- <-. split_and!; [constructor|simpl; lia|simpl; lia].
  - cbn [collect_tasks] in Hcollect.
    apply bind_returned in Hcollect as (d & _ & Hcollect).
    destruct (truthy (dict_get_default d "handler" VNone)).
    2:{ destruct (IH _ _ _ Hcollect) as (Hall & Hlen & Hn).
        split_and!; [exact Hall|simpl; lia|exact Hn]. }
    apply bind_returned in Hcollect as (known & Hknown & Hcollect).
    destruct known.
    2:{ destruct (IH _ _ _ Hcollect) as (Hall & Hlen & Hn).
        split_and!; [exact Hall|simpl; lia|exact Hn]. }
    apply bind_returned in Hcollect as (h & Hh & Hcollect).
    apply bind_returned in Hcollect as (id & _ & Hcollect).
    apply bind_returned in Hcollect as (parameters & _ & Hcollect).
    apply bind_returned in Hcollect as (description & _ & Hcollect).
    apply bind_returned in Hcollect as ([tasks' n''] & Hrest & Hcollect).
    injection Hcollect as <- <-.
    destruct (IH _ _ _ Hrest) as (Hall & Hlen & Hn).
    split_and!; [|simpl; lia|simpl; lia].
    constructor; [|exact Hall]. split.
    + destruct (dict_get_default d "handler" VNone); try discriminate Hh.
      injection Hh as ->. injection Hknown as Hknown.
      simpl. exact (bool_decide_eq_true_1 _ Hknown).
    + unfold fresh_task, Task_init. simpl. split_and!; try reflexivity.
      destruct (String.eqb description "") eqn:Hd.
      * destruct h; discriminate.
      * by apply String.eqb_neq.
Qed.

(** X11: [create_workflow_from_dict] keeps only the tasks it can run: every
    task of the workflow it returns has a handler registered in the
    engine and starts without run state, there are no more tasks than
    entries in the description (entries without a handler, or with an
    unknown handler type, are dropped silently), the workflow carries the
    id of the description, is pending, and is registered in the engine
    under that id without disturbing the other registered workflows. *)
Theorem created_workflow_is_runnable (eng : WorkflowEngine)
  (workflows workflows' : list (string * Workflow)) (uuid : nat → string)
  (n n' clock clock' : nat) (workflow_dict : pydict) (workflow : Workflow) :
  create_workflow_from_dict eng workflows uuid n clock workflow_dict
  = Returned (workflow, workflows', n', clock') →
  Forall (λ t, is_Some (task_handlers eng !! task_handler t) ∧ fresh_task t)
    (wf_tasks workflow)
  ∧ length (wf_tasks workflow)
    ≤ length (match dict_get workflow_dict "tasks" with
              | Some (VList l) => l
              | _ => []
              end)
  ∧ dict_get workflow_dict "id" = Some (VStr (wf_id workflow))
  ∧ dict_get workflow_dict "name" = Some (VStr (wf_name workflow))
  ∧ wf_status workflow = Pending
  ∧ registry_get workflows' (wf_id workflow) = Some workflow
  ∧ workflow ∈ get_workflows workflows'
  ∧ (∀ id, id ≠ wf_id workflow → registry_get workflows' id = registry_get workflows id)
  ∧ n' = n + length (wf_tasks workflow).
Proof.
  unfold create_workflow_from_dict. intros Hcreate.
  destruct (dict_get workflow_dict "id") as [id_value|]; [|discriminate Hcreate].
  destruct (dict_get workflow_dict "name") as [name_value|]; [|discriminate Hcreate].
  apply bind_returned in Hcreate as (id & Hid & Hcreate).
  apply bind_returned in Hcreate as (name & Hname & Hcreate).
  apply bind_returned in Hcreate as (description & _ & Hcreate).
  apply bind_returned in Hcreate as ([tasks n''] & Hcollect & Hcreate).
  injection Hcreate as <- <- <- <-.
  destruct (collect_tasks_returned _ _ _ _ _ _ Hcollect) as (Hall & Hlen & Hn).
  assert (Hget : ∀ w, registry_get (registry_set workflows id w) id = Some w).
  { intros w. by rewrite registry_get_set, String.eqb_refl. }
  simpl. split_and!; try done.
  - destruct id_value; try discriminate Hid. by injection Hid as ->.
  - destruct name_value; try discriminate Hname. by injection Hname as ->.
  - by eapply registry_get_elem.
  - intros id' Hne. rewrite registry_get_set.
    destruct (String.eqb id id') eqn:Heq; [|reflexivity].
    apply String.eqb_eq in Heq. by destruct Hne.
Qed.

Lemma created_workflow_is_runnable_witness :
  ∃ workflow workflows' n' clock',
    create_workflow_from_dict echo_engine [] (λ _, "generated") 0 0 sample_description
    = Returned (workflow, workflows', n', clock')
    ∧ wf_status workflow = Pending
    ∧ task_id <$> wf_tasks workflow = ["a"; "generated"].
Proof.
  eexists _, _, _, _. split; [vm_compute; reflexivity|].
  split; [|reflexivity].
  refine (proj1 (proj2 (proj2 (proj2 (proj2
            (created_workflow_is_runnable echo_engine [] _ (λ _, "generated")
               0 _ 0 _ sample_description _ _)))))).
  vm_compute. reflexivity.
Defined.

(** X12: Edge cases of [create_workflow_from_dict]: a description without an
    id or without a name is refused with the "id and name required"
    error; a description whose tasks entry is missing or is not a list is
    accepted as a workflow with no tasks, registered like any other. *)
Theorem create_from_dict_edge_cases (eng : WorkflowEngine)
  (workflows : list (string * Workflow)) (uuid : nat → string) (n clock : nat)
  (workflow_dict : pydict) :
  (dict_get workflow_dict "id" = None ∨ dict_get workflow_dict "name" = None →
   create_workflow_from_dict eng workflows uuid n clock workflow_dict
   = Raised id_and_name_required)
  ∧ (∀ id name description,
       dict_get workflow_dict "id" = Some (VStr id) →
       dict_get workflow_dict "name" = Some (VStr name) →
       dict_get_default workflow_dict "description" (VStr "") = VStr description →
       (∀ l, dict_get workflow_dict "tasks" ≠ Some (VList l)) →
       ∃ workflow,
         create_workflow_from_dict eng workflows uuid n clock workflow_dict
         = Returned (workflow, registry_set workflows id workflow, n, S (S clock))
         ∧ wf_id workflow = id
         ∧ wf_name workflow = name
         ∧ wf_tasks workflow = []).
Proof.
  unfold create_workflow_from_dict. split.
  - intros [->| ->]; [reflexivity|].
    by destruct (dict_get workflow_dict "id").
  - intros id name description -> -> -> Hnolist.
    assert (Hitems : match dict_get workflow_dict "tasks" with
                     | Some (VList l) => l
                     | _ => []
                     end = []).
    { destruct (dict_get workflow_dict "tasks") as [[| | | |l|]|]; try reflexivity.
      by destruct (Hnolist l). }
    rewrite Hitems. simpl. eexists. split_and!; reflexivity.
Qed.

Lemma create_from_dict_edge_cases_witness :
  create_workflow_from_dict echo_engine [] (λ _, "generated") 0 0
    [("name", VStr "nameless id")]
  = Raised id_and_name_required.
Proof.
  refine (proj1 (create_from_dict_edge_cases echo_engine [] (λ _, "generated") 0 0
                   [("name", VStr "nameless id")]) _).
  left. reflexivity.
Defined.

Lemma update_workflow_registers_witness :
  registry_get (update_workflow [] echo_workflow).1 "wf1" = Some echo_workflow.
Proof.
  exact (proj1 (proj2 (update_workflow_registers [] echo_workflow))).
Defined.


(** * Further properties of the manager *)

Lemma append_nonempty (a b : string) : b ≠ "" → a +:+ b ≠ "".
Proof. intros Hb. destruct a; [exact Hb|discriminate]. Qed.

Lemma Task_init_fresh (id handler : string) (parameters : pydict) (description : string) :
  fresh_task (Task_init id handler parameters description).
Proof.
  unfold fresh_task, Task_init. simpl. split_and!; try reflexivity.
  destruct (String.eqb description "") eqn:Hd.
  - apply append_nonempty. discriminate.
  - by apply String.eqb_neq.
Qed.


Lemma Task_from_dict_fresh (data : value) (t : Task) :
  Task_from_dict data = Returned t → fresh_task t.
Proof.
  unfold Task_from_dict. intros Hparse.
  apply bind_returned in Hparse as (d & _ & Hparse).
  apply bind_returned in Hparse as (id & _ & Hparse).
  apply bind_returned in Hparse as (handler & _ & Hparse).
  apply bind_returned in Hparse as (parameters & _ & Hparse).
  apply bind_returned in Hparse as (description & _ & Hparse).
  injection Hparse as <-. apply Task_init_fresh.
Qed.

Lemma parse_tasks_Forall (parse : value → outcome Task) (P : Task → Prop)
  (items : list value) :
  (∀ data t, parse data = Returned t → P t) →
  ∀ tasks, parse_tasks parse items = Returned tasks → Forall P tasks.
Proof.
  intros Hparse. induction items as [|data items IH]; intros tasks Htasks.
  - injection Htasks as <-. constructor.
  - cbn [parse_tasks] in Htasks.
    apply bind_returned in Htasks as (t & Ht & Htasks).
    apply bind_returned in Htasks as (tasks' & Htasks' & Htasks).
    injection Htasks as <-. constructor; [by eapply Hparse|by apply IH].
Qed.

Lemma build_workflow_fresh (parse : value → outcome Task) (clock clock' : nat)
  (data : value) (w : Workflow) :
  (∀ data t, parse data = Returned t → fresh_task t) →
  build_workflow parse clock data = Returned (w, clock') →
  wf_status w = Pending
  ∧ wf_result w = None
  ∧ wf_error w = None
  ∧ wf_current_task_index w = (-1)%Z
  ∧ Forall fresh_task (wf_tasks w).
Proof.
  intros Hparse. unfold build_workflow. intros Hbuild.
  apply bind_returned in Hbuild as (d & _ & Hbuild).
  apply bind_returned in Hbuild as (id & _ & Hbuild).
  apply bind_returned in Hbuild as (name & _ & Hbuild).
  apply bind_returned in Hbuild as (description & _ & Hbuild).
  apply bind_returned in Hbuild as (items & _ & Hbuild).
  apply bind_returned in Hbuild as (tasks & Htasks & Hbuild).
  injection Hbuild as <- <-. simpl. split_and!; try reflexivity.
  by eapply parse_tasks_Forall.
Qed.

(** X13: Whatever document an instance file holds, a workflow that
    [load_workflow_instance] returns carries no run state: it is pending
    with no result, no error and index -1, and each of its tasks is
    pending with result None, no error, no timestamps and a description
    that is not empty. *)
Theorem loaded_workflow_is_fresh (st : Stores) (clock clock' : nat)
  (workflow_id : string) (w : Workflow) :
  load_workflow_instance st clock workflow_id = Some (w, clock') →
  wf_status w = Pending
  ∧ wf_result w = None
  ∧ wf_error w = None
  ∧ wf_current_task_index w = (-1)%Z
  ∧ Forall fresh_task (wf_tasks w).
Proof.
  unfold load_workflow_instance. intros Hload.
  destruct (instances st !! workflow_id) as [data|]; [|discriminate Hload].
  destruct (Workflow_from_dict clock data) as [r|] eqn:Hparse; [|discriminate Hload].
  injection Hload as ->.
  by apply (build_workflow_fresh Task_from_dict clock clock' data w Task_from_dict_fresh).
Qed.

Lemma loaded_workflow_is_fresh_witness :
  ∃ w clock', reloaded = Some (w, clock') ∧ Forall fresh_task (wf_tasks w).
Proof.
  eexists _, _. split; [vm_compute; reflexivity|].
  refine (proj2 (proj2 (proj2 (proj2
            (loaded_workflow_is_fresh
               (save_workflow_instance no_files (rr_workflow first_run))
               (rr_clock first_run) _ "wf1" _ _))))).
  vm_compute. reflexivity.
Defined.




Lemma reset_fresh_task (t : Task) : fresh_task t → reset_task t = t.
Proof.
  intros (Hs & Hr & He & Hst & Het & _). destruct t. simpl in *. by subst.
Qed.

Lemma reset_fresh_tasks (tasks : list Task) :
  Forall fresh_task tasks → reset_task <$> tasks = tasks.
Proof.
  induction 1 as [|t tasks Ht _ IH]; [reflexivity|].
  by rewrite fmap_cons, IH, (reset_fresh_task t Ht).
Qed.

(** X15: [run_selected_workflow] on a stored instance: the "already running"
    refusal can never trigger and the reset loop changes nothing, because
    a loaded workflow is always pending with fresh tasks; the workflow
    handed to the runner is exactly the loaded one, and nothing is
    started when the instance cannot be loaded. *)
Theorem run_selected_workflow_starts_loaded (st : Stores) (clock : nat)
  (workflow_id : string) :
  run_selected_workflow st clock workflow_id
  = match load_workflow_instance st clock workflow_id with
    | Some (workflow, clock') => Started workflow clock'
    | None => CannotLoad
    end.
Proof.
  unfold run_selected_workflow.
  destruct (load_workflow_instance st clock workflow_id) as [[w clock']|] eqn:Hload;
    [|reflexivity].
  unfold load_workflow_instance in Hload.
  destruct (instances st !! workflow_id) as [data|]; [|discriminate Hload].
  destruct (Workflow_from_dict clock data) as [r|] eqn:Hparse; [|discriminate Hload].
  injection Hload as ->.
  destruct (build_workflow_fresh Task_from_dict clock clock' data w
              Task_from_dict_fresh Hparse) as (Hs & _ & _ & _ & Hfresh).
  rewrite Hs. unfold reset_run_state.
  rewrite (reset_fresh_tasks _ Hfresh).
  destruct w. simpl in *. by subst.
Qed.

Lemma status_str_inj (s s' : Status) : status_str s = status_str s' → s = s'.
Proof. destruct s, s'; simpl; intros Heq; (reflexivity || discriminate Heq). Qed.

(** Two lists of tasks with the same definitions are written to the same
    documents exactly when the tasks have the same statuses. *)
Lemma same_definition_documents (tasks tasks' : list Task) :
  Forall2 same_definition tasks tasks' →
  Task_to_dict <$> tasks' = Task_to_dict <$> tasks
  ↔ task_status <$> tasks' = task_status <$> tasks.
Proof.
  induction 1 as [|t t' tasks tasks' (Hid & Hh & Hp & Hd) _ IH]; [done|].
  rewrite !fmap_cons. split; intros Heq; injection Heq as Hhead Htail.
  - f_equal; [|by apply IH].
    apply status_str_inj. congruence.
  - f_equal; [|by apply IH].
    unfold Task_to_dict. by rewrite Hid, Hh, Hp, Hd, Hhead.
Qed.

(** X16: Run state does not survive a save and a load.  The instance file
    written after a run (completed, failed or cancelled, callbacks
    returning or raising) differs from the one written before the run
    exactly when some task changed status, since [Task.to_dict] writes
    the status; but loading ignores it, so loading the workflow saved
    after the run gives the same workflow as loading the workflow saved
    before it.  Stated for a workflow id that names a plain file. *)
Theorem run_state_is_not_persisted (eng : WorkflowEngine) (obs : Observers)
  (cancel : nat → bool) (run_clock clock : nat) (st : Stores) (w : Workflow) :
  plain_file_name (wf_id w +:+ ".json") = true →
  let w' := rr_workflow (execute_workflow_observed eng obs cancel run_clock w) in
  load_workflow_instance (save_workflow_instance st w') clock (wf_id w)
  = load_workflow_instance (save_workflow_instance st w) clock (wf_id w)
  ∧ wf_id w' = wf_id w
  ∧ (instances (save_workflow_instance st w') !! wf_id w
     = instances (save_workflow_instance st w) !! wf_id w
     ↔ task_status <$> wf_tasks w' = task_status <$> wf_tasks w).
Proof.
  intros _.
  pose proof (run_tasks_observed_same_definition eng obs cancel (wf_tasks w)
                0 false (-1) run_clock ∅) as Hsame.
  assert (Hinit : ∀ l l', Forall2 same_definition l l' →
            (λ t, Task_init (task_id t) (task_handler t) (task_parameters t)
                    (task_description t)) <$> l'
            = (λ t, Task_init (task_id t) (task_handler t) (task_parameters t)
                      (task_description t)) <$> l).
  { induction 1 as [|t t' l l' (Hid & Hh & Hp & Hd) _ IH]; [reflexivity|].
    rewrite !fmap_cons, IH, Hid, Hh, Hp, Hd. reflexivity. }
  pose proof (Forall2_length _ _ _ Hsame) as Hlen.
  pose proof (same_definition_documents _ _ Hsame) as Hdocs.
  apply Hinit in Hsame.
  assert (Hdoc : ∀ w', wf_id w' = wf_id w → wf_name w' = wf_name w →
            wf_description w' = wf_description w →
            wf_tasks w'
            = ls_tasks (run_tasks_observed eng obs cancel 0 false (-1) run_clock ∅
                          (wf_tasks w)) →
            load_workflow_instance (save_workflow_instance st w') clock (wf_id w)
            = load_workflow_instance (save_workflow_instance st w) clock (wf_id w)
            ∧ wf_id w' = wf_id w
            ∧ (instances (save_workflow_instance st w') !! wf_id w
               = instances (save_workflow_instance st w) !! wf_id w
               ↔ task_status <$> wf_tasks w' = task_status <$> wf_tasks w)).
  { intros w' Hid Hname Hdesc Htasks. split_and!; [|exact Hid|].
    - unfold load_workflow_instance, save_workflow_instance. simpl.
      rewrite Hid, !lookup_insert_eq, !Workflow_round_trip.
      rewrite Hid, Hname, Hdesc, Htasks, Hsame, <- Hlen. reflexivity.
    - unfold save_workflow_instance. simpl. rewrite Hid, !lookup_insert_eq.
      unfold Workflow_to_dict. rewrite Hid, Hname, Hdesc, Htasks.
      rewrite <- Hdocs. split; intros Heq.
      + by injection Heq.
      + by rewrite Heq. }
  unfold execute_workflow_observed.
  destruct (ls_exit (run_tasks_observed eng obs cancel 0 false (-1) run_clock ∅
                       (wf_tasks w)));
    apply Hdoc; reflexivity.
Qed.

Lemma run_state_is_not_persisted_witness :
  load_workflow_instance
    (save_workflow_instance stored_instances
       (rr_workflow (execute_workflow_observed echo_engine failing_completion_observers
                       never_cancelled 0 echo_workflow)))
    7 "wf1"
  = load_workflow_instance (save_workflow_instance stored_instances echo_workflow) 7 "wf1".
Proof.
  exact (proj1 (run_state_is_not_persisted echo_engine failing_completion_observers
                  never_cancelled 0 7 stored_instances echo_workflow eq_refl)).
Defined.

(** X17: Saving touches one instance file only: for a workflow id that
    names a plain file, loading any other id that names a plain file
    gives what it gave before, the template store is unchanged, and
    saving twice under the same id keeps the last workflow saved. *)
Theorem save_overwrites_one_instance (st : Stores) (clock : nat)
  (w1 w2 : Workflow) (other : string) :
  plain_file_name (wf_id w1 +:+ ".json") = true →
  templates (save_workflow_instance st w1) = templates st
  ∧ (plain_file_name (other +:+ ".json") = true →
     other ≠ wf_id w1 →
     load_workflow_instance (save_workflow_instance st w1) clock other
     = load_workflow_instance st clock other)
  ∧ (wf_id w2 = wf_id w1 →
     save_workflow_instance (save_workflow_instance st w1) w2
     = save_workflow_instance st w2).
Proof.
  intros _. split_and!.
  - reflexivity.
  - intros _ Hne. unfold load_workflow_instance, save_workflow_instance. simpl.
    by rewrite lookup_insert_ne.
  - intros Heq. unfold save_workflow_instance. simpl.
    by rewrite Heq, insert_insert_eq.
Qed.

Lemma save_overwrites_one_instance_witness :
  load_workflow_instance
    (save_workflow_instance stored_instances (rr_workflow first_run)) 0 "wf3"
  = load_workflow_instance stored_instances 0 "wf3".
Proof.
  refine (proj1 (proj2 (save_overwrites_one_instance stored_instances 0
                          (rr_workflow first_run) echo_workflow "wf3" eq_refl))
            eq_refl _).
  discriminate.
Defined.

(** X18: [delete_workflow_instance], for an id that names a plain file:
    it returns False and changes nothing when no file is stored under the
    id and when [os.remove] fails; it returns True exactly when the file
    was there and was removed, after which loading that id gives None and
    deleting it again returns False; the templates and the other plain
    ids are unaffected; and deleting right after saving a new id restores
    the instance store. *)
Theorem delete_removes_one_instance (st : Stores) (clock : nat)
  (remove_succeeds : bool) (workflow_id other : string) (w : Workflow) :
  plain_file_name (workflow_id +:+ ".json") = true →
  let deleted := delete_workflow_instance st remove_succeeds workflow_id in
  (instances st !! workflow_id = None → deleted = (st, false))
  ∧ (remove_succeeds = false → deleted = (st, false))
  ∧ (deleted.2 = true
     ↔ is_Some (instances st !! workflow_id) ∧ remove_succeeds = true)
  ∧ (deleted.2 = true →
     load_workflow_instance deleted.1 clock workflow_id = None
     ∧ ∀ again, (delete_workflow_instance deleted.1 again workflow_id).2 = false)
  ∧ templates deleted.1 = templates st
  ∧ (plain_file_name (other +:+ ".json") = true →
     other ≠ workflow_id →
     load_workflow_instance deleted.1 clock other
     = load_workflow_instance st clock other)
  ∧ (workflow_id = wf_id w →
     instances st !! wf_id w = None →
     instances (delete_workflow_instance (save_workflow_instance st w) true
                  (wf_id w)).1
     = instances st).
Proof.
  intros _. cbv zeta. unfold delete_workflow_instance, load_workflow_instance.
  split_and!.
  - by intros ->.
  - intros ->. by destruct (instances st !! workflow_id).
  - destruct (instances st !! workflow_id) as [data|], remove_succeeds; simpl;
      split; try done; try (by intros [[? [=]] _]); try (by intros [_ [=]]);
      try (intros _; split; [by eexists|reflexivity]).
  - destruct (instances st !! workflow_id) as [data|] eqn:Hlookup, remove_succeeds;
      simpl; try done.
    intros _. rewrite lookup_delete_eq. split; [reflexivity|]. by intros again.
  - by destruct (instances st !! workflow_id), remove_succeeds.
  - intros _ Hne.
    destruct (instances st !! workflow_id), remove_succeeds; simpl; try reflexivity.
    by rewrite lookup_delete_ne.
  - intros _ Habsent. unfold save_workflow_instance. simpl.
    rewrite lookup_insert_eq. simpl. rewrite delete_insert_eq.
    by apply delete_id.
Qed.

Lemma delete_removes_one_instance_witness :
  (delete_workflow_instance stored_instances true "wf1").2 = true.
Proof.
  refine (proj2 (proj1 (proj2 (proj2 (delete_removes_one_instance stored_instances 0
                                        true "wf1" "wf3" echo_workflow eq_refl))))
            _).
  split; [by eexists|reflexivity].
Defined.

Lemma append_inj_r (a x y : string) : a +:+ x = a +:+ y → x = y.
Proof.
  induction a as [|c a IH]; simpl; intros Heq; [exact Heq|].
  injection Heq as Heq. by apply IH.
Qed.

(** X19: Two instances created from the same template: when the two uuid
    prefixes differ the instances get different ids, both are in the
    instance store afterwards (the second creation does not disturb the
    first) and the template store is untouched; when the prefixes
    coincide the ids coincide and the second instance replaces the
    first. *)
Theorem create_twice_from_template (st st1 st2 : Stores) (clock clock1 clock2 : nat)
  (uuid1 uuid2 template_id : string) (w1 w2 : Workflow) :
  create_workflow_from_template st clock uuid1 template_id = Returned (w1, st1, clock1) →
  create_workflow_from_template st1 clock1 uuid2 template_id = Returned (w2, st2, clock2) →
  templates st2 = templates st
  ∧ instances st2 !! wf_id w2 = Some (Workflow_to_dict w2)
  ∧ (String.substring 0 8 uuid1 ≠ String.substring 0 8 uuid2 →
     wf_id w1 ≠ wf_id w2
     ∧ instances st2 !! wf_id w1 = Some (Workflow_to_dict w1))
  ∧ (String.substring 0 8 uuid1 = String.substring 0 8 uuid2 →
     wf_id w1 = wf_id w2
     ∧ instances st2 = <[wf_id w2 := Workflow_to_dict w2]> (instances st)).
Proof.
  unfold create_workflow_from_template. intros Hfirst Hsecond.
  destruct (templates st !! template_id) as [data|] eqn:Htemplate;
    [|discriminate Hfirst].
  apply bind_returned in Hfirst as ([tpl1 c1] & Hyaml1 & Hfirst).
  injection Hfirst as <- <- <-.
  simpl in Hsecond. rewrite Htemplate in Hsecond.
  apply bind_returned in Hsecond as ([tpl2 c2] & Hyaml2 & Hsecond).
  injection Hsecond as <- <- <-.
  destruct (build_workflow_returned _ _ _ _ _ Hyaml1) as ((d1 & Hd1 & Hid1) & _).
  destruct (build_workflow_returned _ _ _ _ _ Hyaml2) as ((d2 & Hd2 & Hid2) & _).
  assert (Hsame : wf_id tpl1 = wf_id tpl2).
  { rewrite Hd1 in Hd2. injection Hd2 as <-. rewrite Hid1 in Hid2.
    by injection Hid2. }
  simpl. split_and!.
  - reflexivity.
  - apply lookup_insert_eq.
  - intros Hdiff.
    assert (Hne : wf_id tpl1 +:+ "_" +:+ String.substring 0 8 uuid1
                  ≠ wf_id tpl2 +:+ "_" +:+ String.substring 0 8 uuid2).
    { rewrite Hsame. intros Heq. apply append_inj_r in Heq.
      apply (append_inj_r "_") in Heq. by destruct Hdiff. }
    split; [exact Hne|].
    rewrite lookup_insert_ne by (by intros Heq; destruct Hne).
    apply lookup_insert_eq.
  - intros Heq. rewrite Hsame, Heq. split; [reflexivity|].
    by rewrite insert_insert_eq.
Qed.

Lemma create_twice_from_template_witness :
  ∃ w1 st1 w2 st2,
    create_workflow_from_template report_store 0 sample_uuid_hex "report"
    = Returned (w1, st1, 4)
    ∧ create_workflow_from_template st1 4 "00000000aaaabbbbccccddddeeeeffff" "report"
      = Returned (w2, st2, 8)
    ∧ templates st2 = templates report_store.
Proof.
  eexists _, _, _, _.
  split; [vm_compute; reflexivity|].
  split; [vm_compute; reflexivity|].
  refine (proj1 (create_twice_from_template report_store _ _ 0 4 8 sample_uuid_hex
                   "00000000aaaabbbbccccddddeeeeffff" "report" _ _ _ _)).
  - vm_compute. reflexivity.
  - vm_compute. reflexivity.
Defined.

Lemma parse_tasks_raises (parse : value → outcome Task) (items : list value)
  (x : value) :
  x ∈ items →
  (∃ msg, parse x = Raised msg) →
  ∃ msg, parse_tasks parse items = Raised msg.
Proof.
  intros Hin Hraise. induction Hin as [x items|x y items Hin IH]; cbn [parse_tasks].
  - destruct Hraise as [msg Hmsg]. rewrite Hmsg. exists msg. reflexivity.
  - destruct (parse y) as [t|msg]; [|exists msg; reflexivity].
    destruct (IH Hraise) as [msg Hmsg]. rewrite Hmsg. exists msg. reflexivity.
Qed.

(** X20: [load_workflow_instance] reports an unusable file as None instead of
    raising: no file under that id, a document that is not a mapping, a
    mapping without an id or without a name, or a task entry without an
    id all give None. *)
Theorem load_reports_unusable_files_as_none (st : Stores) (clock : nat)
  (workflow_id : string) :
  (instances st !! workflow_id = None →
   load_workflow_instance st clock workflow_id = None)
  ∧ (∀ data, instances st !! workflow_id = Some data →
       (∀ d, data ≠ VDict d) →
       load_workflow_instance st clock workflow_id = None)
  ∧ (∀ d, instances st !! workflow_id = Some (VDict d) →
       dict_get d "id" = None ∨ dict_get d "name" = None →
       load_workflow_instance st clock workflow_id = None)
  ∧ (∀ d items task_entry,
       instances st !! workflow_id = Some (VDict d) →
       dict_get d "tasks" = Some (VList items) →
       VDict task_entry ∈ items →
       dict_get task_entry "id" = None →
       load_workflow_instance st clock workflow_id = None).
Proof.
  unfold load_workflow_instance. split_and!.
  - by intros ->.
  - intros data -> Hnot. destruct data as [| | | | |d]; try reflexivity.
    by destruct (Hnot d).
  - intros d -> Hmissing.
    unfold Workflow_from_dict, build_workflow, required_str. simpl.
    destruct Hmissing as [-> | ->]; [reflexivity|].
    by destruct (dict_get d "id") as [[]|].
  - intros d items task_entry -> Htasks Hin Hnoid.
    destruct (Workflow_from_dict clock (VDict d)) as [[w clock']|] eqn:Hparse;
      [|reflexivity].
    exfalso. unfold Workflow_from_dict, build_workflow in Hparse.
    apply bind_returned in Hparse as (d' & Hd' & Hparse). injection Hd' as <-.
    apply bind_returned in Hparse as (id & _ & Hparse).
    apply bind_returned in Hparse as (name & _ & Hparse).
    apply bind_returned in Hparse as (description & _ & Hparse).
    apply bind_returned in Hparse as (items' & Hitems & Hparse).
    apply bind_returned in Hparse as (tasks & Hparsed & _).
    unfold dict_get_default in Hitems. rewrite Htasks in Hitems.
    injection Hitems as <-.
    destruct (parse_tasks_raises Task_from_dict items (VDict task_entry) Hin)
      as [msg Hraise]; [|by rewrite Hraise in Hparsed].
    unfold Task_from_dict, required_str. simpl. rewrite Hnoid. by eexists.
Qed.

Lemma load_reports_unusable_files_as_none_witness :
  load_workflow_instance no_files 0 "wf1" = None.
Proof.
  refine (proj1 (load_reports_unusable_files_as_none no_files 0 "wf1") _).
  reflexivity.
Defined.

(** X21: Instance files accept the older key names: [Task.from_dict] takes
    the handler type from "handler" and only in its absence from "type"
    (the empty string when both are missing), and the parameters from
    "parameters" and only in its absence from "params". *)
Theorem from_dict_accepts_legacy_keys (d : pydict) (t : Task) :
  Task_from_dict (VDict d) = Returned t →
  dict_get d "id" = Some (VStr (task_id t))
  ∧ (∀ v, dict_get d "handler" = Some v → v = VStr (task_handler t))
  ∧ (dict_get d "handler" = None →
     (∀ v, dict_get d "type" = Some v → v = VStr (task_handler t))
     ∧ (dict_get d "type" = None → task_handler t = ""))
  ∧ (∀ p, dict_get d "parameters" = Some (VDict p) → task_parameters t = p)
  ∧ (dict_get d "parameters" = None →
     (∀ p, dict_get d "params" = Some (VDict p) → task_parameters t = p)
     ∧ (dict_get d "params" = None → task_parameters t = [])).
Proof.
  unfold Task_from_dict. intros Hparse.
  apply bind_returned in Hparse as (d' & Hd' & Hparse). injection Hd' as <-.
  apply bind_returned in Hparse as (id & Hid & Hparse).
  apply bind_returned in Hparse as (handler & Hhandler & Hparse).
  apply bind_returned in Hparse as (parameters & Hparams & Hparse).
  apply bind_returned in Hparse as (description & _ & Hparse).
  injection Hparse as <-. simpl.
  assert (Hstr : ∀ v s, as_str v = Returned s → v = VStr s).
  { intros v s. destruct v; try discriminate. intros Heq. by injection Heq as ->. }
  assert (Hdict : ∀ p q, parameters_or_empty (VDict p) = Returned q → q = p).
  { intros p q. unfold parameters_or_empty. destruct p; simpl; intros Heq;
      by injection Heq as <-. }
  unfold dict_get_default in Hhandler, Hparams.
  split_and!.
  - by apply required_str_returned.
  - intros v Hv. rewrite Hv in Hhandler. by apply Hstr.
  - intros Hnone. rewrite Hnone in Hhandler. split.
    + intros v Hv. rewrite Hv in Hhandler. by apply Hstr.
    + intros Hnone'. rewrite Hnone' in Hhandler. by injection Hhandler as <-.
  - intros p Hp. rewrite Hp in Hparams. by apply Hdict.
  - intros Hnone. rewrite Hnone in Hparams. split.
    + intros p Hp. rewrite Hp in Hparams. by apply Hdict.
    + intros Hnone'. rewrite Hnone' in Hparams. by apply Hdict.
Qed.

Lemma from_dict_accepts_legacy_keys_witness :
  VStr "echo"
  = VStr (task_handler (Task_init "t1" "echo" [("text", VStr "x")] "")).
Proof.
  refine (proj1 (proj1 (proj2 (proj2 (from_dict_accepts_legacy_keys
            (("id", VStr "t1") :: ("params", VDict [("text", VStr "x")])
               :: legacy_task_entry)
            (Task_init "t1" "echo" [("text", VStr "x")] "") _))) _) (VStr "echo") _).
  - reflexivity.
  - reflexivity.
  - reflexivity.
Defined.

(** X22: Templates are stricter than instance files: a template in which one
    task entry has no "handler" key (for instance one written with the
    older "type" key) cannot be instantiated at all:
    [create_workflow_from_template] raises and nothing is stored. *)
Theorem template_task_without_handler_blocks_creation (st : Stores) (clock : nat)
  (uuid_hex template_id : string) (d : pydict) (items : list value)
  (task_entry : pydict) :
  templates st !! template_id = Some (VDict d) →
  dict_get d "tasks" = Some (VList items) →
  VDict task_entry ∈ items →
  dict_get task_entry "handler" = None →
  ∃ msg, create_workflow_from_template st clock uuid_hex template_id = Raised msg.
Proof.
  intros Htemplate Htasks Hin Hnohandler.
  unfold create_workflow_from_template. rewrite Htemplate.
  assert (Hparse : ∃ msg, parse_tasks Task_from_yaml items = Raised msg).
  { apply parse_tasks_raises with (VDict task_entry); [exact Hin|].
    unfold Task_from_yaml. simpl.
    destruct (required_str task_entry "id") as [id|msg]; simpl; [|by exists msg].
    unfold required_str. rewrite Hnohandler. by eexists. }
  destruct Hparse as [msg Hparse].
  unfold Workflow_from_yaml, build_workflow. simpl.
  destruct (required_str d "id") as [id|msg1]; simpl; [|by exists msg1].
  destruct (required_str d "name") as [name|msg2]; simpl; [|by exists msg2].
  destruct (as_str (dict_get_default d "description" (VStr ""))) as [desc|msg3];
    simpl; [|by exists msg3].
  unfold dict_get_default at 1. rewrite Htasks. simpl. rewrite Hparse.
  by exists msg.
Qed.

Lemma template_task_without_handler_blocks_creation_witness :
  ∃ msg, create_workflow_from_template legacy_store 0 sample_uuid_hex "legacy" = Raised msg.
Proof.
  refine (template_task_without_handler_blocks_creation legacy_store 0 sample_uuid_hex
            "legacy" legacy_template [VDict legacy_task_entry] legacy_task_entry _ _ _ _).
  - reflexivity.
  - reflexivity.
  - apply list_elem_of_here.
  - reflexivity.
Defined.

(** * The runner thread *)

Lemma accumulate_same_handlers (eng eng' : WorkflowEngine) (tasks : list Task) :
  task_handlers eng' = task_handlers eng →
  ∀ results, accumulate eng' results tasks = accumulate eng results tasks.
Proof.
  intros Hhandlers. induction tasks as [|t tasks IH]; intros results; simpl.
  - reflexivity.
  - unfold task_body. rewrite Hhandlers.
    destruct (task_handlers eng !! task_handler t) as [h|]; [|reflexivity].
    destruct (_process_params (task_parameters t) results) as [params|]; [|reflexivity].
    destruct (h params); [apply IH|reflexivity].
Qed.

(** X23: The runner thread reports a cancelled run as a completion: when the
    flag is seen set before task i and the tasks before it succeeded,
    [WorkflowRunnerThread.run] emits [workflowCompleted], not
    [workflowFailed], for a workflow whose status is failed and whose
    error is the cancellation message, after storing the partial results
    in [workflow.result]. *)
Theorem cancelled_run_is_reported_completed (eng : WorkflowEngine)
  (cancel : nat → bool) (clock : nat) (workflow : Workflow)
  (pre post : list Task) (t : Task) (acc : gmap string value) :
  wf_tasks workflow = pre ++ t :: post →
  (∀ j, j < length pre → cancel j = false) →
  cancel (length pre) = true →
  accumulate eng ∅ pre = Some acc →
  ∃ w',
    (runner_thread_run eng cancel clock workflow).2 = workflowCompleted w'
    ∧ rr_workflow (runner_thread_run eng cancel clock workflow).1 = w'
    ∧ wf_status w' = Failed
    ∧ wf_error w' = Some cancel_message
    ∧ wf_result w' = Some acc.
Proof.
  intros Htasks Hcancel Hset Hacc.
  destruct (run_tasks_app (with_thread_callbacks eng) cancel pre (t :: post)
              0 (-1) clock ∅ acc)
    as (pre' & index' & clock' & log' & Hrun); [exact Hcancel| |].
  { by rewrite (accumulate_same_handlers eng). }
  cbv zeta in Hrun.
  rewrite (run_tasks_cancelled _ cancel (0 + length pre) index' clock' acc t post)
    in Hrun by exact Hset.
  rewrite <- Htasks in Hrun. simpl in Hrun.
  destruct Hrun as (Ht & Hl & Hr & He & _).
  unfold runner_thread_run. fold (with_thread_callbacks eng).
  unfold execute_workflow. rewrite He. simpl. rewrite Hr.
  eexists. split_and!; reflexivity.
Qed.

Lemma cancelled_run_is_reported_completed_witness :
  ∃ w',
    (runner_thread_run echo_engine (cancelled_before 1) 0
       (three_tasks (echo_task "t2" "again"))).2 = workflowCompleted w'
    ∧ wf_status w' = Failed.
Proof.
  destruct (cancelled_run_is_reported_completed echo_engine (cancelled_before 1) 0
              (three_tasks (echo_task "t2" "again"))
              [echo_task "t1" "hello"] [echo_task "t3" "$t1"]
              (echo_task "t2" "again") (<["t1" := VStr "hello"]> ∅))
    as (w' & Hsig & _ & Hstatus & _).
  - reflexivity.
  - intros j Hj. destruct j as [|j]; [reflexivity|simpl in Hj; lia].
  - reflexivity.
  - vm_compute. reflexivity.
  - exists w'. by split.
Defined.

(** X24: What the two thread signals mean: [workflowFailed] is emitted exactly
    for a run that raised, with the raised message, which is also the
    workflow's error; [workflowCompleted] is emitted for every run that
    returned, and the workflow it carries holds the returned accumulator
    as its result and is either completed or failed with the
    cancellation message. *)
Theorem thread_signal_meaning (eng : WorkflowEngine) (cancel : nat → bool)
  (clock : nat) (workflow : Workflow) :
  let rr := execute_workflow (with_thread_callbacks eng) cancel clock workflow in
  match (runner_thread_run eng cancel clock workflow).2 with
  | workflowFailed w msg =>
      rr_outcome rr = Raised msg
      ∧ w = rr_workflow rr
      ∧ wf_status w = Failed
      ∧ wf_error w = Some msg
  | workflowCompleted w =>
      ∃ acc,
        rr_outcome rr = Returned acc
        ∧ w = with_result (rr_workflow rr) (Some acc)
        ∧ wf_result w = Some acc
        ∧ (wf_status w = Completed
           ∨ (wf_status w = Failed ∧ wf_error w = Some cancel_message))
  end.
Proof.
  unfold runner_thread_run. fold (with_thread_callbacks eng).
  unfold execute_workflow.
  destruct (ls_exit (run_tasks (with_thread_callbacks eng) cancel 0 false (-1) clock ∅
                       (wf_tasks workflow))); simpl.
  - eexists. split_and!; try reflexivity. by left.
  - eexists. split_and!; try reflexivity. by right.
  - split_and!; reflexivity.
Qed.

(** * Listings *)

Lemma length_append (a b : string) :
  String.length (a +:+ b) = String.length a + String.length b.
Proof. induction a as [|c a IH]; simpl; [reflexivity|by rewrite IH]. Qed.

Lemma append_inj_l (a b x : string) : a +:+ x = b +:+ x → a = b.
Proof.
  revert b. induction a as [|c a IH]; intros [|c' b] Heq.
  - reflexivity.
  - apply (f_equal String.length) in Heq.
    rewrite !length_append in Heq. simpl in Heq. lia.
  - apply (f_equal String.length) in Heq.
    rewrite !length_append in Heq. simpl in Heq. lia.
  - simpl in Heq. injection Heq as -> Heq. f_equal. by apply IH.
Qed.

Lemma glob_files_elem_of (directory : gmap string value) (stem : string) (data : value) :
  (stem, data) ∈ glob_files directory
  ↔ directory !! stem = Some data ∧ listed_by_glob stem = true.
Proof.
  unfold glob_files. rewrite list_elem_of_filter, elem_of_map_to_list. simpl.
  split; intros [? ?]; by split.
Qed.

Lemma glob_files_length (directory : gmap string value) :
  length (glob_files directory) ≤ size directory.
Proof. unfold glob_files. rewrite <- length_map_to_list. apply length_filter. Qed.

Lemma omap_length_le {A B : Type} (f : A → option B) (l : list A) :
  length (omap f l) ≤ length l.
Proof.
  induction l as [|x l IH]; csimpl; [lia|].
  destruct (f x); csimpl; lia.
Qed.

Lemma as_str_returned (v : value) (s : string) : as_str v = Returned s → v = VStr s.
Proof. destruct v; try discriminate. intros Heq. by injection Heq as ->. Qed.

Lemma as_list_returned (v : value) (l : list value) : as_list v = Returned l → v = VList l.
Proof. destruct v; try discriminate. intros Heq. by injection Heq as ->. Qed.

Lemma Task_from_yaml_loads (task_data : value) (t : Task) :
  Task_from_yaml task_data = Returned t → yaml_task_loads task_data = true.
Proof.
  unfold Task_from_yaml. intros Hparse.
  apply bind_returned in Hparse as (d & Hd & Hparse).
  apply bind_returned in Hparse as (id & Hid & Hparse).
  apply bind_returned in Hparse as (handler & Hhandler & _).
  apply as_dict_returned in Hd as ->.
  apply required_str_returned in Hid, Hhandler.
  simpl. by rewrite Hid, Hhandler.
Qed.

Lemma parse_tasks_yaml_count (items : list value) :
  ∀ tasks, parse_tasks Task_from_yaml items = Returned tasks →
    yaml_tasks_count (VList items) = Some (length tasks).
Proof.
  induction items as [|task_data items IH]; intros tasks Hparse.
  - by injection Hparse as <-.
  - cbn [parse_tasks] in Hparse.
    apply bind_returned in Hparse as (t & Ht & Hparse).
    apply bind_returned in Hparse as (tasks' & Htasks' & Hparse).
    injection Hparse as <-.
    specialize (IH tasks' Htasks'). simpl in IH |- *.
    rewrite (Task_from_yaml_loads _ _ Ht). simpl.
    destruct (forallb yaml_task_loads items); [|discriminate IH].
    injection IH as ->. reflexivity.
Qed.

(** A template that loads into the typed workflow is summarised from the
    fields of that workflow. *)
Lemma yaml_summary_typed (file_path : string) (clock clock' : nat) (data : value)
  (w : Workflow) :
  Workflow_from_yaml clock data = Returned (w, clock') →
  yaml_summary file_path data = Some (template_summary file_path w).
Proof.
  unfold Workflow_from_yaml, build_workflow. intros Hbuild.
  apply bind_returned in Hbuild as (d & Hd & Hbuild).
  apply bind_returned in Hbuild as (id & Hid & Hbuild).
  apply bind_returned in Hbuild as (name & Hname & Hbuild).
  apply bind_returned in Hbuild as (description & Hdesc & Hbuild).
  apply bind_returned in Hbuild as (items & Hitems & Hbuild).
  apply bind_returned in Hbuild as (tasks & Htasks & Hbuild).
  injection Hbuild as <- _.
  apply as_dict_returned in Hd as ->.
  apply required_str_returned in Hid, Hname.
  apply as_str_returned in Hdesc. apply as_list_returned in Hitems.
  unfold yaml_summary, template_summary. rewrite Hid, Hname. simpl.
  rewrite Hitems, (parse_tasks_yaml_count _ _ Htasks), Hdesc. reflexivity.
Qed.

Lemma yaml_summary_fields (file_path : string) (data : value) (s : TemplateSummary) :
  yaml_summary file_path data = Some s →
  ∃ d, data = VDict d
       ∧ dict_get d "id" = Some (ts_id s)
       ∧ dict_get d "name" = Some (ts_name s)
       ∧ ts_description s = dict_get_default d "description" (VStr "")
       ∧ yaml_tasks_count (dict_get_default d "tasks" (VList [])) = Some (ts_tasks_count s)
       ∧ ts_file_path s = file_path.
Proof.
  destruct data as [| | | | |d]; try discriminate. simpl. intros Hsum.
  destruct (dict_get d "id") as [id|] eqn:Hid; [|discriminate Hsum].
  destruct (dict_get d "name") as [name|] eqn:Hname; [|discriminate Hsum].
  simpl in Hsum.
  destruct (yaml_tasks_count (dict_get_default d "tasks" (VList []))) as [n|] eqn:Hcount;
    [|discriminate Hsum].
  injection Hsum as <-. exists d. by split_and!.
Qed.

(** X25: [get_templates] lists the template files that [glob] matches and
    that load.  A file is in the listing exactly when its name does not
    start with a dot and its document is a mapping with an id, a name
    and a task list that the loop of [Workflow.from_yaml] goes through,
    whatever the other files hold (a file that fails is skipped without
    hiding the others); the summary carries the id, name and description
    as the document has them (a numeric id or a null description is
    listed as such), the number of tasks and the path; a template that
    loads into a typed workflow is listed with the fields of that
    workflow; a hidden template is never listed; and there are no more
    summaries than files. *)
Theorem get_templates_lists_loadable_files (st : Stores) :
  (∀ s, s ∈ get_templates st
        ↔ ∃ stem data,
            templates st !! stem = Some data
            ∧ listed_by_glob stem = true
            ∧ yaml_summary (stem +:+ ".yaml") data = Some s)
  ∧ (∀ s, s ∈ get_templates st →
       ∃ stem d,
         templates st !! stem = Some (VDict d)
         ∧ listed_by_glob stem = true
         ∧ dict_get d "id" = Some (ts_id s)
         ∧ dict_get d "name" = Some (ts_name s)
         ∧ ts_description s = dict_get_default d "description" (VStr "")
         ∧ yaml_tasks_count (dict_get_default d "tasks" (VList []))
           = Some (ts_tasks_count s)
         ∧ ts_file_path s = stem +:+ ".yaml")
  ∧ (∀ stem data w clock clock',
       templates st !! stem = Some data →
       listed_by_glob stem = true →
       Workflow_from_yaml clock data = Returned (w, clock') →
       template_summary (stem +:+ ".yaml") w ∈ get_templates st)
  ∧ (∀ stem s,
       listed_by_glob stem = false →
       s ∈ get_templates st →
       ts_file_path s ≠ stem +:+ ".yaml")
  ∧ length (get_templates st) ≤ size (templates st).
Proof.
  assert (Hiff : ∀ s, s ∈ get_templates st
            ↔ ∃ stem data,
                templates st !! stem = Some data
                ∧ listed_by_glob stem = true
                ∧ yaml_summary (stem +:+ ".yaml") data = Some s).
  { intros s. unfold get_templates. rewrite list_elem_of_omap. split.
    - intros ([stem data] & Hin & Hsum). apply glob_files_elem_of in Hin as [Hl Hg].
      by exists stem, data.
    - intros (stem & data & Hl & Hg & Hsum). exists (stem, data).
      split; [by apply glob_files_elem_of|exact Hsum]. }
  split_and!.
  - exact Hiff.
  - intros s Hin. apply Hiff in Hin as (stem & data & Hl & Hg & Hsum).
    apply yaml_summary_fields in Hsum as (d & -> & Hid & Hname & Hdesc & Hcount & Hpath).
    exists stem, d. by split_and!.
  - intros stem data w clock clock' Hl Hg Hyaml. apply Hiff.
    exists stem, data. split_and!; [exact Hl|exact Hg|].
    by apply yaml_summary_typed with clock clock'.
  - intros stem s Hhidden Hin Hpath.
    apply Hiff in Hin as (stem' & data & _ & Hg & Hsum).
    apply yaml_summary_fields in Hsum as (_ & _ & _ & _ & _ & _ & Hpath').
    rewrite Hpath' in Hpath. apply append_inj_l in Hpath as ->.
    rewrite Hg in Hhidden. discriminate Hhidden.
  - unfold get_templates.
    etrans; [apply omap_length_le|apply glob_files_length].
Qed.

Lemma get_templates_lists_loadable_files_witness :
  ∃ s, s ∈ get_templates mixed_templates
       ∧ ts_id s = VStr "daily"
       ∧ ts_tasks_count s = 1
       ∧ ts_file_path s = "report.yaml".
Proof.
  eexists. split.
  - refine (proj1 (proj2 (proj2 (get_templates_lists_loadable_files mixed_templates)))
              "report" report_template
              {| wf_id := "daily";
                 wf_name := "Daily report";
                 wf_description := "";
                 wf_tasks := [Task_init "fetch" "echo" [] ""];
                 wf_status := Pending;
                 wf_result := None;
                 wf_error := None;
                 wf_current_task_index := -1;
                 wf_created_at := 0;
                 wf_updated_at := 2 |} 0 3 _ _ _).
    + vm_compute. reflexivity.
    + reflexivity.
    + reflexivity.
  - by split_and!.
Defined.

(** The listing of [mixed_templates]: the hidden file and the file that
    holds a sequence are left out; the template with a numeric id and a
    null description is listed with those values. *)
Example get_templates_mixed :
  get_templates mixed_templates
  ≡ₚ [ {| ts_id := VStr "daily"; ts_name := VStr "Daily report";
          ts_description := VStr ""; ts_tasks_count := 1;
          ts_file_path := "report.yaml" |};
       {| ts_id := VInt 7; ts_name := VStr "Loose";
          ts_description := VNone; ts_tasks_count := 0;
          ts_file_path := "loose.yaml" |} ].
Proof. vm_compute. reflexivity. Qed.

Example sort_by_created_at_descending :
  (λ sorted : list (string * InstanceSummary),
     (λ entry, is_file_path entry.2) <$> sorted) <$> returned
    (sort_by_created_at
       [instance_summary "a.json" [("created_at", VStr "2024-01-02")];
        instance_summary "b.json" [("created_at", VStr "2024-03-01")];
        instance_summary "c.json" [("created_at", VStr "2024-01-02")];
        instance_summary "d.json" []] [])
  = Some ["b.json"; "a.json"; "c.json"; "d.json"].
Proof. vm_compute. reflexivity. Qed.

Lemma insert_blank_key (x : InstanceSummary) (sorted : list (string * InstanceSummary)) :
  Forall (λ entry, entry.1 = "") sorted →
  insert_by_created_at "" x sorted = sorted ++ [("", x)].
Proof.
  induction 1 as [|[k y] sorted Hk _ IH]; [reflexivity|].
  simpl in Hk. subst k. cbn [insert_by_created_at]. rewrite IH. reflexivity.
Qed.

Lemma sort_blank_keys (summaries : list InstanceSummary) :
  Forall (λ s, is_created_at s = VStr "") summaries →
  ∀ sorted, Forall (λ entry, entry.1 = "") sorted →
    sort_by_created_at summaries sorted
    = Returned (sorted ++ ((λ s, ("", s)) <$> summaries)).
Proof.
  induction 1 as [|x summaries Hx _ IH]; intros sorted Hsorted.
  - simpl. by rewrite app_nil_r.
  - cbn [sort_by_created_at]. rewrite Hx. simpl.
    rewrite (insert_blank_key x sorted Hsorted), IH.
    + by rewrite <- app_assoc.
    + apply Forall_app. split; [exact Hsorted|]. by repeat constructor.
Qed.

Lemma summarise_saved_instances (files : list (string * value)) :
  Forall (λ file, ∃ w, file.2 = Workflow_to_dict w) files →
  summarise_instances files
  = (λ file, instance_summary (file.1 +:+ ".json")
               (match file.2 with VDict d => d | _ => [] end)) <$> files
  ∧ Forall (λ s, is_status s = VStr "" ∧ is_created_at s = VStr ""
                 ∧ is_updated_at s = VStr "") (summarise_instances files).
Proof.
  induction 1 as [|[stem data] files [w Hw] _ [IHeq IHall]]; [by split|].
  simpl in Hw. subst data. cbn [summarise_instances Workflow_to_dict].
  split.
  - rewrite fmap_cons, IHeq. reflexivity.
  - constructor; [by split_and!|exact IHall].
Qed.

(** X26: Instance files written by [save_workflow_instance] hold no status
    and no timestamps.  When every file that [glob] matches was written
    by it, [get_instances] lists each of them (a file whose name starts
    with a dot is never listed) with an empty status, an empty
    [created_at] and an empty [updated_at]; the sort by creation time
    then has nothing to order and the listing is the directory order,
    one entry per matched file, each with the id and name of the saved
    workflow. *)
Theorem get_instances_shows_no_status (st : Stores) :
  (∀ stem data,
     instances st !! stem = Some data →
     listed_by_glob stem = true →
     ∃ w, data = Workflow_to_dict w) →
  ∃ listing,
    get_instances st = Returned listing
    ∧ listing = summarise_instances (glob_files (instances st))
    ∧ length listing = length (glob_files (instances st))
    ∧ length listing ≤ size (instances st)
    ∧ Forall (λ s, is_status s = VStr "" ∧ is_created_at s = VStr ""
                   ∧ is_updated_at s = VStr "") listing
    ∧ (∀ stem w,
         instances st !! stem = Some (Workflow_to_dict w) →
         listed_by_glob stem = true →
         ∃ s, s ∈ listing
              ∧ is_id s = VStr (wf_id w)
              ∧ is_name s = VStr (wf_name w)
              ∧ is_file_path s = stem +:+ ".json")
    ∧ (∀ stem s,
         listed_by_glob stem = false →
         s ∈ listing →
         is_file_path s ≠ stem +:+ ".json").
Proof.
  intros Hsaved.
  assert (Hfiles : Forall (λ file, ∃ w, file.2 = Workflow_to_dict w)
                     (glob_files (instances st))).
  { apply Forall_forall. intros [stem data] Hin.
    apply glob_files_elem_of in Hin as [Hl Hg]. by apply (Hsaved stem). }
  destruct (summarise_saved_instances _ Hfiles) as [Heq Hblank].
  assert (Hkeys : Forall (λ s, is_created_at s = VStr "")
                    (summarise_instances (glob_files (instances st)))).
  { eapply Forall_impl; [exact Hblank|]. by intros s (_ & Hc & _). }
  exists (summarise_instances (glob_files (instances st))).
  split_and!.
  - unfold get_instances. rewrite (sort_blank_keys _ Hkeys []) by constructor.
    simpl. rewrite <- list_fmap_compose. f_equal. apply list_fmap_id.
  - reflexivity.
  - by rewrite Heq, length_fmap.
  - rewrite Heq, length_fmap. apply glob_files_length.
  - exact Hblank.
  - intros stem w Hlookup Hg.
    exists (instance_summary (stem +:+ ".json")
              (match Workflow_to_dict w with VDict d => d | _ => [] end)).
    split; [|by split_and!].
    rewrite Heq. apply list_elem_of_fmap.
    exists (stem, Workflow_to_dict w). split; [reflexivity|].
    by apply glob_files_elem_of.
  - intros stem s Hhidden Hin Hpath.
    rewrite Heq in Hin. apply list_elem_of_fmap in Hin as ([stem' data] & -> & Hin).
    apply glob_files_elem_of in Hin as [_ Hg]. simpl in Hpath.
    apply append_inj_l in Hpath as ->.
    rewrite Hg in Hhidden. discriminate Hhidden.
Qed.

Lemma get_instances_shows_no_status_witness :
  ∃ listing,
    get_instances hidden_instance = Returned listing
    ∧ is_file_path <$> listing = ["wf1.json"]
    ∧ is_status <$> listing = [VStr ""].
Proof.
  destruct (get_instances_shows_no_status hidden_instance)
    as (listing & Hget & Heq & _).
  - intros stem data Hlookup Hg. simpl in Hlookup.
    apply lookup_insert_Some in Hlookup as [[<- _]|[_ Hlookup]];
      [discriminate Hg|].
    apply lookup_insert_Some in Hlookup as [[_ <-]|[_ Hempty]].
    + by eexists.
    + by rewrite lookup_empty in Hempty.
  - exists listing. split; [exact Hget|]. rewrite Heq.
    split; vm_compute; reflexivity.
Defined.

(** * Configuration *)

Lemma dict_get_set (d : pydict) (key key' : string) (v : value) :
  dict_get (dict_set d key v) key'
  = if String.eqb key key' then Some v else dict_get d key'.
Proof.
  induction d as [|[k w] d IH]; simpl.
  - reflexivity.
  - destruct (String.eqb k key) eqn:Hk; simpl.
    + apply String.eqb_eq in Hk as ->. by destruct (String.eqb key key').
    + rewrite IH. destruct (String.eqb key key') eqn:Hkey; [|reflexivity].
      apply String.eqb_eq in Hkey as <-. by rewrite Hk.
Qed.

(** X27: [ConfigManager.set] then [get]: after a [set] that returns, [get] of
    that section and key gives the value set, every other key of the
    section and every other section reads as before (a section that did
    not exist is created holding just that key), and [set] raises,
    leaving no new configuration, when the section exists but does not
    hold a mapping. *)
Theorem config_set_then_get (config : pydict) (section key : string) (v : value) :
  (∀ config', ConfigManager_set config section key v = Returned config' →
     (∀ default, ConfigManager_get config' section (Some key) default = Returned v)
     ∧ (∀ key' default, key' ≠ key →
          ConfigManager_get config' section (Some key') default
          = ConfigManager_get config section (Some key') default)
     ∧ (∀ section' key' default, section' ≠ section →
          ConfigManager_get config' section' key' default
          = ConfigManager_get config section' key' default))
  ∧ (∀ x, dict_get config section = Some x → (∀ d, x ≠ VDict d) →
       ∃ msg, ConfigManager_set config section key v = Raised msg).
Proof.
  unfold ConfigManager_set. split.
  - intros config' Hset.
    apply bind_returned in Hset as (section_data & Hdata & Hset).
    injection Hset as <-.
    apply as_dict_returned in Hdata.
    set (base := match dict_get config section with
                 | Some _ => config
                 | None => dict_set config section (VDict [])
                 end) in *.
    assert (Hbase : ∀ section' default,
               section' ≠ section →
               dict_get_default base section' default
               = dict_get_default config section' default).
    { intros section' default Hne. subst base. unfold dict_get_default.
      destruct (dict_get config section); [reflexivity|].
      rewrite dict_get_set.
      destruct (String.eqb section section') eqn:Heq; [|reflexivity].
      apply String.eqb_eq in Heq. by destruct Hne. }
    assert (Hsection : dict_get_default config section (VDict []) = VDict section_data).
    { subst base. unfold dict_get_default in *.
      destruct (dict_get config section) as [x|] eqn:Hx.
      - by rewrite Hx in Hdata.
      - rewrite dict_get_set, String.eqb_refl in Hdata. by injection Hdata as <-. }
    split_and!.
    + intros default. unfold ConfigManager_get, dict_get_default.
      rewrite dict_get_set, String.eqb_refl. simpl.
      by rewrite dict_get_set, String.eqb_refl.
    + intros key' default Hne. unfold ConfigManager_get.
      rewrite Hsection. unfold dict_get_default at 2.
      rewrite dict_get_set, String.eqb_refl. simpl. unfold dict_get_default.
      rewrite dict_get_set.
      destruct (String.eqb key key') eqn:Heq; [|reflexivity].
      apply String.eqb_eq in Heq. by destruct Hne.
    + intros section' key' default Hne.
      assert (Hother : ∀ default',
                 dict_get_default
                   (dict_set base section (VDict (dict_set section_data key v)))
                   section' default'
                 = dict_get_default config section' default').
      { intros default'. rewrite <- (Hbase section' default' Hne).
        unfold dict_get_default. rewrite dict_get_set.
        destruct (String.eqb section section') eqn:Heq; [|reflexivity].
        apply String.eqb_eq in Heq. by destruct Hne. }
      unfold ConfigManager_get. destruct key' as [k|]; by rewrite !Hother.
  - intros x Hx Hnot. rewrite Hx. unfold dict_get_default. rewrite Hx.
    destruct x as [| | | | |d]; try (by eexists). by destruct (Hnot d).
Qed.

Lemma config_set_then_get_witness :
  ConfigManager_get
    [("workflow", VDict [("auto_save", VBool true); ("default_workflows_path", VStr "./wf")])]
    "workflow" (Some "default_workflows_path") (VStr "./config/workflows")
  = Returned (VStr "./wf").
Proof.
  refine (proj1 (proj1 (config_set_then_get [("workflow", VDict [("auto_save", VBool true)])]
                          "workflow" "default_workflows_path" (VStr "./wf")) _ _) _).
  reflexivity.
Defined.

(** * Stored instances always run forward *)

(** X28: Running a workflow as it comes out of the instance store:
    whatever the file holds, every task of the loaded workflow enters
    the run pending, and over the run its status is not assigned at all,
    or set to running (and left there when the start callback raises),
    then possibly to completed or to failed; the only other history is
    pending, running, completed, failed, which occurs when the
    completion callback raises for that task.  So when the completion
    callback returns for it, the task's history is a chain of forward
    steps with no backward move. *)
Theorem loaded_workflow_runs_forward (st : Stores) (eng : WorkflowEngine)
  (obs : Observers) (cancel : nat → bool) (clock clock' : nat)
  (workflow_id : string) (w : Workflow) (i : nat) (t : Task) :
  load_workflow_instance st clock workflow_id = Some (w, clock') →
  wf_tasks w !! i = Some t →
  let history := status_history (task_status t) i
                   (rr_log (execute_workflow_observed eng obs cancel clock' w)) in
  task_status t = Pending
  ∧ (history = [Pending]
     ∨ history = [Pending; Running]
     ∨ history = [Pending; Running; Completed]
     ∨ history = [Pending; Running; Failed]
     ∨ (history = [Pending; Running; Completed; Failed]
        ∧ ∃ f r msg, complete_callback obs = Some f
                     ∧ f i (task_id t) r = Raised msg))
  ∧ ((∀ f r, complete_callback obs = Some f → f i (task_id t) r = Returned ()) →
     forward_chain history ∧ has_backward_step history = false).
Proof.
  intros Hload Hi. unfold load_workflow_instance in Hload.
  destruct (instances st !! workflow_id) as [data|]; [|discriminate Hload].
  destruct (Workflow_from_dict clock data) as [r|] eqn:Hparse; [|discriminate Hload].
  injection Hload as ->.
  destruct (build_workflow_fresh Task_from_dict clock clock' data w
              Task_from_dict_fresh Hparse) as (_ & _ & _ & _ & Hfresh).
  rewrite Forall_lookup in Hfresh. destruct (Hfresh i t Hi) as [Hpending _].
  destruct (execute_workflow_observed_log eng obs cancel clock' w) as [Hlog _].
  destruct (run_tasks_observed_writes eng obs cancel (wf_tasks w) 0 false (-1) clock' ∅)
    as [_ Hw].
  destruct (Hw i t Hi) as (t' & _ & Hcases). simpl in Hcases.
  cbv zeta. unfold status_history. rewrite Hlog, Hpending.
  split; [reflexivity|].
  destruct Hcases as [[-> _]|[[-> _]|[[-> _]|[[-> _]|(-> & _ & f & r0 & msg & Hf & Hcall)]]]].
  - split; [by left|]. by intros _.
  - split; [by right; left|]. intros _. split; [|reflexivity].
    split; [apply start_step|done].
  - split; [by right; right; left|]. intros _. split; [|reflexivity].
    split; [apply start_step|]. split; [apply complete_step|done].
  - split; [by right; right; right; left|]. intros _. split; [|reflexivity].
    split; [apply start_step|]. split; [apply fail_step|done].
  - split.
    + right; right; right; right. split; [reflexivity|]. by exists f, r0, msg.
    + intros Hreturns. rewrite (Hreturns f r0 Hf) in Hcall. discriminate Hcall.
Qed.

Lemma loaded_workflow_runs_forward_witness :
  ∃ w clock',
    reloaded = Some (w, clock')
    ∧ forward_chain
        (status_history Pending 0
           (rr_log (execute_workflow_observed echo_engine quiet_observers
                      never_cancelled clock' w))).
Proof.
  eexists _, _. split; [vm_compute; reflexivity|].
  refine (proj1 (proj2 (proj2 (loaded_workflow_runs_forward
                          (save_workflow_instance no_files (rr_workflow first_run))
                          echo_engine quiet_observers never_cancelled
                          (rr_clock first_run) _ "wf1" _ 0
                          (Task_init "t1" "echo" [("text", VStr "hello")] "") _ _)) _)).
  - vm_compute. reflexivity.
  - reflexivity.
  - intros f r Hf. simpl in Hf. by simplify_eq.
Defined.
